(** * ci_setup: the machine-setup script generator of the performance repository

    A shallow embedding of [scripts/ci_setup.py].  The script parses its
    command line, checks that [--commit-sha] and [--repository] come together,
    installs the dotnet toolchain, and writes a file of environment-variable
    assignments for the later steps of the lab run.

    Python's [str] is represented by its UTF-8 encoding, a Rocq [string] of
    bytes; [bytes] is a [string] as well.  The operations the script uses on
    [str] ([startswith], [replace] of one ASCII character by another, [join],
    [==], [%s] formatting) commute with that encoding.

    The collaborators of the script ([dotnet], [micro_benchmarks],
    [performance.common], [git], the host platform) are not part of the file;
    they are fields of the record [Env], each a function from the arguments
    of the call to its answer, which may be an exception.  A call that
    leaves the process is recorded as an [event] in the trace of the run.

    The file has three parts: the script and what it stands on; the
    vocabulary in which its behaviour is stated; the lemmas about its runs
    and the properties themselves. *)

From Stdlib Require Import Ascii.
From Stdlib Require String.
From stdpp Require Import base option list gmap strings fin_maps.

Local Open Scope string_scope.
Local Open Scope list_scope.
Local Open Scope stdpp_scope.

(** ** Exceptions *)

Inductive error : Type :=
  | ValueError (msg : string)
  | TypeError (msg : string)
  | AttributeError (name : string)
  | UnicodeDecodeError
  | SystemExit (code : nat)
  | OSError (path : string)
  | CollaboratorError (who : string).

Inductive result (A : Type) : Type :=
  | Ok (a : A)
  | Raise (e : error).

Arguments Ok {A} a.
Arguments Raise {A} e.

(** ** Strings *)

Module Str.

Definition LF : ascii := "010"%char.
Definition CR : ascii := "013"%char.

(** The one-character string [chr 34]. *)
Definition dquote : string := String "034"%char EmptyString.

(** [sep.join(l)]. *)
Fixpoint join (sep : string) (l : list string) : string :=
  match l with
  | [] => ""
  | [x] => x
  | x :: l' => x +:+ sep +:+ join sep l'
  end.

(** [s.startswith(p)]. *)
Fixpoint startswith (s p : string) : bool :=
  match p, s with
  | EmptyString, _ => true
  | String a p', String b s' => if Ascii.eqb a b then startswith s' p' else false
  | String _ _, EmptyString => false
  end.

(** [s.replace(old, new)] for one-character [old] and [new]. *)
Fixpoint replace (old new : ascii) (s : string) : string :=
  match s with
  | EmptyString => EmptyString
  | String c s' => String (if Ascii.eqb c old then new else c) (replace old new s')
  end.

(** [c in s]. *)
Fixpoint contains (c : ascii) (s : string) : bool :=
  match s with
  | EmptyString => false
  | String d s' => if Ascii.eqb c d then true else contains c s'
  end.

Definition is_linebreak (c : ascii) : bool := Ascii.eqb c LF || Ascii.eqb c CR.

(** [bytes.splitlines()]: a line ends at LF, at CR, or at CR LF; the
    terminators are dropped and a last line without terminator is kept
    when it is not empty.  [cur] is the line read so far. *)
Fixpoint splitlines_from (cur : string) (s : string) : list string :=
  match s with
  | EmptyString => match cur with EmptyString => [] | _ => [cur] end
  | String c s' =>
      if Ascii.eqb c LF then cur :: splitlines_from "" s'
      else if Ascii.eqb c CR then
        match s' with
        | String d s'' =>
            if Ascii.eqb d LF then cur :: splitlines_from "" s''
            else cur :: splitlines_from "" s'
        | EmptyString => cur :: splitlines_from "" s'
        end
      else splitlines_from (cur +:+ String c EmptyString) s'
  end.

Definition splitlines (s : string) : list string := splitlines_from "" s.

(** Every character of [s] that is not a line terminator. *)
Fixpoint strip_linebreaks (s : string) : string :=
  match s with
  | EmptyString => EmptyString
  | String c s' =>
      if is_linebreak c then strip_linebreaks s' else String c (strip_linebreaks s')
  end.

Fixpoint forallb (P : ascii -> bool) (s : string) : bool :=
  match s with
  | EmptyString => true
  | String c s' => P c && forallb P s'
  end.

End Str.

(** ** UTF-8 *)

Module Utf8.

(** What the decoder expects next: a new character ([Start]), or a
    continuation byte in the range [lo..hi] with [more] bytes after it. *)
Inductive state : Type :=
  | Start
  | Cont (lo hi : N) (more : nat).

Definition between (lo hi b : N) : bool := (lo <=? b)%N && (b <=? hi)%N.

(** The well-formed byte sequences of the Unicode standard (table 3-7):
    no overlong form, no surrogate, nothing above U+10FFFF. *)
Definition lead (b : N) : option state :=
  if between 0 127 b then Some Start
  else if between 194 223 b then Some (Cont 128 191 0)
  else if (b =? 224)%N then Some (Cont 160 191 1)
  else if between 225 236 b then Some (Cont 128 191 1)
  else if (b =? 237)%N then Some (Cont 128 159 1)
  else if between 238 239 b then Some (Cont 128 191 1)
  else if (b =? 240)%N then Some (Cont 144 191 2)
  else if between 241 243 b then Some (Cont 128 191 2)
  else if (b =? 244)%N then Some (Cont 128 143 2)
  else None.

Definition step (st : state) (b : N) : option state :=
  match st with
  | Start => lead b
  | Cont lo hi more =>
      if between lo hi b then
        Some (match more with O => Start | S m => Cont 128 191 m end)
      else None
  end.

Fixpoint run (st : state) (s : string) : option state :=
  match s with
  | EmptyString => Some st
  | String c s' =>
      match step st (N_of_ascii c) with
      | Some st' => run st' s'
      | None => None
      end
  end.

Definition valid (s : string) : bool :=
  match run Start s with
  | Some Start => true
  | _ => false
  end.

(** [b.decode('utf-8')]: the text itself when the bytes are well formed. *)
Definition decode (b : string) : result string :=
  if valid b then Ok b else Raise UnicodeDecodeError.

Definition is_ascii (c : ascii) : bool := (N_of_ascii c <? 128)%N.

End Utf8.

(** ** The command line: a model of [argparse]

    [add_arguments] below is the source's; [parse_args] is the library's
    behaviour for the kinds of argument the script declares: options spelled
    [--name value], [--name=value] or [-q], flags ([store_true]), and
    options that take one or more values ([nargs='+']).  The parser is
    created with [allow_abbrev=False] and declares no positional argument.
    Clusters of one-letter flags ([-qq]) and a value attached to a
    one-letter option are outside the model: such a command line is rejected
    here.  The first argument that is not recognized ends the parse here,
    while the library reads on and reports it at the end, so that the exit
    code may differ from the library's when [-h] comes later. *)

Inductive value : Type :=
  | VNone
  | VStr (s : string)
  | VBool (b : bool)
  | VList (l : list string).

Inductive action : Type := store | store_true | help.

(** [nargs=None], [nargs='+'], [nargs='*']. *)
Inductive nargs : Type := nargs_one | nargs_plus | nargs_star.

Record argument : Type := {
  option_strings : list string;
  dest : string;
  arg_action : action;
  arg_nargs : nargs;
  arg_default : value
}.

(** An [argparse.Namespace]: attribute name to value. *)
Abbreviation Namespace := (gmap string value).

Module Argparse.

Definition is_digit (c : ascii) : bool :=
  (48 <=? N_of_ascii c)%N && (N_of_ascii c <=? 57)%N.

Fixpoint digits1 (s : string) : bool :=
  match s with
  | EmptyString => false
  | String c EmptyString => is_digit c
  | String c s' => is_digit c && digits1 s'
  end.

(** After the sign: [\d*\.\d+]. *)
Fixpoint fraction (s : string) : bool :=
  match s with
  | EmptyString => false
  | String c s' =>
      if Ascii.eqb c "."%char then digits1 s'
      else is_digit c && fraction s'
  end.

(** The library's [_negative_number_matcher], [^-\d+$|^-\d*\.\d+$], for the
    ASCII digits. *)
Definition negative_number (s : string) : bool :=
  match s with
  | String "-"%char s' => digits1 s' || fraction s'
  | _ => false
  end.

(** [arg_string.split('=', 1)] when ['=' in arg_string]. *)
Fixpoint split_eq (s : string) : option (string * string) :=
  match s with
  | EmptyString => None
  | String c s' =>
      if Ascii.eqb c "="%char then Some (EmptyString, s')
      else match split_eq s' with
           | Some (o, v) => Some (String c o, v)
           | None => None
           end
  end.

Definition has_option (o : string) (a : argument) : bool :=
  existsb (String.eqb o) (option_strings a).

(** [parser._option_string_actions.get(o)]. *)
Definition find_option (p : list argument) (o : string) : option argument :=
  List.find (has_option o) p.

Inductive token_class : Type :=
  | Positional
  | Optional (a : argument) (explicit_arg : option string)
  | Unrecognized.

Definition parse_unknown (tok : string) : token_class :=
  if negative_number tok then Positional
  else if Str.contains " "%char tok then Positional
  else Unrecognized.

(** The library's [_parse_optional]. *)
Definition parse_optional (p : list argument) (tok : string) : token_class :=
  match tok with
  | EmptyString => Positional
  | String c rest =>
      if negb (Ascii.eqb c "-"%char) then Positional
      else
        match find_option p tok with
        | Some a => Optional a None
        | None =>
            match rest with
            | EmptyString => Positional
            | _ =>
                match split_eq tok with
                | Some (o, v) =>
                    match find_option p o with
                    | Some a => Optional a (Some v)
                    | None => parse_unknown tok
                    end
                | None => parse_unknown tok
                end
            end
        end
  end.

(** The option whose values are being read, with the values read so far. *)
Inductive pending : Type :=
  | Idle
  | Collect (a : argument) (acc : list string).

(** The defaults: the first argument that names a [dest] gives its
    default; the help action has none. *)
Fixpoint defaults (p : list argument) (ns : Namespace) : Namespace :=
  match p with
  | [] => ns
  | a :: p' =>
      match arg_action a with
      | help => defaults p' ns
      | _ =>
          match ns !! dest a with
          | Some _ => defaults p' ns
          | None => defaults p' (<[dest a := arg_default a]> ns)
          end
      end
  end.

(** The option being read is closed by the next option or by the end of
    the command line. *)
Definition finish (ns : Namespace) (pd : pending) : result Namespace :=
  match pd with
  | Idle => Ok ns
  | Collect a acc =>
      match arg_nargs a, acc with
      | nargs_one, _ => Raise (SystemExit 2)
      | nargs_plus, [] => Raise (SystemExit 2)
      | _, _ => Ok (<[dest a := VList acc]> ns)
      end
  end.

Definition start (ns : Namespace) (a : argument) (explicit_arg : option string)
  : result (Namespace * pending) :=
  match arg_action a, explicit_arg with
  | help, Some _ => Raise (SystemExit 2)
  | help, None => Raise (SystemExit 0)
  | store_true, Some _ => Raise (SystemExit 2)
  | store_true, None => Ok (<[dest a := VBool true]> ns, Idle)
  | store, Some v =>
      match arg_nargs a with
      | nargs_one => Ok (<[dest a := VStr v]> ns, Idle)
      | _ => Ok (<[dest a := VList [v]]> ns, Idle)
      end
  | store, None => Ok (ns, Collect a [])
  end.

Definition step (p : list argument) (st : Namespace * pending) (tok : string)
  : result (Namespace * pending) :=
  let '(ns, pd) := st in
  match parse_optional p tok with
  | Positional =>
      match pd with
      | Idle => Raise (SystemExit 2)
      | Collect a acc =>
          match arg_nargs a with
          | nargs_one => Ok (<[dest a := VStr tok]> ns, Idle)
          | _ => Ok (ns, Collect a (acc ++ [tok]))
          end
      end
  | Optional a explicit_arg =>
      match finish ns pd with
      | Ok ns' => start ns' a explicit_arg
      | Raise e => Raise e
      end
  | Unrecognized => Raise (SystemExit 2)
  end.

Fixpoint consume (p : list argument) (st : Namespace * pending) (argv : list string)
  : result Namespace :=
  match argv with
  | [] => finish st.1 st.2
  | tok :: argv' =>
      match step p st tok with
      | Ok st' => consume p st' argv'
      | Raise e => Raise e
      end
  end.

(** [parser.parse_args(argv)]. *)
Definition parse_args (p : list argument) (argv : list string) : result Namespace :=
  consume p (defaults p ∅, Idle) argv.

(** [ArgumentParser(...)]: a new parser knows [-h] and [--help]. *)
Definition ArgumentParser : list argument :=
  [ {| option_strings := ["-h"; "--help"]; dest := "help"; arg_action := help;
       arg_nargs := nargs_one; arg_default := VNone |} ].

End Argparse.

(** ** Effects

    A run threads the trace of the calls that left the process and the
    content of the files that the script itself writes.  What a collaborator
    does to the file system (the installer fills the tools folder,
    [remove_dotnet] deletes the toolchain) is behind its call and is not
    part of the state, and a write into the file that was opened is taken
    to succeed.  An exception stops the run; what was done before it stays
    done. *)

Inductive event : Type :=
  | EvValidateRuntime
  | EvSetupLoggers (verbose : bool)
  | EvLog (msg : string)
  | EvInstall (architecture : string) (channels versions : list string) (verbose : bool)
  | EvDotnetInfo (verbose : bool)
  | EvGetRepository (url : string)
  | EvGitRevParseHead (cwd : string)
  | EvGetDotnetVersion (framework : string) (cli : option string)
  | EvGetDotnetSdk (framework : string) (cli : option string)
  | EvGetCommitDate (framework commit_sha : string) (repo_url : option string)
  | EvOpen (path : string)
  | EvWriteText (path text : string)
  | EvRemoveDotnet (architecture : string).

Record State : Type := {
  trace : list event;
  files : gmap string string
}.

Definition M (A : Type) : Type := State -> result A * State.

Definition ret {A} (a : A) : M A := fun s => (Ok a, s).

Definition raise {A} (e : error) : M A := fun s => (Raise e, s).

Definition bind {A B} (m : M A) (k : A -> M B) : M B :=
  fun s =>
    match m s with
    | (Ok a, s') => k a s'
    | (Raise e, s') => (Raise e, s')
    end.

#[export] Instance M_ret : MRet M := @ret.
#[export] Instance M_bind : MBind M := fun A B k m => bind m k.

(** A fallible computation that stays inside the process. *)
Definition lift {A} (r : result A) : M A := fun s => (r, s).

Definition record (ev : event) (s : State) : State :=
  {| trace := trace s ++ [ev]; files := files s |}.

(** A call to a collaborator: it is recorded, then it returns or raises. *)
Definition call {A} (ev : event) (r : result A) : M A :=
  fun s => (r, record ev s).

(** [getLogger().info(msg)]. *)
Definition log_info (msg : string) : M unit := call (EvLog msg) (Ok tt).

(** [[f(x) for x in l]], left to right. *)
Fixpoint collect {A B} (f : A -> M B) (l : list A) : M (list B) :=
  match l with
  | [] => ret []
  | x :: l' => y ← f x; ys ← collect f l'; ret (y :: ys)
  end.

(** [for x in l: f(x)]. *)
Fixpoint forM_ {A} (f : A -> M unit) (l : list A) : M unit :=
  match l with
  | [] => ret tt
  | x :: l' => f x;; forM_ f l'
  end.

(** ** The collaborators and the host *)

Record Env : Type := {
  (** [sys.platform] *)
  sys_platform : string;
  (** [os.path.join] of the host *)
  os_path_join : string -> string -> string;
  (** whether [open(path, 'w')] succeeds *)
  writable : string -> bool;
  (** [performance.common] *)
  get_tools_directory : string;
  get_repo_root_path : string;
  validate_supported_runtime : result unit;
  (** the arguments that [dotnet.add_arguments] and
      [micro_benchmarks.add_arguments] declare *)
  dotnet_add_arguments : list argument;
  micro_benchmarks_add_arguments : list argument;
  (** [micro_benchmarks.FrameworkAction] *)
  get_channel : string -> result string;
  get_target_framework_monikers : list string -> result (list string);
  get_target_framework_moniker : string -> result string;
  get_branch : string -> result string;
  (** [dotnet] *)
  dotnet_install : string -> list string -> list string -> bool -> result unit;
  dotnet_info : bool -> result unit;
  dotnet_get_repository : string -> result (string * string);
  dotnet_get_dotnet_version : string -> option string -> result string;
  dotnet_get_dotnet_sdk : string -> option string -> result string;
  dotnet_get_commit_date : string -> string -> option string -> result string;
  dotnet_remove_dotnet : string -> result unit;
  (** [check_output(['git', 'rev-parse', 'HEAD'])] in a directory *)
  git_rev_parse_head : string -> result string
}.

(** The parsed command line, as [__main] reads it. *)
Record Args : Type := {
  architecture : string;
  dotnet_versions : list string;
  frameworks : list string;
  cli : option string;
  branch : option string;
  commit_sha : option string;
  repository : option string;
  queue : string;
  build_number : string;
  locale : string;
  perf_hash : string;
  get_perf_hash : bool;
  output_file : string;
  quiet : bool;
  build_configs : list string
}.

(** Reading the attributes of the namespace. *)
Module Attr.

Definition get (ns : Namespace) (name : string) : result value :=
  match ns !! name with
  | Some v => Ok v
  | None => Raise (AttributeError name)
  end.

Definition str (ns : Namespace) (name : string) : result string :=
  match get ns name with
  | Ok (VStr s) => Ok s
  | Ok _ => Raise (TypeError name)
  | Raise e => Raise e
  end.

Definition opt_str (ns : Namespace) (name : string) : result (option string) :=
  match get ns name with
  | Ok VNone => Ok None
  | Ok (VStr s) => Ok (Some s)
  | Ok _ => Raise (TypeError name)
  | Raise e => Raise e
  end.

Definition flag (ns : Namespace) (name : string) : result bool :=
  match get ns name with
  | Ok (VBool b) => Ok b
  | Ok _ => Raise (TypeError name)
  | Raise e => Raise e
  end.

Definition strs (ns : Namespace) (name : string) : result (list string) :=
  match get ns name with
  | Ok (VList l) => Ok l
  | Ok _ => Raise (TypeError name)
  | Raise e => Raise e
  end.

Definition and_then {A B} (r : result A) (k : A -> result B) : result B :=
  match r with
  | Ok a => k a
  | Raise e => Raise e
  end.

End Attr.

(** The attributes that [__main] reads.  [architecture], [dotnet_versions],
    [frameworks] and [cli] are declared by the collaborators: a text, two
    lists of texts, and a text or [None].  The source reads an attribute
    where it needs it; here they are read together, which is the same
    whenever the arguments of the collaborators declare all four. *)
Definition args_of_namespace (ns : Namespace) : result Args :=
  Attr.and_then (Attr.str ns "architecture") (fun architecture =>
  Attr.and_then (Attr.strs ns "dotnet_versions") (fun dotnet_versions =>
  Attr.and_then (Attr.strs ns "frameworks") (fun frameworks =>
  Attr.and_then (Attr.opt_str ns "cli") (fun cli =>
  Attr.and_then (Attr.opt_str ns "branch") (fun branch =>
  Attr.and_then (Attr.opt_str ns "commit_sha") (fun commit_sha =>
  Attr.and_then (Attr.opt_str ns "repository") (fun repository =>
  Attr.and_then (Attr.str ns "queue") (fun queue =>
  Attr.and_then (Attr.str ns "build_number") (fun build_number =>
  Attr.and_then (Attr.str ns "locale") (fun locale =>
  Attr.and_then (Attr.str ns "perf_hash") (fun perf_hash =>
  Attr.and_then (Attr.flag ns "get_perf_hash") (fun get_perf_hash =>
  Attr.and_then (Attr.str ns "output_file") (fun output_file =>
  Attr.and_then (Attr.flag ns "quiet") (fun quiet =>
  Attr.and_then (Attr.strs ns "build_configs") (fun build_configs =>
  Ok {| architecture := architecture; dotnet_versions := dotnet_versions;
        frameworks := frameworks; cli := cli; branch := branch;
        commit_sha := commit_sha; repository := repository; queue := queue;
        build_number := build_number; locale := locale; perf_hash := perf_hash;
        get_perf_hash := get_perf_hash; output_file := output_file;
        quiet := quiet; build_configs := build_configs |}))))))))))))))).

(** ** The script *)

Definition newline : string := String Str.LF EmptyString.

Section Script.

Context (env : Env).

(** [sys.platform == 'win32'] *)
Definition is_win32 : bool := String.eqb (sys_platform env) "win32".

(** [global_extension = ".cmd" if sys.platform == 'win32' else '.sh'] *)
Definition global_extension : string := if is_win32 then ".cmd" else ".sh".

(** [open(path, 'w')]: the file is created or truncated. *)
Definition open_w (path : string) : M unit :=
  fun s =>
    if writable env path then
      (Ok tt, {| trace := trace s ++ [EvOpen path]; files := <[path := ""]> (files s) |})
    else (Raise (OSError path), record (EvOpen path) s).

(** [out_file.write(text)]: the text goes after what the file holds. *)
Definition write (path text : string) : M unit :=
  fun s =>
    (Ok tt, {| trace := trace s ++ [EvWriteText path text];
               files := alter (fun content => content +:+ text) path (files s) |}).

Definition init_tools (architecture : string) (dotnet_versions : list string)
    (target_framework_monikers : list string) (verbose : bool) : M unit :=
  log_info "Installing tools.";;
  channels ← collect (fun target_framework_moniker =>
                        lift (get_channel env target_framework_moniker))
                     target_framework_monikers;
  call (EvInstall architecture channels dotnet_versions verbose)
       (dotnet_install env architecture channels dotnet_versions verbose).

(** The argument of the source is always an [ArgumentParser]; its
    [TypeError] branch has no counterpart here.  [-q/--quiet] has no
    [dest] of its own: the library derives [quiet] from the long option.
    The library refuses an option string that is declared twice; the
    collaborators are taken not to declare the option strings below. *)
Definition add_arguments (parser : list argument) : list argument :=
  parser ++ dotnet_add_arguments env ++ micro_benchmarks_add_arguments env ++
  [ {| option_strings := ["--branch"]; dest := "branch";
       arg_action := store; arg_nargs := nargs_one; arg_default := VNone |};
    {| option_strings := ["--commit-sha"]; dest := "commit_sha";
       arg_action := store; arg_nargs := nargs_one; arg_default := VNone |};
    {| option_strings := ["--repository"]; dest := "repository";
       arg_action := store; arg_nargs := nargs_one; arg_default := VNone |};
    {| option_strings := ["--queue"]; dest := "queue";
       arg_action := store; arg_nargs := nargs_one; arg_default := VStr "testQueue" |};
    {| option_strings := ["--build-number"]; dest := "build_number";
       arg_action := store; arg_nargs := nargs_one; arg_default := VStr "1234.1" |};
    {| option_strings := ["--locale"]; dest := "locale";
       arg_action := store; arg_nargs := nargs_one; arg_default := VStr "en-US" |};
    {| option_strings := ["--perf-hash"]; dest := "perf_hash";
       arg_action := store; arg_nargs := nargs_one; arg_default := VStr "testSha" |};
    {| option_strings := ["--get-perf-hash"]; dest := "get_perf_hash";
       arg_action := store_true; arg_nargs := nargs_one; arg_default := VBool false |};
    {| option_strings := ["--output-file"]; dest := "output_file";
       arg_action := store; arg_nargs := nargs_one;
       arg_default :=
         VStr (os_path_join env (get_tools_directory env)
                            ("machine-setup" +:+ global_extension)) |};
    {| option_strings := ["-q"; "--quiet"]; dest := "quiet";
       arg_action := store_true; arg_nargs := nargs_one; arg_default := VBool false |};
    {| option_strings := ["--build-configs"]; dest := "build_configs";
       arg_action := store; arg_nargs := nargs_plus; arg_default := VList [] |} ].

Definition __process_arguments (args : list string) : result Namespace :=
  let parser := Argparse.ArgumentParser in
  let parser := add_arguments parser in
  Argparse.parse_args parser args.

(** [variable_format % (name, value)] *)
Definition variable_format (name value : string) : string :=
  (if is_win32 then "set " else "export ") +:+ name +:+ "=" +:+ value +:+ newline.

(** [with open(path, 'w') as out_file:] one [out_file.write] of
    [variable_format] for each pair, in order. *)
Definition write_variables (path : string) (variables : list (string * string)) : M unit :=
  open_w path;;
  forM_ (fun nv => write path (variable_format nv.1 nv.2)) variables.

(** The pairs of lines 228 to 240. *)
Definition core_variables (args : Args) (owner repo branch perfHash commit_sha
    source_timestamp config_string dotnet_version framework : string)
    : list (string * string) :=
  [ ("PERFLAB_INLAB", "1");
    ("PERFLAB_REPO", Str.join "/" [owner; repo]);
    ("PERFLAB_BRANCH", branch);
    ("PERFLAB_PERFHASH", perfHash);
    ("PERFLAB_HASH", commit_sha);
    ("PERFLAB_QUEUE", queue args);
    ("PERFLAB_BUILDNUM", build_number args);
    ("PERFLAB_BUILDARCH", architecture args);
    ("PERFLAB_LOCALE", locale args);
    ("PERFLAB_BUILDTIMESTAMP", source_timestamp);
    ("PERFLAB_CONFIGS", config_string);
    ("DOTNET_VERSION", dotnet_version);
    ("PERFLAB_TARGET_FRAMEWORKS", framework) ].

(** The pairs of lines 244 and 245. *)
Definition other_variables (framework : string) : list (string * string) :=
  [ ("PERFLAB_INLAB", "0");
    ("PERFLAB_TARGET_FRAMEWORKS", framework) ].

(** [config_string], line 196. *)
Definition config_string_of (build_configs : list string) : string :=
  if is_win32 then Str.join ";" build_configs
  else Str.dquote +:+ Str.join ";" build_configs +:+ Str.dquote.

(** [not args.branch]: [None] and the empty string are false. *)
Definition falsy (o : option string) : bool :=
  match o with
  | None => true
  | Some EmptyString => true
  | Some _ => false
  end.

(** The body of the loop of line 214, for one [framework]; it returns the
    new value of [remove_dotnet]. *)
Definition process_framework (args : Args) (repo_url : option string)
    (owner repo config_string perfHash : string)
    (remove_dotnet : bool) (framework : string) : M bool :=
  if Str.startswith framework "netcoreapp" then
    let remove_dotnet :=
      if String.eqb framework "netcoreapp3.0" || String.eqb framework "netcoreapp5.0"
      then true else remove_dotnet in
    target_framework_moniker ← lift (get_target_framework_moniker env framework);
    dotnet_version ← call (EvGetDotnetVersion target_framework_moniker (cli args))
                          (dotnet_get_dotnet_version env target_framework_moniker (cli args));
    commit_sha ← match commit_sha args with
                 | None => call (EvGetDotnetSdk target_framework_moniker (cli args))
                                (dotnet_get_dotnet_sdk env target_framework_moniker (cli args))
                 | Some sha => ret sha
                 end;
    source_timestamp ← call (EvGetCommitDate target_framework_moniker commit_sha repo_url)
                            (dotnet_get_commit_date env target_framework_moniker
                                                    commit_sha repo_url);
    branch ← match branch args with
             | Some b => if falsy (Some b)
                         then lift (get_branch env target_framework_moniker)
                         else ret b
             | None => lift (get_branch env target_framework_moniker)
             end;
    log_info ("Writing script to " +:+ output_file args);;
    write_variables (output_file args)
      (core_variables args owner repo branch perfHash commit_sha source_timestamp
                      config_string dotnet_version framework);;
    ret remove_dotnet
  else
    write_variables (output_file args) (other_variables framework);;
    ret remove_dotnet.

(** [for framework in target_framework_monikers:] *)
Fixpoint for_frameworks (args : Args) (repo_url : option string)
    (owner repo config_string perfHash : string)
    (remove_dotnet : bool) (target_framework_monikers : list string) : M bool :=
  match target_framework_monikers with
  | [] => ret remove_dotnet
  | framework :: rest =>
      remove_dotnet ← process_framework args repo_url owner repo config_string
                                        perfHash remove_dotnet framework;
      for_frameworks args repo_url owner repo config_string perfHash remove_dotnet rest
  end.

(** Lines 205 to 208: every line of the output, decoded. *)
Fixpoint decode_lines (lines : list string) : result (list string) :=
  match lines with
  | [] => Ok []
  | line :: lines' =>
      Attr.and_then (Utf8.decode line) (fun decoded =>
      Attr.and_then (decode_lines lines') (fun decoded_lines =>
      Ok (decoded :: decoded_lines)))
  end.

(** [decoded_output], line 210. *)
Definition decode_output (output : string) : result string :=
  Attr.and_then (decode_lines (Str.splitlines output)) (fun decoded_lines =>
  Ok (Str.join "" decoded_lines)).

(** [__main] from line 162 on, the command line parsed. *)
Definition main_with (args : Args) : M unit :=
  let verbose := negb (quiet args) in
  call (EvSetupLoggers verbose) (Ok tt);;
  if negb (Bool.eqb (bool_decide (commit_sha args = None))
                    (bool_decide (repository args = None)))
  then raise (ValueError "Either both commit_sha and repository should be set or neither")
  else
    target_framework_monikers ← lift (get_target_framework_monikers env (frameworks args));
    let architecture' :=
      if String.eqb (architecture args) "arm64" then "x64" else architecture args in
    init_tools architecture' (dotnet_versions args) target_framework_monikers verbose;;
    call (EvDotnetInfo verbose) (dotnet_info env verbose);;
    let repo_url := Str.replace "-"%char "/"%char <$> repository args in
    '(owner, repo) ← match repo_url with
                     | None => ret ("dotnet", "core-sdk")
                     | Some url => call (EvGetRepository url) (dotnet_get_repository env url)
                     end;
    let config_string := config_string_of (build_configs args) in
    output ← call (EvGitRevParseHead (get_repo_root_path env))
                  (git_rev_parse_head env (get_repo_root_path env));
    decoded_output ← lift (decode_output output);
    let perfHash := if get_perf_hash args then decoded_output else perf_hash args in
    remove_dotnet ← for_frameworks args repo_url owner repo config_string perfHash
                                   false target_framework_monikers;
    if negb is_win32 && remove_dotnet
    then call (EvRemoveDotnet architecture') (dotnet_remove_dotnet env architecture')
    else ret tt.

Definition __main (args : list string) : M unit :=
  call EvValidateRuntime (validate_supported_runtime env);;
  ns ← lift (__process_arguments args);
  args ← lift (args_of_namespace ns);
  main_with args.

End Script.

(** ** Two hosts to run the script on *)

Module Host.

(** [posixpath.join(a, b)] for a relative or absolute [b]. *)
Definition posixpath_join (a b : string) : string :=
  if Str.startswith b "/" then b
  else if String.eqb a "" then b
  else if String.eqb (String.substring (String.length a - 1) 1 a) "/" then a +:+ b
  else a +:+ "/" +:+ b.

Definition git_output : string := "4f2c1e9a7b" +:+ newline.

Definition posix : Env := {|
  sys_platform := "linux";
  os_path_join := posixpath_join;
  writable := fun _ => true;
  get_tools_directory := "/perf/tools";
  get_repo_root_path := "/perf";
  validate_supported_runtime := Ok tt;
  dotnet_add_arguments :=
    [ {| option_strings := ["--architecture"]; dest := "architecture";
         arg_action := store; arg_nargs := nargs_one; arg_default := VStr "x64" |};
      {| option_strings := ["--dotnet-versions"]; dest := "dotnet_versions";
         arg_action := store; arg_nargs := nargs_star; arg_default := VList [] |};
      {| option_strings := ["--cli"]; dest := "cli";
         arg_action := store; arg_nargs := nargs_one; arg_default := VNone |} ];
  micro_benchmarks_add_arguments :=
    [ {| option_strings := ["-f"; "--frameworks"]; dest := "frameworks";
         arg_action := store; arg_nargs := nargs_plus;
         arg_default := VList ["netcoreapp5.0"] |} ];
  get_channel := fun _ => Ok "master";
  get_target_framework_monikers := fun frameworks => Ok frameworks;
  get_target_framework_moniker := fun framework => Ok framework;
  get_branch := fun _ => Ok "master";
  dotnet_install := fun _ _ _ _ => Ok tt;
  dotnet_info := fun _ => Ok tt;
  dotnet_get_repository := fun _ => Ok ("dotnet", "coreclr");
  dotnet_get_dotnet_version := fun _ _ => Ok "5.0.100";
  dotnet_get_dotnet_sdk := fun _ _ => Ok "sdk0c0ffee";
  dotnet_get_commit_date := fun _ _ _ => Ok "2020-02-03T04:05:06Z";
  dotnet_remove_dotnet := fun _ => Ok tt;
  git_rev_parse_head := fun _ => Ok git_output
|}.

Definition windows : Env := {|
  sys_platform := "win32";
  os_path_join := fun a b => a +:+ "\" +:+ b;
  writable := writable posix;
  get_tools_directory := "C:\perf\tools";
  get_repo_root_path := "C:\perf";
  validate_supported_runtime := validate_supported_runtime posix;
  dotnet_add_arguments := dotnet_add_arguments posix;
  micro_benchmarks_add_arguments := micro_benchmarks_add_arguments posix;
  get_channel := get_channel posix;
  get_target_framework_monikers := get_target_framework_monikers posix;
  get_target_framework_moniker := get_target_framework_moniker posix;
  get_branch := get_branch posix;
  dotnet_install := dotnet_install posix;
  dotnet_info := dotnet_info posix;
  dotnet_get_repository := dotnet_get_repository posix;
  dotnet_get_dotnet_version := dotnet_get_dotnet_version posix;
  dotnet_get_dotnet_sdk := dotnet_get_dotnet_sdk posix;
  dotnet_get_commit_date := dotnet_get_commit_date posix;
  dotnet_remove_dotnet := dotnet_remove_dotnet posix;
  git_rev_parse_head := git_rev_parse_head posix
|}.

Definition start : State := {| trace := []; files := ∅ |}.

End Host.

(** * The vocabulary of the statements

    Nothing below is part of the script: these are the notions in which the
    behaviour of its runs is stated. *)

(** Every event that a run of [m] appends to the trace satisfies [P],
    whether the run completes or raises. *)
Definition emits {A} (P : event -> Prop) (m : M A) : Prop :=
  forall s r s', m s = (r, s') ->
    exists evs, trace s' = trace s ++ evs /\ Forall P evs.

Section Specification.

Context (env : Env).

(** The text of the script that assigns [variables], one per line. *)
Definition script_text (variables : list (string * string)) : string :=
  foldr (fun nv text => variable_format env nv.1 nv.2 +:+ text) "" variables.

(** The events of [write_variables]. *)
Definition write_events (path : string) (variables : list (string * string)) : list event :=
  EvOpen path :: map (fun nv => EvWriteText path (variable_format env nv.1 nv.2)) variables.

(** The value that a list of assignments gives to a name. *)
Fixpoint variable (name : string) (variables : list (string * string)) : option string :=
  match variables with
  | [] => None
  | (n, v) :: rest => if String.eqb n name then Some v else variable name rest
  end.

(** The monikers after which the toolchain is removed. *)
Definition legacy (framework : string) : bool :=
  String.eqb framework "netcoreapp3.0" || String.eqb framework "netcoreapp5.0".

Section Step.

Context (args : Args) (repo_url : option string)
        (owner repo config_string perfHash : string).

(** What the body of the loop does for [framework] when it completes: the
    events it appends and the variables it leaves in the output file. *)
Inductive framework_step (framework : string)
    : list event -> list (string * string) -> Prop :=
  | step_core (target_framework_moniker dotnet_version sha source_timestamp br : string) :
      Str.startswith framework "netcoreapp" = true ->
      get_target_framework_moniker env framework = Ok target_framework_moniker ->
      dotnet_get_dotnet_version env target_framework_moniker (cli args) = Ok dotnet_version ->
      match commit_sha args with
      | Some supplied => sha = supplied
      | None => dotnet_get_dotnet_sdk env target_framework_moniker (cli args) = Ok sha
      end ->
      dotnet_get_commit_date env target_framework_moniker sha repo_url = Ok source_timestamp ->
      (if falsy (branch args)
       then get_branch env target_framework_moniker = Ok br
       else branch args = Some br) ->
      framework_step framework
        ([EvGetDotnetVersion target_framework_moniker (cli args)] ++
         match commit_sha args with
         | Some _ => []
         | None => [EvGetDotnetSdk target_framework_moniker (cli args)]
         end ++
         [EvGetCommitDate target_framework_moniker sha repo_url;
          EvLog ("Writing script to " +:+ output_file args)] ++
         write_events (output_file args)
           (core_variables args owner repo br perfHash sha source_timestamp
                           config_string dotnet_version framework))
        (core_variables args owner repo br perfHash sha source_timestamp
                        config_string dotnet_version framework)
  | step_other :
      Str.startswith framework "netcoreapp" = false ->
      framework_step framework
        (write_events (output_file args) (other_variables framework))
        (other_variables framework).

End Step.

(** The architecture of the toolchain that is installed, line 178. *)
Definition toolchain_architecture (args : Args) : string :=
  if String.eqb (architecture args) "arm64" then "x64" else architecture args.

(** [repo_url], line 192. *)
Definition repo_url_of (args : Args) : option string :=
  Str.replace "-"%char "/"%char <$> repository args.

(** What the collaborators answered in a completed run. *)
Record Resolution : Type := {
  monikers : list string;
  channels : list string;
  owner_repo : string * string;
  git_output : string;
  decoded_output : string;
  steps : list (list event * list (string * string))
}.

(** [perfHash], line 212. *)
Definition perfHash_of (args : Args) (r : Resolution) : string :=
  if get_perf_hash args then decoded_output r else perf_hash args.

Definition cleanup (r : Resolution) : bool :=
  negb (is_win32 env) && existsb legacy (monikers r).

Record resolved (args : Args) (r : Resolution) : Prop := {
  res_jointly :
    Bool.eqb (bool_decide (commit_sha args = None))
             (bool_decide (repository args = None)) = true;
  res_monikers :
    get_target_framework_monikers env (frameworks args) = Ok (monikers r);
  res_channels :
    Forall2 (fun framework channel => get_channel env framework = Ok channel)
            (monikers r) (channels r);
  res_install :
    dotnet_install env (toolchain_architecture args) (channels r)
                   (dotnet_versions args) (negb (quiet args)) = Ok tt;
  res_info : dotnet_info env (negb (quiet args)) = Ok tt;
  res_repository :
    match repo_url_of args with
    | None => owner_repo r = ("dotnet", "core-sdk")
    | Some url => dotnet_get_repository env url = Ok (owner_repo r)
    end;
  res_git : git_rev_parse_head env (get_repo_root_path env) = Ok (git_output r);
  res_decoded : decode_output (git_output r) = Ok (decoded_output r);
  res_steps :
    Forall2 (fun framework st =>
               framework_step args (repo_url_of args) (owner_repo r).1 (owner_repo r).2
                              (config_string_of env (build_configs args))
                              (perfHash_of args r) framework st.1 st.2)
            (monikers r) (steps r);
  res_cleanup :
    cleanup r = true -> dotnet_remove_dotnet env (toolchain_architecture args) = Ok tt
}.

(** The events of a completed run, in order. *)
Definition run_events (args : Args) (r : Resolution) : list event :=
  [ EvSetupLoggers (negb (quiet args));
    EvLog "Installing tools.";
    EvInstall (toolchain_architecture args) (channels r) (dotnet_versions args)
              (negb (quiet args));
    EvDotnetInfo (negb (quiet args)) ] ++
  match repo_url_of args with
  | None => []
  | Some url => [EvGetRepository url]
  end ++
  [ EvGitRevParseHead (get_repo_root_path env) ] ++
  concat (steps r).*1 ++
  (if cleanup r then [EvRemoveDotnet (toolchain_architecture args)] else []).

(** [__process_arguments] followed by the reading of the attributes. *)
Definition parse_command_line (argv : list string) : result Args :=
  Attr.and_then (__process_arguments env argv) args_of_namespace.

(** The calls that [main_with] can make for [args], whether it completes
    or raises. *)
Definition may_emit (args : Args) (ev : event) : Prop :=
  match ev with
  | EvValidateRuntime => False
  | EvSetupLoggers verbose => verbose = negb (quiet args)
  | EvLog _ => True
  | EvInstall a _ versions verbose =>
      a = toolchain_architecture args /\ versions = dotnet_versions args /\
      verbose = negb (quiet args)
  | EvDotnetInfo verbose => verbose = negb (quiet args)
  | EvGetRepository url => repo_url_of args = Some url
  | EvGitRevParseHead cwd => cwd = get_repo_root_path env
  | EvGetDotnetVersion _ c => c = cli args
  | EvGetDotnetSdk _ c => commit_sha args = None /\ c = cli args
  | EvGetCommitDate _ _ url => url = repo_url_of args
  | EvOpen path => path = output_file args
  | EvWriteText path text =>
      path = output_file args /\
      exists name value, text = variable_format env name value
  | EvRemoveDotnet a => a = toolchain_architecture args /\ is_win32 env = false
  end.

End Specification.

(** The script wrote the assignment of [value] to [name] into [path]. *)
Definition writes_variable (env : Env) (evs : list event) (path name value : string) : Prop :=
  EvWriteText path (variable_format env name value) ∈ evs.

(** The file [path] is a script that assigns [value] to [name]. *)
Definition file_assigns (env : Env) (s : State) (path name value : string) : Prop :=
  exists variables,
    files s !! path = Some (script_text env variables) /\
    variable name variables = Some value.

(** The events of the body of the loop. *)
Definition step_event (ev : event) : bool :=
  match ev with
  | EvGetDotnetVersion _ _ | EvGetDotnetSdk _ _ | EvGetCommitDate _ _ _
  | EvLog _ | EvOpen _ | EvWriteText _ _ => true
  | _ => false
  end.

Definition is_open (ev : event) : bool :=
  match ev with
  | EvOpen _ => true
  | _ => false
  end.

Definition is_write (ev : event) : bool :=
  match ev with
  | EvWriteText _ _ => true
  | _ => false
  end.

(** What the collaborators answered for a framework of the core kind. *)
Definition core_facts (env : Env) (args : Args)
    (framework target_framework_moniker dotnet_version sha source_timestamp br : string)
    : Prop :=
  get_target_framework_moniker env framework = Ok target_framework_moniker /\
  dotnet_get_dotnet_version env target_framework_moniker (cli args) = Ok dotnet_version /\
  match commit_sha args with
  | Some supplied => sha = supplied
  | None => dotnet_get_dotnet_sdk env target_framework_moniker (cli args) = Ok sha
  end /\
  dotnet_get_commit_date env target_framework_moniker sha (repo_url_of args)
    = Ok source_timestamp /\
  (if falsy (branch args)
   then get_branch env target_framework_moniker = Ok br
   else branch args = Some br).

(** No character of [s] ends a line. *)
Definition no_linebreak (s : string) : bool :=
  Str.forallb (fun c => negb (Str.is_linebreak c)) s.

Definition exactly_one_set (a b : option string) : Prop :=
  (is_Some a /\ b = None) \/ (a = None /\ is_Some b).

Definition jointly_set (a b : option string) : Prop :=
  (is_Some a /\ is_Some b) \/ (a = None /\ b = None).

(** [tok] selects the option [flag]: it is [flag] or starts with [flag=]. *)
Definition mentions (flag tok : string) : bool :=
  String.eqb tok flag || Str.startswith tok (flag +:+ "=").

(** No token of [argv] selects one of [flags]. *)
Definition omitted (flags : list string) (argv : list string) : bool :=
  forallb (fun tok => negb (existsb (fun flag => mentions flag tok) flags)) argv.

(** The attribute [d] has the value [v] and the option being read, if any,
    writes elsewhere. *)
Definition untouched (d : string) (v : value) (st : Namespace * Argparse.pending) : Prop :=
  st.1 !! d = Some v /\
  match st.2 with
  | Argparse.Idle => True
  | Argparse.Collect a _ => dest a <> d
  end.

(** [a] gives the attribute [d] its default. *)
Definition declares (d : string) (a : argument) : bool :=
  match arg_action a with
  | help => false
  | _ => String.eqb (dest a) d
  end.

(** The attributes that only the arguments of the script itself may write. *)
Definition own_dests : list string :=
  [ "queue"; "build_number"; "locale"; "perf_hash"; "get_perf_hash";
    "output_file"; "build_configs" ].

(** ** Runs that stop *)

(** [[f(x) for x in l]] without the trace: the answers, or the first
    exception. *)
Fixpoint traverse {A B} (f : A -> result B) (l : list A) : result (list B) :=
  match l with
  | [] => Ok []
  | x :: l' =>
      match f x with
      | Ok y =>
          match traverse f l' with
          | Ok ys => Ok (y :: ys)
          | Raise e => Raise e
          end
      | Raise e => Raise e
      end
  end.

(** The calls of a run of [main_with] up to the loop of line 214. *)
Definition prelude_events (env : Env) (args : Args) (channels : list string) : list event :=
  [ EvSetupLoggers (negb (quiet args));
    EvLog "Installing tools.";
    EvInstall (toolchain_architecture args) channels (dotnet_versions args)
              (negb (quiet args));
    EvDotnetInfo (negb (quiet args)) ] ++
  match repo_url_of args with
  | None => []
  | Some url => [EvGetRepository url]
  end ++
  [ EvGitRevParseHead (get_repo_root_path env) ].

(** The ways in which [main_with] stops before the loop: the exception it
    raises and the calls it has made. *)
Inductive stops_early (env : Env) (args : Args) : error -> list event -> Prop :=
  | stop_check :
      exactly_one_set (commit_sha args) (repository args) ->
      stops_early env args
        (ValueError "Either both commit_sha and repository should be set or neither")
        [EvSetupLoggers (negb (quiet args))]
  | stop_monikers (e : error) :
      jointly_set (commit_sha args) (repository args) ->
      get_target_framework_monikers env (frameworks args) = Raise e ->
      stops_early env args e [EvSetupLoggers (negb (quiet args))]
  | stop_channel (target_framework_monikers : list string) (e : error) :
      jointly_set (commit_sha args) (repository args) ->
      get_target_framework_monikers env (frameworks args) = Ok target_framework_monikers ->
      traverse (get_channel env) target_framework_monikers = Raise e ->
      stops_early env args e
        [EvSetupLoggers (negb (quiet args)); EvLog "Installing tools."]
  | stop_install (target_framework_monikers channels : list string) (e : error) :
      jointly_set (commit_sha args) (repository args) ->
      get_target_framework_monikers env (frameworks args) = Ok target_framework_monikers ->
      traverse (get_channel env) target_framework_monikers = Ok channels ->
      dotnet_install env (toolchain_architecture args) channels (dotnet_versions args)
                     (negb (quiet args)) = Raise e ->
      stops_early env args e
        [EvSetupLoggers (negb (quiet args)); EvLog "Installing tools.";
         EvInstall (toolchain_architecture args) channels (dotnet_versions args)
                   (negb (quiet args))]
  | stop_info (target_framework_monikers channels : list string) (e : error) :
      jointly_set (commit_sha args) (repository args) ->
      get_target_framework_monikers env (frameworks args) = Ok target_framework_monikers ->
      traverse (get_channel env) target_framework_monikers = Ok channels ->
      dotnet_install env (toolchain_architecture args) channels (dotnet_versions args)
                     (negb (quiet args)) = Ok tt ->
      dotnet_info env (negb (quiet args)) = Raise e ->
      stops_early env args e
        [EvSetupLoggers (negb (quiet args)); EvLog "Installing tools.";
         EvInstall (toolchain_architecture args) channels (dotnet_versions args)
                   (negb (quiet args));
         EvDotnetInfo (negb (quiet args))]
  | stop_repository (target_framework_monikers channels : list string) (url : string)
      (e : error) :
      jointly_set (commit_sha args) (repository args) ->
      get_target_framework_monikers env (frameworks args) = Ok target_framework_monikers ->
      traverse (get_channel env) target_framework_monikers = Ok channels ->
      dotnet_install env (toolchain_architecture args) channels (dotnet_versions args)
                     (negb (quiet args)) = Ok tt ->
      dotnet_info env (negb (quiet args)) = Ok tt ->
      repo_url_of args = Some url ->
      dotnet_get_repository env url = Raise e ->
      stops_early env args e
        [EvSetupLoggers (negb (quiet args)); EvLog "Installing tools.";
         EvInstall (toolchain_architecture args) channels (dotnet_versions args)
                   (negb (quiet args));
         EvDotnetInfo (negb (quiet args)); EvGetRepository url]
  | stop_git (target_framework_monikers channels : list string) (e : error) :
      jointly_set (commit_sha args) (repository args) ->
      get_target_framework_monikers env (frameworks args) = Ok target_framework_monikers ->
      traverse (get_channel env) target_framework_monikers = Ok channels ->
      dotnet_install env (toolchain_architecture args) channels (dotnet_versions args)
                     (negb (quiet args)) = Ok tt ->
      dotnet_info env (negb (quiet args)) = Ok tt ->
      match repo_url_of args with
      | None => True
      | Some url => exists owner_repo, dotnet_get_repository env url = Ok owner_repo
      end ->
      match git_rev_parse_head env (get_repo_root_path env) with
      | Ok output => decode_output output = Raise e
      | Raise e' => e' = e
      end ->
      stops_early env args e (prelude_events env args channels).

(** What the loop starts from, when [main_with] reaches it. *)
Record reaches_loop (env : Env) (args : Args)
    (target_framework_monikers channels : list string)
    (owner repo decoded : string) : Prop := {
  reach_jointly : jointly_set (commit_sha args) (repository args);
  reach_monikers :
    get_target_framework_monikers env (frameworks args) = Ok target_framework_monikers;
  reach_channels : traverse (get_channel env) target_framework_monikers = Ok channels;
  reach_install :
    dotnet_install env (toolchain_architecture args) channels (dotnet_versions args)
                   (negb (quiet args)) = Ok tt;
  reach_info : dotnet_info env (negb (quiet args)) = Ok tt;
  reach_repository :
    match repo_url_of args with
    | None => (owner, repo) = ("dotnet", "core-sdk")
    | Some url => dotnet_get_repository env url = Ok (owner, repo)
    end;
  reach_git :
    exists output,
      git_rev_parse_head env (get_repo_root_path env) = Ok output /\
      decode_output output = Ok decoded
}.

(** ** Hosts on which something fails *)

Module Faulty.

(** [Host.posix] with another installer, another answer of git, and other
    permissions. *)
Definition posix_with
    (install : string -> list string -> list string -> bool -> result unit)
    (git : string -> result string) (can_write : string -> bool) : Env := {|
  sys_platform := sys_platform Host.posix;
  os_path_join := os_path_join Host.posix;
  writable := can_write;
  get_tools_directory := get_tools_directory Host.posix;
  get_repo_root_path := get_repo_root_path Host.posix;
  validate_supported_runtime := validate_supported_runtime Host.posix;
  dotnet_add_arguments := dotnet_add_arguments Host.posix;
  micro_benchmarks_add_arguments := micro_benchmarks_add_arguments Host.posix;
  get_channel := get_channel Host.posix;
  get_target_framework_monikers := get_target_framework_monikers Host.posix;
  get_target_framework_moniker := get_target_framework_moniker Host.posix;
  get_branch := get_branch Host.posix;
  dotnet_install := install;
  dotnet_info := dotnet_info Host.posix;
  dotnet_get_repository := dotnet_get_repository Host.posix;
  dotnet_get_dotnet_version := dotnet_get_dotnet_version Host.posix;
  dotnet_get_dotnet_sdk := dotnet_get_dotnet_sdk Host.posix;
  dotnet_get_commit_date := dotnet_get_commit_date Host.posix;
  dotnet_remove_dotnet := dotnet_remove_dotnet Host.posix;
  git_rev_parse_head := git
|}.

(** The installer exits with an error. *)
Definition no_installer : Env :=
  posix_with (fun _ _ _ _ => Raise (CollaboratorError "dotnet-install"))
             (git_rev_parse_head Host.posix) (writable Host.posix).

(** The script does not run inside a git repository. *)
Definition no_git : Env :=
  posix_with (dotnet_install Host.posix)
             (fun _ => Raise (CollaboratorError "git")) (writable Host.posix).

End Faulty.

(** The attributes of the script that stay [None] unless their option is
    given. *)
Definition optional_dests : list string :=
  [ "branch"; "commit_sha"; "repository" ].

(** [o] is an option string of an argument that [p] declares. *)
Definition known_option (p : list argument) (o : string) : Prop :=
  exists a, a ∈ p /\ o ∈ option_strings a.

(** The text of [tok] before its first ['=']. *)
Definition option_name (tok : string) : string :=
  match Argparse.split_eq tok with
  | Some (o, _) => o
  | None => tok
  end.

(** [tok] is written as a long option: two dashes and at least one more
    character, none of them a space. *)
Definition long_option (tok : string) : Prop :=
  (exists c rest, tok = String "-" (String "-" (String c rest))) /\
  Str.contains " " tok = false.

(** The verbosity that a call is made with, for the calls that take one. *)
Definition verbosity (ev : event) : option bool :=
  match ev with
  | EvSetupLoggers verbose => Some verbose
  | EvInstall _ _ _ verbose => Some verbose
  | EvDotnetInfo verbose => Some verbose
  | _ => None
  end.

(** The switches of the script, and the attributes that they set. *)
Definition switch_options : list string := [ "-q"; "--quiet"; "--get-perf-hash" ].

Definition switch_dests : list string := [ "quiet"; "get_perf_hash" ].

(** ** The script that is expected

    The text of the output file spelled out: what the steps that come after
    the script read. *)

(** One assignment as the shell of the host reads it: [set NAME=VALUE] on
    Windows, [export NAME=VALUE] elsewhere, and a line feed after it. *)
Definition assignment (env : Env) (name value : string) : string :=
  (if String.eqb (sys_platform env) "win32" then "set " else "export ")
  +:+ name +:+ "=" +:+ value +:+ newline.

(** The same without the line feed: one line of the file. *)
Definition assignment_line (env : Env) (name value : string) : string :=
  (if String.eqb (sys_platform env) "win32" then "set " else "export ")
  +:+ name +:+ "=" +:+ value.

(** A file of assignments, one after the other. *)
Definition assignments (env : Env) (variables : list (string * string)) : string :=
  foldr (fun nv text => assignment env nv.1 nv.2 +:+ text) "" variables.

(** What a run has found out when it writes the script of a framework of
    the core kind. *)
Record Found : Type := {
  found_owner : string;
  found_repo : string;
  found_perf_hash : string;
  found_moniker : string;
  found_version : string;
  found_sha : string;
  found_timestamp : string;
  found_branch : string
}.

(** Where each of these comes from: the command line, or the answer of a
    collaborator.  The collaborators being functions, at most one [Found]
    fits a framework. *)
Record found (env : Env) (args : Args) (framework : string) (v : Found) : Prop := {
  found_repository_of :
    match repository args with
    | None => (found_owner v, found_repo v) = ("dotnet", "core-sdk")
    | Some given =>
        dotnet_get_repository env (Str.replace "-"%char "/"%char given)
          = Ok (found_owner v, found_repo v)
    end;
  found_perf_hash_of :
    if get_perf_hash args
    then exists output,
           git_rev_parse_head env (get_repo_root_path env) = Ok output /\
           decode_output output = Ok (found_perf_hash v)
    else found_perf_hash v = perf_hash args;
  found_moniker_of :
    get_target_framework_moniker env framework = Ok (found_moniker v);
  found_version_of :
    dotnet_get_dotnet_version env (found_moniker v) (cli args) = Ok (found_version v);
  found_sha_of :
    match commit_sha args with
    | Some supplied => found_sha v = supplied
    | None => dotnet_get_dotnet_sdk env (found_moniker v) (cli args) = Ok (found_sha v)
    end;
  found_timestamp_of :
    dotnet_get_commit_date env (found_moniker v) (found_sha v)
      (Str.replace "-"%char "/"%char <$> repository args) = Ok (found_timestamp v);
  found_branch_of :
    match branch args with
    | Some (String c b) => found_branch v = String c b
    | _ => get_branch env (found_moniker v) = Ok (found_branch v)
    end
}.

(** The thirteen assignments for a framework of the core kind, in their
    order. *)
Definition core_assignments (env : Env) (args : Args) (framework : string) (v : Found)
    : list (string * string) :=
  [ ("PERFLAB_INLAB", "1");
    ("PERFLAB_REPO", found_owner v +:+ "/" +:+ found_repo v);
    ("PERFLAB_BRANCH", found_branch v);
    ("PERFLAB_PERFHASH", found_perf_hash v);
    ("PERFLAB_HASH", found_sha v);
    ("PERFLAB_QUEUE", queue args);
    ("PERFLAB_BUILDNUM", build_number args);
    ("PERFLAB_BUILDARCH", architecture args);
    ("PERFLAB_LOCALE", locale args);
    ("PERFLAB_BUILDTIMESTAMP", found_timestamp v);
    ("PERFLAB_CONFIGS",
     if String.eqb (sys_platform env) "win32"
     then Str.join ";" (build_configs args)
     else Str.dquote +:+ Str.join ";" (build_configs args) +:+ Str.dquote);
    ("DOTNET_VERSION", found_version v);
    ("PERFLAB_TARGET_FRAMEWORKS", framework) ].

(** The two assignments for any other framework. *)
Definition other_assignments (framework : string) : list (string * string) :=
  [ ("PERFLAB_INLAB", "0");
    ("PERFLAB_TARGET_FRAMEWORKS", framework) ].

(** The assignments that the script is expected to write for [framework]. *)
Inductive expected (env : Env) (args : Args) (framework : string)
    : list (string * string) -> Prop :=
  | expected_core (v : Found) :
      Str.startswith framework "netcoreapp" = true ->
      found env args framework v ->
      expected env args framework (core_assignments env args framework v)
  | expected_other :
      Str.startswith framework "netcoreapp" = false ->
      expected env args framework (other_assignments framework).

(** Every event of a run of [m] that raises satisfies [P]. *)
Definition raises_emitting {A} (P : event -> Prop) (m : M A) : Prop :=
  forall s e s', m s = (Raise e, s') ->
    exists evs, trace s' = trace s ++ evs /\ Forall P evs.

(** * Reasoning about runs *)

Lemma append_cons (c : ascii) (s1 s2 : string) :
  String c s1 +:+ s2 = String c (s1 +:+ s2).
Proof. reflexivity. Qed.

Lemma append_nil_r (s : string) : s +:+ "" = s.
Proof. induction s as [|c s IH]; [done | by rewrite append_cons, IH]. Qed.

Lemma append_assoc (s1 s2 s3 : string) : (s1 +:+ s2) +:+ s3 = s1 +:+ (s2 +:+ s3).
Proof. induction s1 as [|c s1 IH]; [done | by rewrite !append_cons, IH]. Qed.

Section Runs.

Context {A B : Type}.

Lemma bind_run (m : M A) (k : A -> M B) (s : State) :
  (m ≫= k) s = match m s with
               | (Ok a, s1) => k a s1
               | (Raise e, s1) => (Raise e, s1)
               end.
Proof. reflexivity. Qed.

Lemma bind_ok (m : M A) (k : A -> M B) (s s' : State) (b : B) :
  (m ≫= k) s = (Ok b, s') ->
  exists a s1, m s = (Ok a, s1) /\ k a s1 = (Ok b, s').
Proof.
  rewrite bind_run. destruct (m s) as [[a|e] s1]; intros H; [eauto | discriminate].
Qed.

Lemma call_ok (ev : event) (r : result A) (s s' : State) (a : A) :
  call ev r s = (Ok a, s') -> r = Ok a /\ s' = record ev s.
Proof. unfold call. by intros [= -> <-]. Qed.

Lemma lift_ok (r : result A) (s s' : State) (a : A) :
  lift r s = (Ok a, s') -> r = Ok a /\ s' = s.
Proof. unfold lift. by intros [= -> <-]. Qed.

Lemma ret_ok (a a' : A) (s s' : State) :
  ret a s = (Ok a', s') -> a' = a /\ s' = s.
Proof. unfold ret. by intros [= <- <-]. Qed.

End Runs.

(** Take a completed run apart, one call at a time. *)
Ltac run_inv :=
  repeat match goal with
    | H : (_ ≫= _) _ = (Ok _, _) |- _ =>
        let a := fresh "a" in let s1 := fresh "s" in
        let H1 := fresh "Hrun" in let H2 := fresh "Hrun" in
        apply bind_ok in H as (a & s1 & H1 & H2)
    | H : call _ _ _ = (Ok _, _) |- _ =>
        let E := fresh "Hcall" in apply call_ok in H as [E ->]
    | H : log_info _ _ = (Ok _, _) |- _ =>
        let E := fresh "Hlog" in apply call_ok in H as [E ->]
    | H : lift _ _ = (Ok _, _) |- _ =>
        let E := fresh "Hlift" in apply lift_ok in H as [E ->]
    | H : ret _ _ = (Ok _, _) |- _ => apply ret_ok in H as [-> ->]
    | H : mret _ _ = (Ok _, _) |- _ => apply ret_ok in H as [-> ->]
    | H : raise _ _ = (Ok _, _) |- _ => discriminate H
    end.

Section Emits.

Context (P : event -> Prop).

Lemma emits_ret {A} (a : A) : emits P (ret a).
Proof. intros s r s' [= <- <-]. exists []. by rewrite app_nil_r. Qed.

Lemma emits_raise {A} (e : error) : emits P (@raise A e).
Proof. intros s r s' [= <- <-]. exists []. by rewrite app_nil_r. Qed.

Lemma emits_lift {A} (r : result A) : emits P (lift r).
Proof. intros s r' s' [= <- <-]. exists []. by rewrite app_nil_r. Qed.

Lemma emits_call {A} (ev : event) (r : result A) : P ev -> emits P (call ev r).
Proof. intros HP s r' s' [= <- <-]. exists [ev]. split; [done | by constructor]. Qed.

Lemma emits_log (msg : string) : P (EvLog msg) -> emits P (log_info msg).
Proof. apply emits_call. Qed.

Lemma emits_bind {A B} (m : M A) (k : A -> M B) :
  emits P m -> (forall a, emits P (k a)) -> emits P (m ≫= k).
Proof.
  intros Hm Hk s r s'. rewrite bind_run.
  destruct (m s) as [[a|e] s1] eqn:E; intros H.
  - destruct (Hm _ _ _ E) as (evs1 & E1 & F1).
    destruct (Hk a _ _ _ H) as (evs2 & E2 & F2).
    exists (evs1 ++ evs2). rewrite E2, E1, app_assoc.
    split; [done | by apply Forall_app].
  - injection H as <- <-. by apply (Hm _ _ _ E).
Qed.

Lemma emits_collect {A B} (f : A -> M B) (l : list A) :
  (forall x, emits P (f x)) -> emits P (collect f l).
Proof.
  intros Hf. induction l as [|x l IH]; simpl.
  - apply emits_ret.
  - apply emits_bind; [apply Hf | intros y].
    apply emits_bind; [apply IH | intros ys; apply emits_ret].
Qed.

Lemma emits_forM_ {A} (f : A -> M unit) (l : list A) :
  (forall x, emits P (f x)) -> emits P (forM_ f l).
Proof.
  intros Hf. induction l as [|x l IH]; simpl.
  - apply emits_ret.
  - apply emits_bind; [apply Hf | intros _; apply IH].
Qed.

Lemma emits_open_w (env : Env) (path : string) :
  P (EvOpen path) -> emits P (open_w env path).
Proof.
  intros HP s r s'. unfold open_w.
  destruct (writable env path); intros [= <- <-]; exists [EvOpen path];
    (split; [done | by constructor]).
Qed.

Lemma emits_write (path text : string) :
  P (EvWriteText path text) -> emits P (write path text).
Proof.
  intros HP s r s' [= <- <-]. exists [EvWriteText path text].
  split; [done | by constructor].
Qed.

End Emits.

(** * What a completed run has done *)

Section Completed.

Context (env : Env).

Lemma legacy_core (framework : string) :
  legacy framework = true -> Str.startswith framework "netcoreapp" = true.
Proof.
  unfold legacy. intros [H|H]%orb_true_iff; apply String.eqb_eq in H; by subst.
Qed.

Lemma forM_write_run (path : string) (variables : list (string * string)) :
  forall (s : State) (before : string) (m : gmap string string),
    files s = <[path := before]> m ->
    forM_ (fun nv => write path (variable_format env nv.1 nv.2)) variables s =
      (Ok tt,
       {| trace := trace s ++
                   map (fun nv => EvWriteText path (variable_format env nv.1 nv.2)) variables;
          files := <[path := before +:+ script_text env variables]> m |}).
Proof.
  induction variables as [|nv variables IH]; intros s before m Hs; simpl.
  - unfold ret. rewrite app_nil_r, append_nil_r, <- Hs. by destruct s.
  - rewrite bind_run. unfold write at 1.
    erewrite IH; simpl.
    + by rewrite <- app_assoc, append_assoc.
    + by rewrite Hs, alter_insert_eq.
Qed.

Lemma write_variables_run (path : string) (variables : list (string * string)) (s : State) :
  writable env path = true ->
  write_variables env path variables s =
    (Ok tt,
     {| trace := trace s ++ write_events env path variables;
        files := <[path := script_text env variables]> (files s) |}).
Proof.
  intros Hw. unfold write_variables. rewrite bind_run. unfold open_w at 1.
  rewrite Hw. erewrite forM_write_run; simpl; [|done].
  by rewrite <- app_assoc.
Qed.

Lemma write_variables_ok (path : string) (variables : list (string * string))
    (s s' : State) (u : unit) :
  write_variables env path variables s = (Ok u, s') ->
  writable env path = true /\
  s' = {| trace := trace s ++ write_events env path variables;
          files := <[path := script_text env variables]> (files s) |}.
Proof.
  destruct (writable env path) eqn:Hw.
  - rewrite write_variables_run by done. by intros [= <-].
  - unfold write_variables. rewrite bind_run. unfold open_w at 1.
    by rewrite Hw.
Qed.

Lemma collect_lift_ok {A B} (f : A -> result B) (l : list A) (ys : list B) (s s' : State) :
  collect (fun x => lift (f x)) l s = (Ok ys, s') ->
  Forall2 (fun x y => f x = Ok y) l ys /\ s' = s.
Proof.
  revert ys s'. induction l as [|x l IH]; intros ys s' H; simpl in H.
  - apply ret_ok in H as [-> ->]. by split; [constructor|].
  - run_inv. destruct (IH _ _ Hrun1) as [F ->].
    split; [by constructor | done].
Qed.

Lemma collect_lift_run {A B} (f : A -> result B) (l : list A) (ys : list B) (s : State) :
  Forall2 (fun x y => f x = Ok y) l ys ->
  collect (fun x => lift (f x)) l s = (Ok ys, s).
Proof.
  induction 1 as [|x y l ys Hxy _ IH]; simpl; [done|].
  rewrite bind_run. unfold lift at 1. rewrite Hxy.
  rewrite bind_run, IH. done.
Qed.

(** ** One framework *)

Section Step.

Context (args : Args) (repo_url : option string)
        (owner repo config_string perfHash : string).

Lemma process_framework_ok (remove_dotnet remove_dotnet' : bool) (framework : string)
    (s s' : State) :
  process_framework env args repo_url owner repo config_string perfHash
                    remove_dotnet framework s = (Ok remove_dotnet', s') ->
  exists evs variables,
    framework_step env args repo_url owner repo config_string perfHash framework evs variables /\
    writable env (output_file args) = true /\
    remove_dotnet' = legacy framework || remove_dotnet /\
    trace s' = trace s ++ evs /\
    files s' = <[output_file args := script_text env variables]> (files s).
Proof.
  unfold process_framework.
  destruct (Str.startswith framework "netcoreapp") eqn:Hcore; intros H.
  - apply bind_ok in H as (tfm & s1 & Htfm & H). apply lift_ok in Htfm as [Htfm ->].
    apply bind_ok in H as (ver & s1 & Hver & H). apply call_ok in Hver as [Hver ->].
    apply bind_ok in H as (sha & s2 & Hsha & H).
    apply bind_ok in H as (ts & s3 & Hts & H). apply call_ok in Hts as [Hts ->].
    apply bind_ok in H as (br & s4 & Hbr & H).
    apply bind_ok in H as (u & s5 & Hlog & H). apply call_ok in Hlog as [_ ->].
    apply bind_ok in H as (u' & s6 & Hw & H). apply ret_ok in H as [-> ->].
    apply write_variables_ok in Hw as [Hw ->].
    assert (if falsy (branch args) then get_branch env tfm = Ok br /\ s4 = record (EvGetCommitDate tfm sha repo_url) s2
            else branch args = Some br /\ s4 = record (EvGetCommitDate tfm sha repo_url) s2)
      as Hbr'.
    { destruct (branch args) as [[|c b]|]; simpl in *.
      - by apply lift_ok in Hbr.
      - apply ret_ok in Hbr as [-> ->]. done.
      - by apply lift_ok in Hbr. }
    assert (s4 = record (EvGetCommitDate tfm sha repo_url) s2) as ->
      by (destruct (falsy (branch args)); tauto).
    clear Hbr.
    exists ([EvGetDotnetVersion tfm (cli args)] ++
            match commit_sha args with
            | Some _ => []
            | None => [EvGetDotnetSdk tfm (cli args)]
            end ++
            [EvGetCommitDate tfm sha repo_url;
             EvLog ("Writing script to " +:+ output_file args)] ++
            write_events env (output_file args)
              (core_variables args owner repo br perfHash sha ts config_string ver framework)).
    exists (core_variables args owner repo br perfHash sha ts config_string ver framework).
    split.
    { apply step_core; try done.
      - destruct (commit_sha args); [by apply ret_ok in Hsha as [-> _] | by apply call_ok in Hsha as [? _]].
      - destruct (falsy (branch args)); tauto. }
    split; [done|]. split.
    { unfold legacy. by destruct (_ || _). }
    assert (s2 = {| trace := trace s ++ [EvGetDotnetVersion tfm (cli args)] ++
                              match commit_sha args with
                              | Some _ => []
                              | None => [EvGetDotnetSdk tfm (cli args)]
                              end;
                    files := files s |}) as ->.
    { destruct (commit_sha args).
      - apply ret_ok in Hsha as [_ ->]. unfold record. simpl. done.
      - apply call_ok in Hsha as [_ ->]. unfold record. simpl.
        by rewrite <- app_assoc. }
    simpl. split; [|done]. by rewrite <- !app_assoc.
  - apply bind_ok in H as (u & s1 & Hw & H). apply ret_ok in H as [-> ->].
    apply write_variables_ok in Hw as [Hw ->].
    eexists _, _. split; [by apply step_other|].
    split; [done|]. split; [|done].
    destruct (legacy framework) eqn:E; [|done].
    apply legacy_core in E. congruence.
Qed.

(** Conversely, when the collaborators answer and the file can be opened,
    the body of the loop completes and does what [framework_step] says. *)
Lemma process_framework_run (remove_dotnet : bool) (framework : string)
    (evs : list event) (variables : list (string * string)) (s : State) :
  framework_step env args repo_url owner repo config_string perfHash framework evs variables ->
  writable env (output_file args) = true ->
  process_framework env args repo_url owner repo config_string perfHash
                    remove_dotnet framework s =
    (Ok (legacy framework || remove_dotnet),
     {| trace := trace s ++ evs;
        files := <[output_file args := script_text env variables]> (files s) |}).
Proof.
  intros [tfm ver sha ts br Hcore Htfm Hver Hsha Hts Hbr|Hother] Hw;
    unfold process_framework.
  - rewrite Hcore, bind_run. unfold lift at 1. rewrite Htfm.
    rewrite bind_run. unfold call at 1. rewrite Hver.
    rewrite bind_run.
    assert (match commit_sha args with
            | Some sha0 => ret sha0
            | None => call (EvGetDotnetSdk tfm (cli args))
                           (dotnet_get_dotnet_sdk env tfm (cli args))
            end (record (EvGetDotnetVersion tfm (cli args)) s) =
            (Ok sha,
             {| trace := trace s ++ [EvGetDotnetVersion tfm (cli args)] ++
                         match commit_sha args with
                         | Some _ => []
                         | None => [EvGetDotnetSdk tfm (cli args)]
                         end;
                files := files s |})) as ->.
    { destruct (commit_sha args).
      - subst sha. done.
      - unfold call, record. simpl. by rewrite Hsha, <- app_assoc. }
    rewrite bind_run. unfold call at 1. rewrite Hts.
    rewrite bind_run.
    assert (forall s0,
              match branch args with
              | Some b => if falsy (Some b) then lift (get_branch env tfm) else ret b
              | None => lift (get_branch env tfm)
              end s0 = (Ok br, s0)) as ->.
    { intros s0. destruct (branch args) as [[|c b]|]; simpl in Hbr; simpl.
      - unfold lift. by rewrite Hbr.
      - by injection Hbr as ->.
      - unfold lift. by rewrite Hbr. }
    rewrite bind_run. unfold log_info, call at 1.
    rewrite bind_run, write_variables_run by done. unfold ret, legacy, record. simpl.
    by rewrite <- !app_assoc.
  - rewrite Hother, bind_run, write_variables_run by done. unfold ret.
    destruct (legacy framework) eqn:E; [apply legacy_core in E; congruence | done].
Qed.

End Step.

(** ** The loop *)

Section Loop.

Context (args : Args) (repo_url : option string)
        (owner repo config_string perfHash : string).

Lemma for_frameworks_ok (target_framework_monikers : list string) :
  forall (remove_dotnet remove_dotnet' : bool) (s s' : State),
    for_frameworks env args repo_url owner repo config_string perfHash
                   remove_dotnet target_framework_monikers s = (Ok remove_dotnet', s') ->
    exists steps : list (list event * list (string * string)),
      Forall2 (fun framework st =>
                 framework_step env args repo_url owner repo config_string perfHash
                                framework st.1 st.2)
              target_framework_monikers steps /\
      remove_dotnet' = existsb legacy target_framework_monikers || remove_dotnet /\
      trace s' = trace s ++ concat steps.*1 /\
      files s' = match last steps with
                 | Some st => <[output_file args := script_text env st.2]> (files s)
                 | None => files s
                 end.
Proof.
  induction target_framework_monikers as [|framework rest IH];
    intros b b' s s' H; simpl in H.
  - apply ret_ok in H as [-> ->]. exists []. simpl.
    split; [constructor|]. by rewrite app_nil_r.
  - apply bind_ok in H as (b1 & s1 & Hstep & H).
    apply process_framework_ok in Hstep as (evs & vars & Hstep & _ & -> & Ht1 & Hf1).
    apply IH in H as (steps & Hsteps & -> & Ht & Hf).
    exists ((evs, vars) :: steps). split; [by constructor|].
    split; [simpl; by destruct (legacy framework), (existsb legacy rest)|].
    split; [simpl; by rewrite Ht, Ht1, app_assoc|].
    rewrite Hf, last_cons. destruct (last steps) as [st|]; simpl.
    + by rewrite Hf1, insert_insert_eq.
    + done.
Qed.

Lemma for_frameworks_run (target_framework_monikers : list string)
    (sts : list (list event * list (string * string))) :
  Forall2 (fun framework st =>
             framework_step env args repo_url owner repo config_string perfHash
                            framework st.1 st.2)
          target_framework_monikers sts ->
  (target_framework_monikers <> [] -> writable env (output_file args) = true) ->
  forall (remove_dotnet : bool) (s : State),
    for_frameworks env args repo_url owner repo config_string perfHash
                   remove_dotnet target_framework_monikers s =
      (Ok (existsb legacy target_framework_monikers || remove_dotnet),
       {| trace := trace s ++ concat sts.*1;
          files := match last sts with
                   | Some st => <[output_file args := script_text env st.2]> (files s)
                   | None => files s
                   end |}).
Proof.
  induction 1 as [|framework st rest sts Hst Hrest IH]; intros Hw b s; simpl.
  - unfold ret. rewrite app_nil_r. by destruct s.
  - rewrite bind_run, (process_framework_run _ _ _ _ _ _ _ _ _ _ _ Hst) by (by apply Hw).
    destruct rest as [|framework' rest].
    + inversion_clear Hrest. simpl. unfold ret. simpl.
      by rewrite app_nil_r, !orb_false_r.
    + rewrite IH by (intros _; by apply Hw). simpl trace. simpl files.
      rewrite <- app_assoc, last_cons.
      destruct (last sts) as [st'|] eqn:E.
      * rewrite insert_insert_eq. f_equal.
        simpl. by destruct (legacy framework), (legacy framework'), (existsb legacy rest), b.
      * apply last_None in E. subst sts. inversion Hrest.
Qed.

End Loop.

(** ** The whole run *)

Lemma main_with_ok (args : Args) (s s' : State) (u : unit) :
  main_with env args s = (Ok u, s') ->
  exists r : Resolution,
    resolved env args r /\
    trace s' = trace s ++ run_events env args r /\
    files s' = match last (steps r) with
               | Some st => <[output_file args := script_text env st.2]> (files s)
               | None => files s
               end.
Proof.
  unfold main_with. intros H.
  apply bind_ok in H as (u0 & s0 & Hlog & H). apply call_ok in Hlog as [_ ->].
  destruct (Bool.eqb _ _) eqn:Hjoint; simpl in H; [|discriminate].
  apply bind_ok in H as (tfms & s1 & Htfms & H). apply lift_ok in Htfms as [Htfms ->].
  apply bind_ok in H as (u1 & s1 & Hinit & H).
  unfold init_tools in Hinit.
  apply bind_ok in Hinit as (u2 & s2 & Hl & Hinit). apply call_ok in Hl as [_ ->].
  apply bind_ok in Hinit as (chs & s2 & Hch & Hinit).
  apply collect_lift_ok in Hch as [Hch ->].
  apply call_ok in Hinit as [Hinst ->].
  apply bind_ok in H as (u3 & s3 & Hinfo & H). apply call_ok in Hinfo as [Hinfo ->].
  apply bind_ok in H as ([owner repo] & s4 & Hrepo & H).
  apply bind_ok in H as (output & s5 & Hgit & H). apply call_ok in Hgit as [Hgit ->].
  apply bind_ok in H as (decoded & s6 & Hdec & H). apply lift_ok in Hdec as [Hdec ->].
  apply bind_ok in H as (b & s7 & Hloop & H).
  apply for_frameworks_ok in Hloop as (sts & Hsts & -> & Htr & Hfl).
  rewrite orb_false_r in H.
  destruct u0, u1, u2, u3, u.
  exists {| monikers := tfms; channels := chs; owner_repo := (owner, repo);
            git_output := output; decoded_output := decoded; steps := sts |}.
  assert (match repo_url_of args with
          | None => (owner, repo) = ("dotnet", "core-sdk") /\
                    trace s4 = trace s ++
                      [ EvSetupLoggers (negb (quiet args)); EvLog "Installing tools.";
                        EvInstall (toolchain_architecture args) chs (dotnet_versions args)
                                  (negb (quiet args));
                        EvDotnetInfo (negb (quiet args)) ]
          | Some url => dotnet_get_repository env url = Ok (owner, repo) /\
                    trace s4 = trace s ++
                      [ EvSetupLoggers (negb (quiet args)); EvLog "Installing tools.";
                        EvInstall (toolchain_architecture args) chs (dotnet_versions args)
                                  (negb (quiet args));
                        EvDotnetInfo (negb (quiet args)) ] ++ [EvGetRepository url]
          end /\ files s4 = files s) as [Hrepo' Hf4].
  { unfold repo_url_of in *. destruct (repository args) as [url|]; simpl in *.
    - apply call_ok in Hrepo as [Hrepo ->]. simpl.
      split; [split; [done|] | done]. by rewrite <- !app_assoc.
    - apply ret_ok in Hrepo as [Hrepo ->]. simpl.
      split; [split; [done|] | done]. by rewrite <- !app_assoc. }
  simpl in Htr, Hfl. rewrite Hf4 in Hfl.
  split; [|split].
  - constructor; simpl; try done.
    + by destruct (repo_url_of args); destruct Hrepo'.
    + unfold cleanup. simpl. intros Hc. rewrite Hc in H. by apply call_ok in H as [? _].
  - unfold run_events, cleanup. simpl.
    destruct (negb (is_win32 env) && existsb legacy tfms).
    + apply call_ok in H as [_ ->]. simpl. rewrite Htr.
      destruct (repo_url_of args); destruct Hrepo' as [_ ->]; by rewrite <- !app_assoc.
    + apply ret_ok in H as [_ ->]. rewrite Htr.
      destruct (repo_url_of args); destruct Hrepo' as [_ ->];
        by rewrite <- !app_assoc, ?app_nil_r.
  - simpl. destruct (negb (is_win32 env) && existsb legacy tfms).
    + apply call_ok in H as [_ ->]. done.
    + apply ret_ok in H as [_ ->]. done.
Qed.

(** Conversely, a run for which the collaborators answer, and which can
    open its output file if it has a framework to write for, completes. *)
Lemma main_with_completes (args : Args) (r : Resolution) (s : State) :
  resolved env args r ->
  (monikers r <> [] -> writable env (output_file args) = true) ->
  main_with env args s =
    (Ok tt,
     {| trace := trace s ++ run_events env args r;
        files := match last (steps r) with
                 | Some st => <[output_file args := script_text env st.2]> (files s)
                 | None => files s
                 end |}).
Proof.
  intros Hr Hw. unfold main_with.
  rewrite bind_run. unfold call at 1.
  rewrite (res_jointly _ _ _ Hr). cbn [negb].
  rewrite bind_run. unfold lift at 1. rewrite (res_monikers _ _ _ Hr).
  rewrite bind_run. fold (toolchain_architecture args).
  unfold init_tools. rewrite bind_run. unfold log_info, call at 1.
  rewrite bind_run, (collect_lift_run _ _ _ _ (res_channels _ _ _ Hr)).
  unfold call at 1. rewrite (res_install _ _ _ Hr).
  rewrite bind_run. unfold call at 1. rewrite (res_info _ _ _ Hr).
  fold (repo_url_of args). rewrite bind_run.
  pose proof (res_repository _ _ _ Hr) as Hrepo.
  pose proof (res_steps _ _ _ Hr) as Hsteps.
  pose proof (res_cleanup _ _ _ Hr) as Hclean.
  unfold run_events, perfHash_of, cleanup in *.
  destruct (owner_repo r) as [owner repo] eqn:Eor. simpl in Hsteps.
  destruct (repo_url_of args) as [url|].
  - unfold call at 1. rewrite Hrepo.
    rewrite bind_run. unfold call at 1. rewrite (res_git _ _ _ Hr).
    rewrite bind_run. unfold lift at 1. rewrite (res_decoded _ _ _ Hr).
    rewrite bind_run, (for_frameworks_run _ _ _ _ _ _ _ _ Hsteps Hw).
    rewrite orb_false_r.
    destruct (negb (is_win32 env) && existsb legacy (monikers r)).
    + unfold call, record. rewrite Hclean by done. simpl.
      by rewrite <- !app_assoc.
    + unfold ret, record. simpl. by rewrite <- !app_assoc, app_nil_r.
  - unfold ret at 1. injection Hrepo as <- <-.
    rewrite bind_run. unfold call at 1. rewrite (res_git _ _ _ Hr).
    rewrite bind_run. unfold lift at 1. rewrite (res_decoded _ _ _ Hr).
    rewrite bind_run, (for_frameworks_run _ _ _ _ _ _ _ _ Hsteps Hw).
    rewrite orb_false_r.
    destruct (negb (is_win32 env) && existsb legacy (monikers r)).
    + unfold call, record. rewrite Hclean by done. simpl.
      by rewrite <- !app_assoc.
    + unfold ret, record. simpl. by rewrite <- !app_assoc, app_nil_r.
Qed.

Lemma __main_parsed (argv : list string) (args : Args) (s : State) :
  validate_supported_runtime env = Ok tt ->
  parse_command_line env argv = Ok args ->
  __main env argv s = main_with env args (record EvValidateRuntime s).
Proof.
  unfold parse_command_line, __main. intros Hv Hp.
  rewrite bind_run. unfold call at 1. rewrite Hv.
  destruct (__process_arguments env argv) as [ns|e]; [|discriminate]. simpl in Hp.
  rewrite bind_run. unfold lift at 1.
  rewrite bind_run. unfold lift at 1. by rewrite Hp.
Qed.

Lemma __main_ok (argv : list string) (s s' : State) (u : unit) :
  __main env argv s = (Ok u, s') ->
  validate_supported_runtime env = Ok tt /\
  exists args, parse_command_line env argv = Ok args /\
               main_with env args (record EvValidateRuntime s) = (Ok u, s').
Proof.
  unfold __main, parse_command_line. intros H.
  apply bind_ok in H as ([] & s0 & Hv & H). apply call_ok in Hv as [Hv ->].
  apply bind_ok in H as (ns & s1 & Hns & H). apply lift_ok in Hns as [Hns ->].
  apply bind_ok in H as (args & s1 & Hargs & H). apply lift_ok in Hargs as [Hargs ->].
  split; [done|]. exists args. by rewrite Hns.
Qed.

End Completed.

(** * What any run may do *)

Section Safety.

Context (env : Env) (args : Args).

Lemma write_variables_emits (variables : list (string * string)) :
  emits (may_emit env args) (write_variables env (output_file args) variables).
Proof.
  unfold write_variables. apply emits_bind.
  - by apply emits_open_w.
  - intros _. apply emits_forM_. intros [n v]. apply emits_write. simpl. eauto.
Qed.

Lemma process_framework_emits (owner repo config_string perfHash : string)
    (remove_dotnet : bool) (framework : string) :
  emits (may_emit env args)
    (process_framework env args (repo_url_of args) owner repo config_string perfHash
                       remove_dotnet framework).
Proof.
  unfold process_framework. destruct (Str.startswith framework "netcoreapp").
  - apply emits_bind; [apply emits_lift | intros tfm].
    apply emits_bind; [by apply emits_call | intros ver].
    apply emits_bind.
    { destruct (commit_sha args) eqn:E; [apply emits_ret | by apply emits_call]. }
    intros sha. apply emits_bind; [by apply emits_call | intros ts].
    apply emits_bind.
    { destruct (branch args) as [b|]; [destruct (falsy (Some b))|];
        first [apply emits_lift | apply emits_ret]. }
    intros br. apply emits_bind; [by apply emits_log | intros _].
    apply emits_bind; [apply write_variables_emits | intros _; apply emits_ret].
  - apply emits_bind; [apply write_variables_emits | intros _; apply emits_ret].
Qed.

Lemma for_frameworks_emits (owner repo config_string perfHash : string)
    (target_framework_monikers : list string) :
  forall remove_dotnet,
    emits (may_emit env args)
      (for_frameworks env args (repo_url_of args) owner repo config_string perfHash
                      remove_dotnet target_framework_monikers).
Proof.
  induction target_framework_monikers as [|framework rest IH]; intros b; simpl.
  - apply emits_ret.
  - apply emits_bind; [apply process_framework_emits | intros b'; apply IH].
Qed.

Lemma main_with_emits : emits (may_emit env args) (main_with env args).
Proof.
  unfold main_with. apply emits_bind; [by apply emits_call | intros _].
  destruct (negb _); [apply emits_raise|].
  apply emits_bind; [apply emits_lift | intros tfms].
  apply emits_bind.
  { unfold init_tools. apply emits_bind; [by apply emits_log | intros _].
    apply emits_bind; [apply emits_collect; intros; apply emits_lift | intros chs].
    by apply emits_call. }
  intros _. apply emits_bind; [by apply emits_call | intros _].
  fold (repo_url_of args).
  apply emits_bind.
  { destruct (repo_url_of args) eqn:E; [by apply emits_call | apply emits_ret]. }
  intros [owner repo]. apply emits_bind; [by apply emits_call | intros output].
  apply emits_bind; [apply emits_lift | intros decoded].
  apply emits_bind; [apply for_frameworks_emits | intros b].
  destruct (negb (is_win32 env)) eqn:Hw; simpl; [|apply emits_ret].
  destruct b; [|apply emits_ret].
  apply emits_call. simpl. split; [done|]. by destruct (is_win32 env).
Qed.

Lemma __main_emits (argv : list string) (s s' : State) (r : result unit) :
  parse_command_line env argv = Ok args ->
  __main env argv s = (r, s') ->
  exists evs, trace s' = trace s ++ EvValidateRuntime :: evs /\ Forall (may_emit env args) evs.
Proof.
  intros Hp. destruct (validate_supported_runtime env) as [[]|e] eqn:Hv.
  - rewrite (__main_parsed env argv args s Hv Hp). intros H.
    apply main_with_emits in H as (evs & Ht & HF). exists evs.
    split; [|done]. rewrite Ht. simpl. by rewrite <- app_assoc.
  - unfold __main. rewrite bind_run. unfold call at 1. rewrite Hv.
    intros [= <- <-]. exists []. split; [done | constructor].
Qed.

Lemma __main_completed (argv : list string) (s s' : State) (u : unit) :
  parse_command_line env argv = Ok args ->
  __main env argv s = (Ok u, s') ->
  exists r : Resolution,
    resolved env args r /\
    trace s' = trace s ++ EvValidateRuntime :: run_events env args r /\
    files s' = match last (steps r) with
               | Some st => <[output_file args := script_text env st.2]> (files s)
               | None => files s
               end.
Proof.
  intros Hp H. apply __main_ok in H as (Hv & args' & Hp' & H).
  rewrite Hp in Hp'. injection Hp' as <-.
  apply main_with_ok in H as (r & Hr & Ht & Hf). exists r.
  split; [done|]. split; [|done]. rewrite Ht. simpl. by rewrite <- app_assoc.
Qed.

End Safety.

(** Evaluation, for the runs on the two hosts. *)
Ltac computed := vm_compute; reflexivity.

Ltac parsed env argv :=
  let r := eval vm_compute in (parse_command_line env argv) in
  match r with
  | Ok ?a => exact a
  end.

(** ** Runs only extend the trace *)

Lemma emits_mono {A} (P Q : event -> Prop) (m : M A) :
  (forall ev, P ev -> Q ev) -> emits P m -> emits Q m.
Proof.
  intros HPQ Hm s r s' H. destruct (Hm _ _ _ H) as (evs & Ht & HF).
  exists evs. split; [done|]. eapply Forall_impl; eauto.
Qed.

Lemma for_frameworks_extends (env : Env) (args : Args)
    (owner repo config_string perfHash : string)
    (remove_dotnet : bool) (target_framework_monikers : list string) :
  emits (fun _ => True)
    (for_frameworks env args (Str.replace "-"%char "/"%char <$> repository args)
                    owner repo config_string perfHash
                    remove_dotnet target_framework_monikers).
Proof.
  eapply emits_mono; [|apply for_frameworks_emits]. done.
Qed.

(** A run only ever extends the trace. *)
Ltac extends :=
  repeat first
    [ apply emits_ret | apply emits_raise | apply emits_lift
    | apply emits_call; exact I | apply emits_log; exact I
    | apply for_frameworks_extends
    | apply emits_bind; [|intros ?]
    | match goal with |- emits _ (let '(_, _) := ?x in _) => destruct x end
    | match goal with |- emits _ (match ?x with _ => _ end) => destruct x end ].

Lemma init_tools_run (env : Env) (architecture : string) (versions : list string)
    (target_framework_monikers channels : list string) (verbose : bool) (s : State) :
  Forall2 (fun framework channel => get_channel env framework = Ok channel)
          target_framework_monikers channels ->
  init_tools env architecture versions target_framework_monikers verbose s =
    (dotnet_install env architecture channels versions verbose,
     record (EvInstall architecture channels versions verbose)
            (record (EvLog "Installing tools.") s)).
Proof.
  intros Hch. unfold init_tools. rewrite bind_run. unfold log_info, call at 1.
  rewrite bind_run. rewrite (collect_lift_run _ _ _ _ Hch). done.
Qed.

(** * The properties of the script *)

(** ** [commit_sha] and [repository] come together *)

(** C1.  When exactly one of [commit_sha] and [repository] is set, the run
    raises the configuration [ValueError] and has done nothing but validate
    the runtime and set up the loggers: nothing is installed, no file is
    touched.  When both or neither are set, the check passes and the run
    goes on: as soon as the monikers and their channels are found, it calls
    the installer. *)
Theorem commit_sha_and_repository_jointly (env : Env) (argv : list string)
    (args : Args) (s : State) :
  validate_supported_runtime env = Ok tt ->
  parse_command_line env argv = Ok args ->
  (exactly_one_set (commit_sha args) (repository args) ->
   __main env argv s =
     (Raise (ValueError "Either both commit_sha and repository should be set or neither"),
      {| trace := trace s ++ [EvValidateRuntime; EvSetupLoggers (negb (quiet args))];
         files := files s |})) /\
  (jointly_set (commit_sha args) (repository args) ->
   forall target_framework_monikers channels,
     get_target_framework_monikers env (frameworks args) = Ok target_framework_monikers ->
     Forall2 (fun framework channel => get_channel env framework = Ok channel)
             target_framework_monikers channels ->
     exists r s' evs,
       __main env argv s = (r, s') /\
       trace s' = trace s ++
                  [ EvValidateRuntime; EvSetupLoggers (negb (quiet args));
                    EvLog "Installing tools.";
                    EvInstall (toolchain_architecture args) channels
                              (dotnet_versions args) (negb (quiet args)) ] ++ evs).
Proof.
  intros Hv Hp. rewrite (__main_parsed env argv args s Hv Hp).
  unfold main_with. rewrite bind_run. unfold call at 1.
  split.
  - intros Hone.
    assert (Bool.eqb (bool_decide (commit_sha args = None))
                     (bool_decide (repository args = None)) = false) as ->.
    { destruct Hone as [[[c Hc] Hr]|[Hc [r Hr]]]; rewrite Hc, Hr; done. }
    simpl. unfold raise, record. simpl. by rewrite <- app_assoc.
  - intros Hboth tfms chs Htfms Hchs.
    assert (Bool.eqb (bool_decide (commit_sha args = None))
                     (bool_decide (repository args = None)) = true) as ->.
    { destruct Hboth as [[[c Hc] [r Hr]]|[Hc Hr]]; rewrite Hc, Hr; done. }
    simpl. rewrite bind_run. unfold lift at 1. rewrite Htfms.
    rewrite bind_run. fold (toolchain_architecture args).
    rewrite (init_tools_run _ _ _ _ _ _ _ Hchs).
    destruct (dotnet_install env _ _ _ _) as [[]|e].
    + match goal with
      | |- exists r s' evs, ?m ?s1 = _ /\ _ =>
          assert (emits (fun _ => True) m) as Hm by extends;
          destruct (m s1) as [r s'] eqn:E
      end.
      apply Hm in E as (evs & Ht & _). exists r, s', evs.
      split; [done|]. rewrite Ht. unfold record. simpl.
      by rewrite <- !app_assoc.
    + eexists _, _, []. split; [done|]. unfold record. simpl.
      by rewrite <- !app_assoc.
Qed.

Lemma commit_sha_and_repository_jointly_witness :
  __main Host.posix ["--commit-sha"; "0c0ffee"] Host.start =
    (Raise (ValueError "Either both commit_sha and repository should be set or neither"),
     {| trace := [EvValidateRuntime; EvSetupLoggers true]; files := ∅ |}) /\
  exists r s' evs,
    __main Host.posix ["--commit-sha"; "0c0ffee"; "--repository"; "https://github.com/dotnet-runtime"]
           Host.start = (r, s') /\
    trace s' = [ EvValidateRuntime; EvSetupLoggers true; EvLog "Installing tools.";
                 EvInstall "x64" ["master"] [] true ] ++ evs.
Proof.
  split.
  - refine (proj1 (commit_sha_and_repository_jointly Host.posix
                     ["--commit-sha"; "0c0ffee"]
                     ltac:(parsed Host.posix ["--commit-sha"; "0c0ffee"])
                     Host.start eq_refl ltac:(computed)) _).
    left. split; [by eexists | reflexivity].
  - refine (proj2 (commit_sha_and_repository_jointly Host.posix
                     ["--commit-sha"; "0c0ffee"; "--repository";
                      "https://github.com/dotnet-runtime"]
                     ltac:(parsed Host.posix
                             ["--commit-sha"; "0c0ffee"; "--repository";
                              "https://github.com/dotnet-runtime"])
                     Host.start eq_refl ltac:(computed))
                  _ ["netcoreapp5.0"] ["master"] eq_refl _).
    + left. split; by eexists.
    + repeat constructor.
Defined.

(** ** Defaults of the command line *)

Section Defaults.

Import Argparse.

Lemma startswith_app (p s : string) : Str.startswith (p +:+ s) p = true.
Proof.
  induction p as [|c p IH]; [by destruct s|].
  rewrite append_cons. simpl. by rewrite Ascii.eqb_refl.
Qed.

Lemma split_eq_spec (s o v : string) :
  split_eq s = Some (o, v) -> s = o +:+ "=" +:+ v.
Proof.
  revert o. induction s as [|c s IH]; intros o; simpl; [done|].
  destruct (Ascii.eqb c "=") eqn:E.
  - apply Ascii.eqb_eq in E as ->. by intros [= <- <-].
  - destruct (split_eq s) as [[o' v']|]; [|done].
    intros [= <- <-]. rewrite append_cons. f_equal. by apply IH.
Qed.

Lemma find_option_spec (p : list argument) (o : string) (a : argument) :
  find_option p o = Some a -> a ∈ p /\ has_option o a = true.
Proof.
  unfold find_option. intros H. apply find_some in H as [Hin Ho].
  split; [by apply list_elem_of_In | done].
Qed.

Lemma parse_optional_mentions (p : list argument) (tok : string) (a : argument)
    (explicit_arg : option string) :
  parse_optional p tok = Optional a explicit_arg ->
  exists o, a ∈ p /\ has_option o a = true /\ mentions o tok = true.
Proof.
  unfold parse_optional, parse_unknown. destruct tok as [|c rest]; [done|].
  destruct (negb _); [done|].
  destruct (find_option p (String c rest)) as [a'|] eqn:Ef.
  - intros [= <- <-]. apply find_option_spec in Ef as [Hin Ho].
    exists (String c rest). split; [done|]. split; [done|].
    unfold mentions. by rewrite String.eqb_refl.
  - destruct rest as [|c' rest]; [done|].
    destruct (split_eq _) as [[o v]|] eqn:Es.
    + destruct (find_option p o) as [a'|] eqn:Ef'.
      * intros [= <- <-]. apply find_option_spec in Ef' as [Hin Ho].
        exists o. split; [done|]. split; [done|].
        apply split_eq_spec in Es. rewrite Es. unfold mentions.
        rewrite <- append_assoc, startswith_app. apply orb_true_r.
      * by repeat case_match.
    + by repeat case_match.
Qed.

Context (p : list argument) (d : string) (flags : list string).

(** Only the options [flags] write the attribute [d]. *)
Hypothesis only_flags :
  forall a, a ∈ p -> dest a = d -> forall o, has_option o a = true -> o ∈ flags.

Lemma selected_elsewhere (tok : string) (a : argument) (explicit_arg : option string) :
  negb (existsb (fun flag => mentions flag tok) flags) = true ->
  parse_optional p tok = Optional a explicit_arg ->
  dest a <> d.
Proof.
  intros Hom Hsel Hd. apply parse_optional_mentions in Hsel as (o & Hin & Ho & Hm).
  apply negb_true_iff in Hom.
  assert (existsb (fun flag => mentions flag tok) flags = true); [|congruence].
  apply existsb_exists. exists o. split; [|done].
  apply list_elem_of_In. by eapply only_flags.
Qed.

Lemma finish_untouched (v : value) (st : Namespace * pending) (ns : Namespace) :
  untouched d v st -> finish st.1 st.2 = Ok ns -> ns !! d = Some v.
Proof.
  destruct st as [ns0 [|a acc]]; intros [Hv Hpd]; simpl in *.
  - by intros [= <-].
  - destruct (arg_nargs a), acc; intros [= <-]; by rewrite lookup_insert_ne.
Qed.

Lemma step_untouched (v : value) (st st' : Namespace * pending) (tok : string) :
  negb (existsb (fun flag => mentions flag tok) flags) = true ->
  untouched d v st -> step p st tok = Ok st' -> untouched d v st'.
Proof.
  intros Hom Hst. destruct st as [ns0 pd]. unfold step.
  destruct (parse_optional p tok) as [|a e|] eqn:Hsel; [| |done].
  - destruct Hst as [Hv Hpd]. destruct pd as [|a acc]; [done|]. simpl in *.
    destruct (arg_nargs a); intros [= <-]; split; simpl; try done;
      by rewrite lookup_insert_ne.
  - pose proof (selected_elsewhere _ _ _ Hom Hsel) as Hne.
    destruct (finish ns0 pd) as [ns1|] eqn:Hfin; [|done].
    apply (finish_untouched v (ns0, pd)) in Hfin; [|done].
    unfold start. destruct (arg_action a), e; try done;
      repeat case_match; intros [= <-]; split; simpl; try done;
      by rewrite lookup_insert_ne.
Qed.

Lemma consume_untouched (v : value) (argv : list string) :
  forall (st : Namespace * pending) (ns : Namespace),
    omitted flags argv = true ->
    untouched d v st -> consume p st argv = Ok ns -> ns !! d = Some v.
Proof.
  induction argv as [|tok argv IH]; intros st ns Hom Hst; simpl.
  - by apply finish_untouched.
  - simpl in Hom. apply andb_true_iff in Hom as [Htok Hom].
    destruct (step p st tok) as [st'|] eqn:Hstep; [|done].
    apply IH; [done|]. by eapply step_untouched.
Qed.

Lemma parse_args_default (v : value) (argv : list string) (ns : Namespace) :
  defaults p ∅ !! d = Some v ->
  omitted flags argv = true ->
  parse_args p argv = Ok ns ->
  ns !! d = Some v.
Proof.
  intros Hdef Hom. unfold parse_args. by apply consume_untouched.
Qed.

End Defaults.

Section DeclaredDefaults.

Import Argparse.

Lemma find_app' {A} (f : A -> bool) (l1 l2 : list A) :
  List.find f (l1 ++ l2) =
    match List.find f l1 with
    | Some x => Some x
    | None => List.find f l2
    end.
Proof. induction l1 as [|x l1 IH]; simpl; [done | by destruct (f x)]. Qed.

Lemma find_declares_none (d : string) (l : list argument) :
  Forall (fun a => dest a <> d) l -> List.find (declares d) l = None.
Proof.
  induction 1 as [|a l Ha _ IH]; simpl; [done|].
  unfold declares at 1. destruct (arg_action a); try done;
    by apply String.eqb_neq in Ha as ->.
Qed.

Lemma defaults_lookup (d : string) (p : list argument) :
  forall ns : Namespace,
    defaults p ns !! d =
      match ns !! d with
      | Some x => Some x
      | None => arg_default <$> List.find (declares d) p
      end.
Proof.
  induction p as [|a p IH]; intros ns; simpl.
  - by destruct (ns !! d).
  - unfold declares at 1.
    destruct (arg_action a); try apply IH;
      (destruct (String.eqb_spec (dest a) d) as [<-|Hne];
       [ destruct (ns !! dest a) eqn:E;
         [ by rewrite IH, E | by rewrite IH, lookup_insert_eq ]
       | destruct (ns !! dest a) eqn:E;
         [ apply IH | by rewrite IH, lookup_insert_ne ] ]).
Qed.

End DeclaredDefaults.

Section OwnDefaults.

Context (env : Env).

Hypothesis collaborators_elsewhere :
  Forall (fun a => dest a ∉ own_dests)
         (dotnet_add_arguments env ++ micro_benchmarks_add_arguments env).

Lemma collaborators_other_dest (d : string) :
  d ∈ own_dests ->
  Forall (fun a => dest a <> d)
         (dotnet_add_arguments env ++ micro_benchmarks_add_arguments env).
Proof.
  intros Hd. eapply Forall_impl; [apply collaborators_elsewhere|].
  intros a Ha Heq. apply Ha. by rewrite Heq.
Qed.

Lemma own_default (d : string) (flags : list string) (v : value)
    (argv : list string) (ns : Namespace) :
  d ∈ own_dests ->
  (forall a, a ∈ add_arguments env [] -> dest a = d ->
             forall o, Argparse.has_option o a = true -> o ∈ flags) ->
  arg_default <$> List.find (declares d) (add_arguments env []) = Some v ->
  omitted flags argv = true ->
  __process_arguments env argv = Ok ns ->
  ns !! d = Some v.
Proof.
  intros Hd Hflags Hdef Hom Hparse. unfold __process_arguments in Hparse.
  eapply parse_args_default; [| |exact Hom|exact Hparse].
  - intros a Ha Hdest o Ho. unfold add_arguments, Argparse.ArgumentParser in Ha.
    simpl in Ha. apply elem_of_cons in Ha as [->|Ha].
    + simpl in Hdest. subst d. unfold own_dests in Hd.
      repeat (apply elem_of_cons in Hd as [[=]|Hd]). by apply elem_of_nil in Hd.
    + by eapply Hflags.
  - rewrite defaults_lookup, lookup_empty.
    unfold add_arguments, Argparse.ArgumentParser in *. simpl in *. done.
Qed.

Lemma collaborators_not_own (d : string) (a : argument) :
  d ∈ own_dests ->
  a ∈ dotnet_add_arguments env ++ micro_benchmarks_add_arguments env ->
  dest a <> d.
Proof.
  intros Hd Ha. pose proof (collaborators_other_dest d Hd) as HF.
  rewrite Forall_forall in HF. by apply HF.
Qed.

Lemma find_own (d : string) (own : list argument) :
  d ∈ own_dests ->
  List.find (declares d)
            (dotnet_add_arguments env ++ micro_benchmarks_add_arguments env ++ own) =
    List.find (declares d) own.
Proof.
  intros Hd. rewrite app_assoc, find_app', find_declares_none; [done|].
  by apply collaborators_other_dest.
Qed.

Lemma in_own (d : string) (own : list argument) (a : argument) :
  d ∈ own_dests ->
  a ∈ dotnet_add_arguments env ++ micro_benchmarks_add_arguments env ++ own ->
  dest a = d ->
  a ∈ own.
Proof.
  intros Hd Ha Hdest. rewrite app_assoc in Ha. apply elem_of_app in Ha as [Ha|Ha]; [|done].
  by apply (collaborators_not_own d) in Ha.
Qed.

(** One attribute of the script at a time: its only option is [flag]. *)
Ltac own_default_of d flag :=
  eapply (own_default d [flag]);
  [ unfold own_dests; set_unfold; tauto
  | intros a Ha Hdest o Ho;
    apply (in_own d) in Ha; [|unfold own_dests; set_unfold; tauto | exact Hdest];
    repeat (apply elem_of_cons in Ha as [->|Ha]; [simpl in Hdest; try discriminate Hdest|]);
    [ unfold Argparse.has_option in Ho; simpl in Ho;
      rewrite orb_false_r in Ho; apply String.eqb_eq in Ho as ->;
      apply list_elem_of_here
    | by apply elem_of_nil in Ha ]
  | unfold add_arguments; rewrite app_nil_l, find_own;
    [reflexivity | unfold own_dests; set_unfold; tauto]
  | eassumption
  | eassumption ].

Lemma own_defaults (argv : list string) (ns : Namespace) :
  __process_arguments env argv = Ok ns ->
  (omitted ["--queue"] argv = true -> ns !! "queue" = Some (VStr "testQueue")) /\
  (omitted ["--build-number"] argv = true ->
   ns !! "build_number" = Some (VStr "1234.1")) /\
  (omitted ["--locale"] argv = true -> ns !! "locale" = Some (VStr "en-US")) /\
  (omitted ["--perf-hash"] argv = true -> ns !! "perf_hash" = Some (VStr "testSha")) /\
  (omitted ["--get-perf-hash"] argv = true ->
   ns !! "get_perf_hash" = Some (VBool false)) /\
  (omitted ["--build-configs"] argv = true -> ns !! "build_configs" = Some (VList [])) /\
  (omitted ["--output-file"] argv = true ->
   ns !! "output_file" =
     Some (VStr (os_path_join env (get_tools_directory env)
                              ("machine-setup" +:+ global_extension env)))).
Proof.
  intros Hp. repeat split; intros Hom.
  - own_default_of "queue" "--queue".
  - own_default_of "build_number" "--build-number".
  - own_default_of "locale" "--locale".
  - own_default_of "perf_hash" "--perf-hash".
  - own_default_of "get_perf_hash" "--get-perf-hash".
  - own_default_of "build_configs" "--build-configs".
  - own_default_of "output_file" "--output-file".
Qed.

End OwnDefaults.

Lemma attr_str_ok (ns : Namespace) (name s : string) :
  Attr.str ns name = Ok s -> ns !! name = Some (VStr s).
Proof.
  unfold Attr.str, Attr.get. destruct (ns !! name) as [[]|]; simpl; try done.
  by intros [= ->].
Qed.

Lemma attr_opt_str_ok (ns : Namespace) (name : string) (o : option string) :
  Attr.opt_str ns name = Ok o ->
  ns !! name = Some (match o with Some s => VStr s | None => VNone end).
Proof.
  unfold Attr.opt_str, Attr.get. destruct (ns !! name) as [[]|]; simpl; try done;
    by intros [= <-].
Qed.

Lemma attr_flag_ok (ns : Namespace) (name : string) (b : bool) :
  Attr.flag ns name = Ok b -> ns !! name = Some (VBool b).
Proof.
  unfold Attr.flag, Attr.get. destruct (ns !! name) as [[]|]; simpl; try done.
  by intros [= ->].
Qed.

Lemma attr_strs_ok (ns : Namespace) (name : string) (l : list string) :
  Attr.strs ns name = Ok l -> ns !! name = Some (VList l).
Proof.
  unfold Attr.strs, Attr.get. destruct (ns !! name) as [[]|]; simpl; try done.
  by intros [= ->].
Qed.

Lemma and_then_ok {A B} (r : result A) (k : A -> result B) (b : B) :
  Attr.and_then r k = Ok b -> exists a, r = Ok a /\ k a = Ok b.
Proof. destruct r as [a|e]; simpl; [eauto | done]. Qed.

(** The record [__main] works on holds what the namespace holds. *)
Lemma args_of_namespace_ok (ns : Namespace) (args : Args) :
  args_of_namespace ns = Ok args ->
  ns !! "queue" = Some (VStr (queue args)) /\
  ns !! "build_number" = Some (VStr (build_number args)) /\
  ns !! "locale" = Some (VStr (locale args)) /\
  ns !! "perf_hash" = Some (VStr (perf_hash args)) /\
  ns !! "get_perf_hash" = Some (VBool (get_perf_hash args)) /\
  ns !! "build_configs" = Some (VList (build_configs args)) /\
  ns !! "output_file" = Some (VStr (output_file args)).
Proof.
  unfold args_of_namespace. intros H.
  repeat match type of H with
         | Attr.and_then _ _ = Ok _ =>
             let x := fresh "x" in let E := fresh "E" in
             apply and_then_ok in H as (x & E & H)
         end.
  injection H as <-. simpl.
  repeat match goal with
         | E : Attr.str _ _ = Ok _ |- _ => apply attr_str_ok in E
         | E : Attr.opt_str _ _ = Ok _ |- _ => apply attr_opt_str_ok in E
         | E : Attr.flag _ _ = Ok _ |- _ => apply attr_flag_ok in E
         | E : Attr.strs _ _ = Ok _ |- _ => apply attr_strs_ok in E
         end.
  by repeat split.
Qed.

(** C8.  When the option is not on the command line, the parsed arguments
    hold its declared default: [testQueue], [1234.1], [en-US], [testSha],
    no discovery of the perf hash, no build configuration, and the
    [machine-setup] script in the tools directory, with the extension of the
    host.  The arguments that the collaborators declare must not write the
    attributes of the script. *)
Theorem defaults_when_omitted (env : Env) (argv : list string) (args : Args) :
  Forall (fun a => dest a ∉ own_dests)
         (dotnet_add_arguments env ++ micro_benchmarks_add_arguments env) ->
  parse_command_line env argv = Ok args ->
  (omitted ["--queue"] argv = true -> queue args = "testQueue") /\
  (omitted ["--build-number"] argv = true -> build_number args = "1234.1") /\
  (omitted ["--locale"] argv = true -> locale args = "en-US") /\
  (omitted ["--perf-hash"] argv = true -> perf_hash args = "testSha") /\
  (omitted ["--get-perf-hash"] argv = true -> get_perf_hash args = false) /\
  (omitted ["--build-configs"] argv = true -> build_configs args = []) /\
  (omitted ["--output-file"] argv = true ->
   output_file args =
     os_path_join env (get_tools_directory env)
                  ("machine-setup" +:+ (if is_win32 env then ".cmd" else ".sh"))).
Proof.
  intros Hcollab Hp. unfold parse_command_line in Hp.
  apply and_then_ok in Hp as (ns & Hns & Hargs).
  destruct (own_defaults env Hcollab argv ns Hns)
    as (Hq & Hb & Hl & Hph & Hg & Hc & Ho).
  destruct (args_of_namespace_ok ns args Hargs)
    as (Aq & Ab & Al & Aph & Ag & Ac & Ao).
  repeat split; intros Hom.
  - specialize (Hq Hom). congruence.
  - specialize (Hb Hom). congruence.
  - specialize (Hl Hom). congruence.
  - specialize (Hph Hom). congruence.
  - specialize (Hg Hom). congruence.
  - specialize (Hc Hom). congruence.
  - specialize (Ho Hom). unfold global_extension in Ho. congruence.
Qed.

Lemma defaults_when_omitted_witness :
  exists args,
    parse_command_line Host.posix ["--frameworks"; "netcoreapp3.1"; "-q"] = Ok args /\
    queue args = "testQueue" /\ build_number args = "1234.1" /\
    locale args = "en-US" /\ perf_hash args = "testSha" /\
    get_perf_hash args = false /\ build_configs args = [] /\
    output_file args = "/perf/tools/machine-setup.sh".
Proof.
  exists ltac:(parsed Host.posix ["--frameworks"; "netcoreapp3.1"; "-q"]).
  split; [computed|].
  pose proof (fun H => defaults_when_omitted Host.posix
                         ["--frameworks"; "netcoreapp3.1"; "-q"] _ H
                         (ltac:(computed) :
                            parse_command_line Host.posix
                              ["--frameworks"; "netcoreapp3.1"; "-q"] = Ok _)) as D.
  destruct D as (Hq & Hb & Hl & Hph & Hg & Hc & Ho).
  { unfold own_dests. repeat constructor; simpl; set_unfold; intuition discriminate. }
  exact (conj (Hq eq_refl) (conj (Hb eq_refl) (conj (Hl eq_refl) (conj (Hph eq_refl)
           (conj (Hg eq_refl) (conj (Hc eq_refl) (Ho eq_refl))))))).
Defined.

(** ** The frameworks of a completed run *)

Section Frameworks.

Context (env : Env) (args : Args) (repo_url : option string)
        (owner repo config_string perfHash : string).

Abbreviation step_of :=
  (fun framework (st : list event * list (string * string)) =>
     framework_step env args repo_url owner repo config_string perfHash
                    framework st.1 st.2).

Lemma write_events_written (path : string) (variables : list (string * string))
    (name value : string) :
  (name, value) ∈ variables ->
  EvWriteText path (variable_format env name value) ∈ write_events env path variables.
Proof.
  intros Hin. unfold write_events. apply elem_of_cons. right.
  apply (list_elem_of_fmap_2 (fun nv => EvWriteText path (variable_format env nv.1 nv.2))
           variables (name, value) Hin).
Qed.

Lemma framework_step_written (framework : string) (evs : list event)
    (variables : list (string * string)) (name value : string) :
  framework_step env args repo_url owner repo config_string perfHash
                 framework evs variables ->
  (name, value) ∈ variables ->
  writes_variable env evs (output_file args) name value.
Proof.
  unfold writes_variable. intros [tfm ver sha ts br Hcore Htfm Hver Hsha Hts Hbr|Hother] Hin.
  - rewrite !elem_of_app. do 3 right. by apply write_events_written.
  - by apply write_events_written.
Qed.

Lemma framework_step_events (framework : string) (evs : list event)
    (variables : list (string * string)) :
  framework_step env args repo_url owner repo config_string perfHash
                 framework evs variables ->
  forallb step_event evs = true /\ length (List.filter is_open evs) = 1.
Proof.
  assert (forall path vars,
            forallb step_event (write_events env path vars) = true /\
            List.filter is_open (write_events env path vars) = [EvOpen path]) as Hw.
  { intros path vars. unfold write_events. simpl.
    induction vars as [|nv vars [IH1 IH2]]; [done|]. simpl.
    split; [done|]. by injection IH2 as ->. }
  intros [tfm ver sha ts br Hcore Htfm Hver Hsha Hts Hbr|Hother].
  - destruct (Hw (output_file args)
                 (core_variables args owner repo br perfHash sha ts config_string ver
                                 framework)) as [H1 H2].
    rewrite !forallb_app, !List.filter_app, H1, H2.
    destruct (commit_sha args); done.
  - destruct (Hw (output_file args) (other_variables framework)) as [H1 H2].
    by rewrite H1, H2.
Qed.

Lemma steps_last (target_framework_monikers : list string)
    (sts : list (list event * list (string * string))) (framework : string) :
  Forall2 step_of target_framework_monikers sts ->
  last target_framework_monikers = Some framework ->
  exists st, last sts = Some st /\ step_of framework st.
Proof.
  induction 1 as [|fw st tfms sts Hst Hrest IH]; [done|].
  rewrite !last_cons. destruct (last tfms) as [fw'|] eqn:E.
  - intros [= ->]. destruct IH as (st' & -> & Hst'); [done|]. eauto.
  - intros [= ->]. apply last_None in E as ->. inversion Hrest; subst. eauto.
Qed.

Lemma steps_elem (target_framework_monikers : list string)
    (sts : list (list event * list (string * string))) (framework : string) :
  Forall2 step_of target_framework_monikers sts ->
  framework ∈ target_framework_monikers ->
  exists st, st ∈ sts /\ step_of framework st.
Proof.
  induction 1 as [|fw st tfms sts Hst Hrest IH]; intros Hin.
  - by apply elem_of_nil in Hin.
  - apply elem_of_cons in Hin as [->|Hin].
    + exists st. split; [apply list_elem_of_here | done].
    + destruct (IH Hin) as (st' & Hin' & Hst'). exists st'.
      split; [by apply list_elem_of_further | done].
Qed.

Lemma steps_events (target_framework_monikers : list string)
    (sts : list (list event * list (string * string))) :
  Forall2 step_of target_framework_monikers sts ->
  forallb step_event (concat sts.*1) = true /\
  length (List.filter is_open (concat sts.*1)) = length target_framework_monikers.
Proof.
  induction 1 as [|fw st tfms sts Hst Hrest [IH1 IH2]]; [done|].
  apply framework_step_events in Hst as [H1 H2].
  rewrite fmap_cons. cbn [concat length].
  rewrite forallb_app, List.filter_app, length_app, H1, H2, IH1, IH2. done.
Qed.

Lemma step_in_concat (sts : list (list event * list (string * string)))
    (st : list event * list (string * string)) (ev : event) :
  st ∈ sts -> ev ∈ st.1 -> ev ∈ concat sts.*1.
Proof.
  intros Hst Hev. apply list_elem_of_In, in_concat. exists st.1.
  split; apply list_elem_of_In; [|done].
  by apply list_elem_of_fmap_2.
Qed.

End Frameworks.

Lemma framework_step_core (env : Env) (args : Args) (owner repo config_string perfHash : string)
    (framework : string) (evs : list event) (variables : list (string * string)) :
  framework_step env args (repo_url_of args) owner repo config_string perfHash
                 framework evs variables ->
  Str.startswith framework "netcoreapp" = true ->
  exists tfm ver sha ts br,
    core_facts env args framework tfm ver sha ts br /\
    variables = core_variables args owner repo br perfHash sha ts config_string ver framework.
Proof.
  intros [tfm ver sha ts br Hcore Htfm Hver Hsha Hts Hbr|Hother] Hc; [|congruence].
  exists tfm, ver, sha, ts, br. by repeat split.
Qed.

Lemma completed_core (env : Env) (argv : list string) (args : Args) (s s' : State) (u : unit) :
  parse_command_line env argv = Ok args ->
  __main env argv s = (Ok u, s') ->
  exists r : Resolution,
    resolved env args r /\
    trace s' = trace s ++ EvValidateRuntime :: run_events env args r /\
    (forall framework,
       framework ∈ monikers r -> Str.startswith framework "netcoreapp" = true ->
       exists tfm ver sha ts br,
         core_facts env args framework tfm ver sha ts br /\
         forall name value,
           (name, value) ∈ core_variables args (owner_repo r).1 (owner_repo r).2 br
                             (perfHash_of args r) sha ts
                             (config_string_of env (build_configs args)) ver framework ->
           writes_variable env (EvValidateRuntime :: run_events env args r)
                           (output_file args) name value) /\
    (forall framework,
       last (monikers r) = Some framework -> Str.startswith framework "netcoreapp" = true ->
       exists tfm ver sha ts br,
         core_facts env args framework tfm ver sha ts br /\
         files s' !! output_file args =
           Some (script_text env
                   (core_variables args (owner_repo r).1 (owner_repo r).2 br
                      (perfHash_of args r) sha ts
                      (config_string_of env (build_configs args)) ver framework))).
Proof.
  intros Hp H. destruct (__main_completed env args argv s s' u Hp H) as (r & Hr & Ht & Hf).
  exists r. split; [done|]. split; [done|]. split.
  - intros fw Hin Hc.
    destruct (steps_elem _ _ _ _ _ _ _ _ _ _ (res_steps _ _ _ Hr) Hin) as (st & Hst & Hstep).
    destruct (framework_step_core _ _ _ _ _ _ _ _ _ Hstep Hc)
      as (tfm & ver & sha & ts & br & Hfacts & Hvars).
    exists tfm, ver, sha, ts, br. split; [done|]. intros name value Hnv.
    rewrite <- Hvars in Hnv.
    pose proof (framework_step_written _ _ _ _ _ _ _ _ _ _ _ _ Hstep Hnv) as Hw.
    unfold writes_variable in *. apply elem_of_cons. right.
    unfold run_events. rewrite !elem_of_app. do 3 right. left.
    by eapply step_in_concat.
  - intros fw Hlast Hc.
    destruct (steps_last _ _ _ _ _ _ _ _ _ _ (res_steps _ _ _ Hr) Hlast) as (st & Hst & Hstep).
    destruct (framework_step_core _ _ _ _ _ _ _ _ _ Hstep Hc)
      as (tfm & ver & sha & ts & br & Hfacts & Hvars).
    exists tfm, ver, sha, ts, br. split; [done|].
    rewrite Hf, Hst, lookup_insert_eq, Hvars. done.
Qed.

(** A variable of the core kind whose value does not depend on the
    framework. *)
Lemma core_variable_of_run (env : Env) (argv : list string) (args : Args) (s s' : State)
    (name : string) (value : Resolution -> string) :
  parse_command_line env argv = Ok args ->
  __main env argv s = (Ok tt, s') ->
  (forall r framework br sha ts ver,
     (name, value r) ∈ core_variables args (owner_repo r).1 (owner_repo r).2 br
                         (perfHash_of args r) sha ts
                         (config_string_of env (build_configs args)) ver framework /\
     variable name (core_variables args (owner_repo r).1 (owner_repo r).2 br
                      (perfHash_of args r) sha ts
                      (config_string_of env (build_configs args)) ver framework)
       = Some (value r)) ->
  exists r : Resolution,
    resolved env args r /\
    trace s' = trace s ++ EvValidateRuntime :: run_events env args r /\
    (forall framework,
       framework ∈ monikers r -> Str.startswith framework "netcoreapp" = true ->
       writes_variable env (EvValidateRuntime :: run_events env args r)
                       (output_file args) name (value r)) /\
    (forall framework,
       last (monikers r) = Some framework -> Str.startswith framework "netcoreapp" = true ->
       file_assigns env s' (output_file args) name (value r)).
Proof.
  intros Hp H Hvar.
  destruct (completed_core env argv args s s' tt Hp H) as (r & Hr & Ht & Hall & Hlast).
  exists r. split; [done|]. split; [done|]. split.
  - intros fw Hin Hc.
    destruct (Hall fw Hin Hc) as (tfm & ver & sha & ts & br & _ & Hw).
    apply Hw. apply Hvar.
  - intros fw Hl Hc.
    destruct (Hlast fw Hl Hc) as (tfm & ver & sha & ts & br & _ & Hfile).
    eexists. split; [exact Hfile | apply Hvar].
Qed.

(** ** The output of git *)

Lemma splitlines_one_line (head : string) :
  forall cur,
    Str.forallb (fun c => negb (Str.is_linebreak c)) head = true ->
    Str.splitlines_from cur (head +:+ newline) = [cur +:+ head].
Proof.
  induction head as [|c head IH]; intros cur Hh.
  - simpl. by rewrite append_nil_r.
  - simpl in Hh. apply andb_true_iff in Hh as [Hc Hh].
    rewrite append_cons. simpl.
    unfold Str.is_linebreak in Hc. apply negb_true_iff, orb_false_iff in Hc as [-> ->].
    rewrite IH by done. by rewrite append_assoc.
Qed.

Lemma ascii_valid (s : string) :
  Str.forallb Utf8.is_ascii s = true -> Utf8.run Utf8.Start s = Some Utf8.Start.
Proof.
  induction s as [|c s IH]; [done|]. simpl.
  intros [Hc Hs]%andb_true_iff. unfold Utf8.is_ascii in Hc.
  unfold Utf8.lead, Utf8.between.
  assert ((0 <=? N_of_ascii c)%N && (N_of_ascii c <=? 127)%N = true) as ->.
  { apply andb_true_iff. split; [by apply N.leb_le, N.le_0_l|].
    apply N.leb_le. apply N.ltb_lt in Hc. lia. }
  by apply IH.
Qed.

Lemma forallb_and (P Q : ascii -> bool) (s : string) :
  Str.forallb (fun c => P c && Q c) s = true ->
  Str.forallb P s = true /\ Str.forallb Q s = true.
Proof.
  induction s as [|c s IH]; [done|]. simpl.
  intros [[HP HQ]%andb_true_iff Hs]%andb_true_iff.
  destruct (IH Hs) as [-> ->]. by rewrite HP, HQ.
Qed.

Lemma join_cons (x : string) (l : list string) :
  Str.join "" (x :: l) = x +:+ Str.join "" l.
Proof. destruct l; simpl; [by rewrite append_nil_r | done]. Qed.

Lemma join_splitlines (s : string) :
  forall cur,
    Str.join "" (Str.splitlines_from cur s) = cur +:+ Str.strip_linebreaks s.
Proof.
  induction s as [|c s IH]; intros cur.
  - simpl. destruct cur; [done | by rewrite append_nil_r].
  - cbn [Str.splitlines_from Str.strip_linebreaks]. unfold Str.is_linebreak.
    destruct (Ascii.eqb c Str.LF) eqn:Elf.
    { by rewrite join_cons, IH. }
    destruct (Ascii.eqb c Str.CR) eqn:Ecr; simpl orb; cbv iota.
    + destruct s as [|d s']; [by rewrite join_cons, IH|].
      destruct (Ascii.eqb d Str.LF) eqn:Elf'; [|by rewrite join_cons, IH].
      rewrite join_cons. f_equal.
      specialize (IH ""). cbn [Str.splitlines_from Str.strip_linebreaks] in IH.
      unfold Str.is_linebreak in IH. rewrite Elf', join_cons in IH.
      cbn [Str.strip_linebreaks]. unfold Str.is_linebreak. rewrite Elf'. exact IH.
    + by rewrite IH, append_assoc.
Qed.

Lemma decode_lines_ok (lines decoded_lines : list string) :
  decode_lines lines = Ok decoded_lines -> decoded_lines = lines.
Proof.
  revert decoded_lines. induction lines as [|line lines IH]; intros ds; simpl.
  - by intros [= <-].
  - unfold Utf8.decode. destruct (Utf8.valid line); [|done]. simpl.
    destruct (decode_lines lines) as [ds'|]; [|done]. simpl.
    intros [= <-]. by rewrite (IH ds').
Qed.

(** The decoded output is the output without its line terminators. *)
Lemma decode_output_strip (output decoded : string) :
  decode_output output = Ok decoded -> decoded = Str.strip_linebreaks output.
Proof.
  unfold decode_output. destruct (decode_lines _) as [ds|] eqn:E; [|done]. simpl.
  intros [= <-]. apply decode_lines_ok in E as ->.
  unfold Str.splitlines. by rewrite join_splitlines.
Qed.

(** The usual output of [git rev-parse HEAD]: the hash and a line feed. *)
Lemma decode_output_head (head : string) :
  Str.forallb (fun c => Utf8.is_ascii c && negb (Str.is_linebreak c)) head = true ->
  decode_output (head +:+ newline) = Ok head.
Proof.
  intros [Ha Hl]%forallb_and. unfold decode_output, Str.splitlines.
  rewrite splitlines_one_line by done. simpl.
  unfold Utf8.decode, Utf8.valid. by rewrite ascii_valid.
Qed.



(** ** The removal of the toolchain *)

Lemma existsb_legacy (target_framework_monikers : list string) :
  existsb legacy target_framework_monikers = true <->
  "netcoreapp3.0" ∈ target_framework_monikers \/ "netcoreapp5.0" ∈ target_framework_monikers.
Proof.
  rewrite existsb_exists. split.
  - intros (fw & Hin & Hl). apply list_elem_of_In in Hin. unfold legacy in Hl.
    apply orb_true_iff in Hl as [Hl|Hl]; apply String.eqb_eq in Hl; subst; tauto.
  - intros [Hin|Hin]; apply list_elem_of_In in Hin; eauto.
Qed.

Lemma not_step_event (sts : list (list event * list (string * string))) (ev : event) :
  forallb step_event (concat sts.*1) = true -> step_event ev = false ->
  ev ∉ concat sts.*1.
Proof.
  intros Hall Hev Hin. rewrite forallb_forall in Hall.
  apply list_elem_of_In, Hall in Hin. congruence.
Qed.

(** The events of a completed run: the removal, if any, comes last. *)
Lemma run_events_cleanup (env : Env) (args : Args) (r : Resolution) :
  resolved env args r ->
  exists before,
    run_events env args r =
      before ++ (if cleanup env r then [EvRemoveDotnet (toolchain_architecture args)] else []) /\
    (forall a, EvRemoveDotnet a ∉ before) /\
    EvInstall (toolchain_architecture args) (channels r) (dotnet_versions args)
              (negb (quiet args)) ∈ before.
Proof.
  intros Hr. unfold run_events.
  destruct (steps_events _ _ _ _ _ _ _ _ _ (res_steps _ _ _ Hr)) as [Hk _].
  eexists. split; [by rewrite !app_assoc|]. split.
  - intros a. rewrite !elem_of_app. intros [[[Hin|Hin]|Hin]|Hin].
    + set_unfold. intuition discriminate.
    + destruct (repo_url_of args); set_unfold; intuition discriminate.
    + set_unfold. intuition discriminate.
    + by apply (not_step_event _ _ Hk) in Hin.
  - rewrite !elem_of_app. do 3 left. set_unfold. tauto.
Qed.

(** C6.  In a completed run the toolchain is removed if and only if the host
    is not Windows and [netcoreapp3.0] or [netcoreapp5.0] is among the
    frameworks.  The removal is the last call of the run, after every
    write, it happens once, and it names the architecture that the
    toolchain was installed for. *)
Theorem toolchain_removed_iff_legacy (env : Env) (argv : list string) (args : Args)
    (s s' : State) (target_framework_monikers : list string) :
  parse_command_line env argv = Ok args ->
  __main env argv s = (Ok tt, s') ->
  get_target_framework_monikers env (frameworks args) = Ok target_framework_monikers ->
  exists evs,
    trace s' = trace s ++ evs /\
    ((exists a, EvRemoveDotnet a ∈ evs) <->
     (sys_platform env <> "win32" /\
      ("netcoreapp3.0" ∈ target_framework_monikers \/
       "netcoreapp5.0" ∈ target_framework_monikers))) /\
    (forall a,
       EvRemoveDotnet a ∈ evs ->
       exists before channels,
         evs = before ++ [EvRemoveDotnet a] /\
         (forall a', EvRemoveDotnet a' ∉ before) /\
         EvInstall a channels (dotnet_versions args) (negb (quiet args)) ∈ before).
Proof.
  intros Hp H Htfms.
  destruct (__main_completed env args argv s s' tt Hp H) as (r & Hr & Ht & _).
  rewrite (res_monikers _ _ _ Hr) in Htfms. injection Htfms as <-.
  destruct (run_events_cleanup env args r Hr) as (before & Hev & Hno & Hinst).
  exists (EvValidateRuntime :: run_events env args r). split; [done|].
  rewrite Hev.
  assert (cleanup env r = true <->
          sys_platform env <> "win32" /\
          ("netcoreapp3.0" ∈ monikers r \/ "netcoreapp5.0" ∈ monikers r)) as Hc.
  { unfold cleanup, is_win32.
    rewrite andb_true_iff, negb_true_iff, String.eqb_neq, existsb_legacy. done. }
  assert (forall a, EvRemoveDotnet a ∉ EvValidateRuntime :: before) as Hno'.
  { intros a [[=]|Hin]%elem_of_cons. by apply Hno in Hin. }
  destruct (cleanup env r).
  - split.
    + split; [intros _; by apply Hc|]. intros _.
      exists (toolchain_architecture args). rewrite app_comm_cons, elem_of_app.
      right. apply list_elem_of_here.
    + intros a Hin. rewrite app_comm_cons, elem_of_app in Hin.
      destruct Hin as [Hin|Hin]; [by apply Hno' in Hin|].
      apply list_elem_of_singleton in Hin. injection Hin as ->.
      exists (EvValidateRuntime :: before), (channels r).
      split; [done|]. split; [done|]. by apply list_elem_of_further.
  - rewrite app_nil_r. split.
    + split; [intros [a Hin]; by apply Hno' in Hin|].
      intros Hw. apply Hc in Hw. discriminate.
    + intros a Hin. by apply Hno' in Hin.
Qed.

Lemma toolchain_removed_iff_legacy_witness :
  let argv := ["--frameworks"; "net461"; "netcoreapp5.0"] in
  let run := __main Host.posix argv Host.start in
  run.1 = Ok tt /\ exists a, EvRemoveDotnet a ∈ trace run.2.
Proof.
  intros argv run. split; [computed|].
  destruct (toolchain_removed_iff_legacy Host.posix argv ltac:(parsed Host.posix argv)
              Host.start run.2 ["net461"; "netcoreapp5.0"]
              ltac:(computed) ltac:(computed) eq_refl) as (evs & Ht & Hiff & _).
  rewrite Ht. apply Hiff. split; [discriminate|].
  right. apply list_elem_of_further, list_elem_of_here.
Defined.

(** ** The lines of the script *)

Lemma forallb_append (P : ascii -> bool) (s1 s2 : string) :
  Str.forallb P (s1 +:+ s2) = Str.forallb P s1 && Str.forallb P s2.
Proof.
  induction s1 as [|c s1 IH]; [done|].
  rewrite append_cons. simpl. by rewrite IH, andb_assoc.
Qed.

Lemma splitlines_line (head rest : string) :
  forall cur,
    no_linebreak head = true ->
    Str.splitlines_from cur (head +:+ newline +:+ rest) =
      (cur +:+ head) :: Str.splitlines_from "" rest.
Proof.
  induction head as [|c head IH]; intros cur Hh.
  - simpl. by rewrite append_nil_r.
  - unfold no_linebreak in Hh. simpl in Hh. apply andb_true_iff in Hh as [Hc Hh].
    rewrite append_cons. simpl.
    unfold Str.is_linebreak in Hc. apply negb_true_iff, orb_false_iff in Hc as [-> ->].
    rewrite IH by done. by rewrite append_assoc.
Qed.

Lemma script_lines (env : Env) (variables : list (string * string)) :
  Forall (fun nv => no_linebreak nv.1 = true /\ no_linebreak nv.2 = true) variables ->
  Str.splitlines (script_text env variables) =
    map (fun nv => (if is_win32 env then "set " else "export ") +:+ nv.1 +:+ "=" +:+ nv.2)
        variables.
Proof.
  unfold Str.splitlines.
  induction 1 as [|[n v] variables [Hn Hv] _ IH]; [done|]. simpl in *.
  unfold variable_format.
  replace (((if is_win32 env then "set " else "export ") +:+ n +:+ "=" +:+ v +:+ newline)
           +:+ script_text env variables)
    with (((if is_win32 env then "set " else "export ") +:+ n +:+ "=" +:+ v)
          +:+ newline +:+ script_text env variables)
    by (by rewrite !append_assoc).
  rewrite splitlines_line, IH; [done|].
  unfold no_linebreak in *. rewrite !forallb_append, Hn, Hv.
  by destruct (is_win32 env).
Qed.

(** ** The last framework *)

Lemma framework_step_shape (env : Env) (args : Args) (repo_url : option string)
    (owner repo config_string perfHash framework : string)
    (evs : list event) (variables : list (string * string)) :
  framework_step env args repo_url owner repo config_string perfHash
                 framework evs variables ->
  (exists queries, evs = queries ++ write_events env (output_file args) variables) /\
  variable "PERFLAB_TARGET_FRAMEWORKS" variables = Some framework.
Proof.
  intros [tfm ver sha ts br Hcore Htfm Hver Hsha Hts Hbr|Hother].
  - split; [|reflexivity]. eexists. by rewrite !app_assoc.
  - split; [|reflexivity]. by exists [].
Qed.

(** C10.  A completed run opens the output file once for every framework,
    each time for writing from the start, and opens no other file.  What
    the file holds in the end is what was written after the last opening:
    the assignments of the last framework, and none of an earlier one. *)
Theorem last_framework_overwrites (env : Env) (argv : list string) (args : Args)
    (s s' : State) (target_framework_monikers : list string) :
  parse_command_line env argv = Ok args ->
  __main env argv s = (Ok tt, s') ->
  get_target_framework_monikers env (frameworks args) = Ok target_framework_monikers ->
  exists evs,
    trace s' = trace s ++ evs /\
    length (List.filter is_open evs) = length target_framework_monikers /\
    (forall path, EvOpen path ∈ evs -> path = output_file args) /\
    (target_framework_monikers = [] -> files s' = files s) /\
    (forall framework,
       last target_framework_monikers = Some framework ->
       exists variables before after,
         files s' !! output_file args = Some (script_text env variables) /\
         variable "PERFLAB_TARGET_FRAMEWORKS" variables = Some framework /\
         evs = before ++ write_events env (output_file args) variables ++ after /\
         forall ev, ev ∈ after -> step_event ev = false).
Proof.
  intros Hp H Htfms.
  destruct (__main_completed env args argv s s' tt Hp H) as (r & Hr & Ht & Hf).
  rewrite (res_monikers _ _ _ Hr) in Htfms. injection Htfms as <-.
  pose proof (res_steps _ _ _ Hr) as Hsteps.
  destruct (steps_events _ _ _ _ _ _ _ _ _ Hsteps) as [_ Hopens].
  exists (EvValidateRuntime :: run_events env args r). split; [done|]. split.
  { unfold run_events. simpl List.filter. rewrite !List.filter_app, !length_app.
    simpl List.filter. rewrite !List.filter_app, !length_app, Hopens.
    destruct (repo_url_of args), (cleanup env r); simpl; lia. }
  split.
  { destruct (__main_emits env args argv s s' (Ok tt) Hp H) as (evs & Ht' & HF).
    rewrite Ht in Ht'. apply app_inv_head in Ht'. injection Ht' as Ht'.
    rewrite Ht'. rewrite Forall_forall in HF. intros path [[=]|Hin]%elem_of_cons.
    by apply HF in Hin. }
  split.
  { intros Hnil. rewrite Hnil in Hsteps. apply Forall2_nil_inv_l in Hsteps.
    by rewrite Hf, Hsteps. }
  intros fw Hlast.
  destruct (steps_last _ _ _ _ _ _ _ _ _ _ Hsteps Hlast) as (st & Hst & Hstep).
  destruct (framework_step_shape _ _ _ _ _ _ _ _ _ _ Hstep) as [[queries Hq] Hvar].
  apply last_Some in Hst as Hinit. destruct Hinit as [init Hinit].
  exists st.2.
  exists (EvValidateRuntime ::
          [ EvSetupLoggers (negb (quiet args)); EvLog "Installing tools.";
            EvInstall (toolchain_architecture args) (channels r) (dotnet_versions args)
                      (negb (quiet args));
            EvDotnetInfo (negb (quiet args)) ] ++
          match repo_url_of args with
          | None => []
          | Some url => [EvGetRepository url]
          end ++
          [ EvGitRevParseHead (get_repo_root_path env) ] ++
          concat init.*1 ++ queries).
  exists (if cleanup env r then [EvRemoveDotnet (toolchain_architecture args)] else []).
  split; [by rewrite Hf, Hst, lookup_insert_eq|]. split; [done|]. split.
  - unfold run_events. rewrite Hinit, fmap_app, concat_app. simpl.
    rewrite Hq, app_nil_r. do 5 f_equal.
    rewrite <- !app_assoc. simpl. by rewrite <- !app_assoc.
  - intros ev Hin. destruct (cleanup env r).
    + by apply list_elem_of_singleton in Hin as ->.
    + by apply elem_of_nil in Hin.
Qed.

Lemma last_framework_overwrites_witness :
  let argv := ["--frameworks"; "netcoreapp3.1"; "netcoreapp5.0"; "net461"] in
  let run := __main Host.posix argv Host.start in
  run.1 = Ok tt /\
  length (List.filter is_open (trace run.2)) = 3 /\
  exists variables,
    files run.2 !! "/perf/tools/machine-setup.sh" = Some (script_text Host.posix variables) /\
    variable "PERFLAB_TARGET_FRAMEWORKS" variables = Some "net461".
Proof.
  intros argv run. split; [computed|].
  destruct (last_framework_overwrites Host.posix argv ltac:(parsed Host.posix argv)
              Host.start run.2 ["netcoreapp3.1"; "netcoreapp5.0"; "net461"]
              ltac:(computed) ltac:(computed) eq_refl)
    as (evs & Ht & Hopens & _ & _ & Hlast).
  split; [by rewrite Ht|].
  destruct (Hlast "net461" eq_refl) as (variables & _ & _ & Hfile & Hvar & _).
  exists variables. split; [exact Hfile | exact Hvar].
Defined.

(** * More of the script: stages, failures and the command line *)

(** ** The channels and the installer *)

Lemma collect_lift_traverse {A B} (f : A -> result B) (l : list A) (s : State) :
  collect (fun x => lift (f x)) l s = (traverse f l, s).
Proof.
  induction l as [|x l IH]; [done|]. simpl.
  rewrite bind_run. unfold lift at 1. destruct (f x) as [y|e]; [|done].
  rewrite bind_run, IH. by destruct (traverse f l).
Qed.

Lemma traverse_ok {A B} (f : A -> result B) (l : list A) (ys : list B) :
  traverse f l = Ok ys <-> Forall2 (fun x y => f x = Ok y) l ys.
Proof.
  revert ys. induction l as [|x l IH]; intros ys; simpl.
  - split; [by intros [= <-]; constructor | by inversion 1].
  - split.
    + destruct (f x) as [y|e] eqn:E; [|done].
      destruct (traverse f l) as [ys'|e]; [|done].
      intros [= <-]. constructor; [done | by apply IH].
    + inversion 1 as [|? y ? ys' Hxy Hrest]; subst.
      apply IH in Hrest. by rewrite Hxy, Hrest.
Qed.

Lemma init_tools_traverse (env : Env) (architecture : string) (versions : list string)
    (target_framework_monikers : list string) (verbose : bool) (s : State) :
  init_tools env architecture versions target_framework_monikers verbose s =
    match traverse (get_channel env) target_framework_monikers with
    | Ok channels =>
        (dotnet_install env architecture channels versions verbose,
         {| trace := trace s ++ [EvLog "Installing tools.";
                                 EvInstall architecture channels versions verbose];
            files := files s |})
    | Raise e =>
        (Raise e, {| trace := trace s ++ [EvLog "Installing tools."]; files := files s |})
    end.
Proof.
  unfold init_tools. rewrite bind_run. unfold log_info, call at 1.
  rewrite bind_run, collect_lift_traverse.
  destruct (traverse _ _) as [chs|e]; [|done].
  unfold call, record. simpl. by rewrite <- app_assoc.
Qed.

(** ** The stages of a run *)

Lemma check_passes (c r : option string) :
  Bool.eqb (bool_decide (c = None)) (bool_decide (r = None)) = true <-> jointly_set c r.
Proof.
  unfold jointly_set. destruct c as [c|], r as [r|]; simpl; split; try done.
  - intros _. left. split; by eexists.
  - intros [[_ [? [=]]]|[[=] _]].
  - intros [[[? [=]] _]|[_ [=]]].
  - intros _. by right.
Qed.

Lemma check_fails (c r : option string) :
  Bool.eqb (bool_decide (c = None)) (bool_decide (r = None)) = false <->
  exactly_one_set c r.
Proof.
  unfold exactly_one_set. destruct c as [c|], r as [r|]; simpl; split; try done.
  - intros [[_ [=]]|[[=] _]].
  - intros _. left. split; [by eexists | done].
  - intros _. right. split; [done | by eexists].
  - intros [[[? [=]] _]|[_ [? [=]]]].
Qed.

(** Either [main_with] stops before the loop, or it runs the loop from the
    state that the prelude leaves. *)
Lemma main_with_stages (env : Env) (args : Args) (s s' : State) (r : result unit) :
  main_with env args s = (r, s') ->
  (exists e evs,
     stops_early env args e evs /\
     r = Raise e /\
     s' = {| trace := trace s ++ evs; files := files s |}) \/
  (exists target_framework_monikers channels owner repo decoded rb s2,
     reaches_loop env args target_framework_monikers channels owner repo decoded /\
     for_frameworks env args (repo_url_of args) owner repo
                    (config_string_of env (build_configs args))
                    (if get_perf_hash args then decoded else perf_hash args)
                    false target_framework_monikers
                    {| trace := trace s ++ prelude_events env args channels;
                       files := files s |} = (rb, s2) /\
     match rb with
     | Ok remove_dotnet =>
         if negb (is_win32 env) && remove_dotnet
         then r = dotnet_remove_dotnet env (toolchain_architecture args) /\
              s' = record (EvRemoveDotnet (toolchain_architecture args)) s2
         else r = Ok tt /\ s' = s2
     | Raise e => r = Raise e /\ s' = s2
     end).
Proof.
  unfold main_with. rewrite bind_run. unfold call at 1.
  destruct (Bool.eqb _ _) eqn:Hcheck; cbn [negb].
  2:{ apply check_fails in Hcheck. intros [= <- <-]. left.
      eexists _, _. split; [by apply stop_check|]. done. }
  apply check_passes in Hcheck.
  rewrite bind_run. unfold lift at 1.
  destruct (get_target_framework_monikers env (frameworks args)) as [tfms|e] eqn:Htfms.
  2:{ intros [= <- <-]. left. eexists _, _. split; [by apply stop_monikers|]. done. }
  rewrite bind_run. fold (toolchain_architecture args). rewrite init_tools_traverse.
  destruct (traverse (get_channel env) tfms) as [chs|e] eqn:Hchs.
  2:{ intros [= <- <-]. left. eexists _, _.
      split; [by eapply stop_channel|]. simpl. by rewrite <- app_assoc. }
  destruct (dotnet_install env _ _ _ _) as [[]|e] eqn:Hinst.
  2:{ intros [= <- <-]. left. eexists _, _.
      split; [by eapply stop_install|]. simpl. by rewrite <- app_assoc. }
  rewrite bind_run. unfold call at 1.
  destruct (dotnet_info env _) as [[]|e] eqn:Hinfo.
  2:{ intros [= <- <-]. left. eexists _, _.
      split; [by eapply stop_info|]. unfold record. simpl. by rewrite <- !app_assoc. }
  fold (repo_url_of args). rewrite bind_run.
  destruct (repo_url_of args) as [url|] eqn:Hurl.
  - unfold call at 1. destruct (dotnet_get_repository env url) as [[owner repo]|e] eqn:Hrepo.
    2:{ intros [= <- <-]. left. eexists _, _.
        split; [by eapply stop_repository|]. unfold record. simpl.
        by rewrite <- !app_assoc. }
    rewrite bind_run. unfold call at 1.
    destruct (git_rev_parse_head env _) as [output|e] eqn:Hgit.
    2:{ intros [= <- <-]. left. eexists _, _. split.
        - eapply stop_git; eauto; [by rewrite Hurl; eauto | by rewrite Hgit].
        - unfold prelude_events, record. rewrite Hurl. simpl. by rewrite <- !app_assoc. }
    rewrite bind_run. unfold lift at 1.
    destruct (decode_output output) as [decoded|e] eqn:Hdec.
    2:{ intros [= <- <-]. left. eexists _, _. split.
        - eapply stop_git; eauto; [by rewrite Hurl; eauto | by rewrite Hgit].
        - unfold prelude_events, record. rewrite Hurl. simpl. by rewrite <- !app_assoc. }
    rewrite bind_run.
    match goal with
    | |- context [for_frameworks _ _ _ _ _ _ _ _ _ ?s1] =>
        replace s1 with {| trace := trace s ++ prelude_events env args chs;
                           files := files s |}
          by (unfold prelude_events, record; rewrite Hurl; simpl;
              by rewrite <- !app_assoc)
    end.
    destruct (for_frameworks _ _ _ _ _ _ _ _ _ _) as [[b|e] s2] eqn:Hloop.
    + intros H. right. exists tfms, chs, owner, repo, decoded, (Ok b), s2.
      split; [constructor; eauto; by rewrite Hurl|]. split; [done|].
      destruct (negb (is_win32 env) && b); by injection H as <- <-.
    + intros [= <- <-]. right. exists tfms, chs, owner, repo, decoded, (Raise e), s2.
      split; [constructor; eauto; by rewrite Hurl|]. done.
  - unfold ret at 1.
    rewrite bind_run. unfold call at 1.
    destruct (git_rev_parse_head env _) as [output|e] eqn:Hgit.
    2:{ intros [= <- <-]. left. eexists _, _. split.
        - eapply stop_git; eauto; [by rewrite Hurl | by rewrite Hgit].
        - unfold prelude_events, record. rewrite Hurl. simpl. by rewrite <- !app_assoc. }
    rewrite bind_run. unfold lift at 1.
    destruct (decode_output output) as [decoded|e] eqn:Hdec.
    2:{ intros [= <- <-]. left. eexists _, _. split.
        - eapply stop_git; eauto; [by rewrite Hurl | by rewrite Hgit].
        - unfold prelude_events, record. rewrite Hurl. simpl. by rewrite <- !app_assoc. }
    rewrite bind_run.
    match goal with
    | |- context [for_frameworks _ _ _ _ _ _ _ _ _ ?s1] =>
        replace s1 with {| trace := trace s ++ prelude_events env args chs;
                           files := files s |}
          by (unfold prelude_events, record; rewrite Hurl; simpl;
              by rewrite <- !app_assoc)
    end.
    destruct (for_frameworks _ _ _ _ _ _ _ _ _ _) as [[b|e] s2] eqn:Hloop.
    + intros H. right. exists tfms, chs, "dotnet", "core-sdk", decoded, (Ok b), s2.
      split; [constructor; eauto; by rewrite Hurl|]. split; [done|].
      destruct (negb (is_win32 env) && b); by injection H as <- <-.
    + intros [= <- <-]. right.
      exists tfms, chs, "dotnet", "core-sdk", decoded, (Raise e), s2.
      split; [constructor; eauto; by rewrite Hurl|]. done.
Qed.

Lemma stops_early_no_open (env : Env) (args : Args) (e : error) (evs : list event)
    (path : string) :
  stops_early env args e evs -> EvOpen path ∉ evs.
Proof.
  intros H Hin.
  assert (Forall (fun ev => is_open ev = false) evs) as HF.
  { destruct H; unfold prelude_events; try destruct (repo_url_of args);
      repeat constructor. }
  rewrite Forall_forall in HF. by apply HF in Hin.
Qed.

(** X2.  When the installer fails the run fails with its exception, right
    after the call: the calls of the run are the validation of the runtime,
    the set-up of the loggers, the log message and the call of the
    installer, and none after it.  The toolchain is not queried and git is
    not run. *)
Theorem install_failure_is_fatal (env : Env) (argv : list string) (args : Args)
    (s : State) (target_framework_monikers channels : list string) (e : error) :
  validate_supported_runtime env = Ok tt ->
  parse_command_line env argv = Ok args ->
  jointly_set (commit_sha args) (repository args) ->
  get_target_framework_monikers env (frameworks args) = Ok target_framework_monikers ->
  Forall2 (fun framework channel => get_channel env framework = Ok channel)
          target_framework_monikers channels ->
  dotnet_install env (toolchain_architecture args) channels (dotnet_versions args)
                 (negb (quiet args)) = Raise e ->
  exists s',
    __main env argv s = (Raise e, s') /\
    trace s' = trace s ++
               [ EvValidateRuntime; EvSetupLoggers (negb (quiet args));
                 EvLog "Installing tools.";
                 EvInstall (toolchain_architecture args) channels (dotnet_versions args)
                           (negb (quiet args)) ].
Proof.
  intros Hv Hp Hj Htfms Hchs Hinst. rewrite (__main_parsed env argv args s Hv Hp).
  unfold main_with. rewrite bind_run. unfold call at 1.
  apply check_passes in Hj. rewrite Hj. cbn [negb].
  rewrite bind_run. unfold lift at 1. rewrite Htfms.
  rewrite bind_run. fold (toolchain_architecture args).
  apply traverse_ok in Hchs. rewrite init_tools_traverse, Hchs, Hinst.
  eexists. split; [reflexivity|]. unfold record. simpl. by rewrite <- !app_assoc.
Qed.

Lemma install_failure_is_fatal_witness :
  let run := __main Faulty.no_installer ["--frameworks"; "netcoreapp3.1"] Host.start in
  run.1 = Raise (CollaboratorError "dotnet-install") /\
  trace run.2 = [ EvValidateRuntime; EvSetupLoggers true; EvLog "Installing tools.";
                  EvInstall "x64" ["master"] [] true ].
Proof.
  intros run.
  destruct (install_failure_is_fatal Faulty.no_installer ["--frameworks"; "netcoreapp3.1"]
              ltac:(parsed Faulty.no_installer ["--frameworks"; "netcoreapp3.1"])
              Host.start ["netcoreapp3.1"] ["master"]
              (CollaboratorError "dotnet-install")
              eq_refl ltac:(computed) ltac:(right; split; reflexivity) eq_refl
              ltac:(repeat constructor) eq_refl) as (s' & Hrun & Ht).
  assert (run = (Raise (CollaboratorError "dotnet-install"), s')) as Hr by exact Hrun.
  rewrite Hr. split; [reflexivity | exact Ht].
Defined.

(** X3.  The output file is opened only after the stages before the loop
    have all succeeded: the monikers and their channels were found, the
    toolchain was installed and queried, the repository (when one is given)
    was resolved, and git answered with a text that decodes.  This holds of
    every run, completed or not. *)
Theorem opens_only_after_prelude (env : Env) (argv : list string) (args : Args)
    (s s' : State) (r : result unit) :
  parse_command_line env argv = Ok args ->
  __main env argv s = (r, s') ->
  exists evs,
    trace s' = trace s ++ EvValidateRuntime :: evs /\
    forall path,
      EvOpen path ∈ evs ->
      exists target_framework_monikers channels owner repo decoded rest,
        reaches_loop env args target_framework_monikers channels owner repo decoded /\
        evs = prelude_events env args channels ++ rest.
Proof.
  intros Hp H. destruct (validate_supported_runtime env) as [[]|e] eqn:Hv.
  2:{ unfold __main in H. rewrite bind_run in H. unfold call at 1 in H.
      rewrite Hv in H. injection H as <- <-. exists []. split; [done|].
      intros path Hin. by apply elem_of_nil in Hin. }
  rewrite (__main_parsed env argv args s Hv Hp) in H.
  apply main_with_stages in H
    as [(e & evs & Hstop & -> & ->)
       |(tfms & chs & owner & repo & decoded & rb & s2 & Hreach & Hloop & Hend)].
  - exists evs. split; [simpl; by rewrite <- app_assoc|].
    intros path Hin. by apply (stops_early_no_open _ _ _ _ path) in Hstop.
  - apply for_frameworks_emits in Hloop as (rest & Ht2 & _). simpl in Ht2.
    assert (exists rest', trace s' = trace s2 ++ rest') as [rest' Ht'].
    { destruct rb as [b|e].
      - destruct (negb (is_win32 env) && b); destruct Hend as [_ ->].
        + by eexists [_].
        + exists []. by rewrite app_nil_r.
      - destruct Hend as [_ ->]. exists []. by rewrite app_nil_r. }
    exists (prelude_events env args chs ++ rest ++ rest').
    split; [rewrite Ht', Ht2; by rewrite <- !app_assoc|].
    intros path _. exists tfms, chs, owner, repo, decoded, (rest ++ rest'). done.
Qed.

Lemma opens_only_after_prelude_witness :
  let argv := ["--frameworks"; "net461"] in
  let run := __main Host.posix argv Host.start in
  exists rest,
    trace run.2 =
      [ EvValidateRuntime; EvSetupLoggers true; EvLog "Installing tools.";
        EvInstall "x64" ["master"] [] true; EvDotnetInfo true;
        EvGitRevParseHead "/perf" ] ++ rest.
Proof.
  intros argv run.
  destruct (opens_only_after_prelude Host.posix argv ltac:(parsed Host.posix argv)
              Host.start run.2 run.1 ltac:(computed) (surjective_pairing run))
    as (evs & Ht & Hopen).
  destruct (Hopen "/perf/tools/machine-setup.sh") as
    (tfms & chs & owner & repo & decoded & rest & Hreach & Hevs).
  { assert (trace run.2 !! 6 = Some (EvOpen "/perf/tools/machine-setup.sh")) as H6
      by computed.
    rewrite Ht in H6. apply list_elem_of_lookup. by exists 5. }
  exists rest. rewrite Ht, Hevs.
  pose proof (reach_channels _ _ _ _ _ _ _ Hreach) as Hch.
  pose proof (reach_monikers _ _ _ _ _ _ _ Hreach) as Htf.
  injection Htf as <-. injection Hch as <-. reflexivity.
Defined.

Lemma stops_early_no_write (env : Env) (args : Args) (e : error) (evs : list event) :
  stops_early env args e evs -> Forall (fun ev => is_write ev = false) evs.
Proof.
  intros H. destruct H; unfold prelude_events; try destruct (repo_url_of args);
    repeat constructor.
Qed.

(** X4.  Git is needed whether or not the perf hash is asked for.  When
    [git rev-parse HEAD] fails, or prints what is not UTF-8, the run raises
    and has not opened the output file nor written to it, with or without
    [--get-perf-hash].  When the stages before it succeed, git is the last
    call of the run, made in the root of the repository, and the exception
    is the one of git or of the decoding. *)
Theorem git_failure_writes_nothing (env : Env) (argv : list string) (args : Args)
    (s s' : State) (r : result unit) :
  parse_command_line env argv = Ok args ->
  (forall output,
     git_rev_parse_head env (get_repo_root_path env) = Ok output ->
     exists e, decode_output output = Raise e) ->
  __main env argv s = (r, s') ->
  exists e evs,
    r = Raise e /\
    trace s' = trace s ++ evs /\
    (forall path, EvOpen path ∉ evs) /\
    (forall path text, EvWriteText path text ∉ evs) /\
    (forall target_framework_monikers channels,
       validate_supported_runtime env = Ok tt ->
       jointly_set (commit_sha args) (repository args) ->
       get_target_framework_monikers env (frameworks args) = Ok target_framework_monikers ->
       Forall2 (fun framework channel => get_channel env framework = Ok channel)
               target_framework_monikers channels ->
       dotnet_install env (toolchain_architecture args) channels (dotnet_versions args)
                      (negb (quiet args)) = Ok tt ->
       dotnet_info env (negb (quiet args)) = Ok tt ->
       (forall url, repo_url_of args = Some url ->
                    exists owner_repo, dotnet_get_repository env url = Ok owner_repo) ->
       evs = [ EvValidateRuntime; EvSetupLoggers (negb (quiet args));
               EvLog "Installing tools.";
               EvInstall (toolchain_architecture args) channels (dotnet_versions args)
                         (negb (quiet args));
               EvDotnetInfo (negb (quiet args)) ] ++
             match repo_url_of args with
             | None => []
             | Some url => [EvGetRepository url]
             end ++
             [ EvGitRevParseHead (get_repo_root_path env) ] /\
       match git_rev_parse_head env (get_repo_root_path env) with
       | Ok output => decode_output output = Raise e
       | Raise e' => e' = e
       end).
Proof.
  intros Hp Hgit H. destruct (validate_supported_runtime env) as [[]|e] eqn:Hv.
  2:{ unfold __main in H. rewrite bind_run in H. unfold call at 1 in H.
      rewrite Hv in H. injection H as <- <-. exists e, [EvValidateRuntime].
      split; [done|]. split; [done|].
      split; [intros path [[=]|Hin%elem_of_nil]%elem_of_cons; done|].
      split; [intros path text [[=]|Hin%elem_of_nil]%elem_of_cons; done|].
      by intros tfms chs [=]. }
  rewrite (__main_parsed env argv args s Hv Hp) in H.
  apply main_with_stages in H
    as [(e & evs & Hstop & -> & ->)
       |(tfms & chs & owner & repo & decoded & rb & s2 & Hreach & _)].
  2:{ destruct (reach_git _ _ _ _ _ _ _ Hreach) as (output & Hout & Hdec).
      destruct (Hgit output Hout) as [e He]. congruence. }
  exists e, (EvValidateRuntime :: evs). split; [done|].
  split; [simpl; by rewrite <- app_assoc|].
  pose proof (stops_early_no_write env args e evs Hstop) as Hnw.
  rewrite Forall_forall in Hnw.
  split.
  { intros path [[=]|Hin]%elem_of_cons. by eapply stops_early_no_open. }
  split.
  { intros path text [[=]|Hin]%elem_of_cons. by apply Hnw in Hin. }
  intros tfms chs _ Hj Htfms Hchs Hinst Hinfo Hrepo. apply traverse_ok in Hchs.
  destruct Hstop as [Hone|e Hj' He|tfms' e Hj' Htfms' He|tfms' chs' e Hj' Htfms' Hchs' He
                    |tfms' chs' e Hj' Htfms' Hchs' Hinst' He
                    |tfms' chs' url e Hj' Htfms' Hchs' Hinst' Hinfo' Hurl He
                    |tfms' chs' e Hj' Htfms' Hchs' Hinst' Hinfo' Hrepo' He].
  - exfalso. destruct Hj as [[[a Ha] [b Hb]]|[Ha Hb]];
      destruct Hone as [[[a' Ha'] Hb']|[Ha' [b' Hb']]]; congruence.
  - congruence.
  - congruence.
  - congruence.
  - congruence.
  - destruct (Hrepo url Hurl) as [owner_repo Ho]. congruence.
  - rewrite Htfms in Htfms'. injection Htfms' as <-.
    rewrite Hchs in Hchs'. injection Hchs' as <-.
    split; [reflexivity | exact He].
Qed.

Lemma git_failure_writes_nothing_witness :
  let run := __main Faulty.no_git ["--frameworks"; "netcoreapp3.1"] Host.start in
  run.1 = Raise (CollaboratorError "git") /\
  trace run.2 = [ EvValidateRuntime; EvSetupLoggers true; EvLog "Installing tools.";
                  EvInstall "x64" ["master"] [] true; EvDotnetInfo true;
                  EvGitRevParseHead "/perf" ].
Proof.
  intros run.
  destruct (git_failure_writes_nothing Faulty.no_git ["--frameworks"; "netcoreapp3.1"]
              ltac:(parsed Faulty.no_git ["--frameworks"; "netcoreapp3.1"])
              Host.start run.2 run.1 ltac:(computed)
              ltac:(intros output [=]) (surjective_pairing run))
    as (e & evs & Hr & Ht & _ & _ & Hgit).
  destruct (Hgit ["netcoreapp3.1"] ["master"] eq_refl ltac:(right; split; reflexivity)
              eq_refl ltac:(repeat constructor) eq_refl eq_refl ltac:(intros url [=]))
    as [Hevs He].
  simpl in He. subst e. split; [exact Hr|]. rewrite Ht, Hevs. reflexivity.
Defined.

(** ** The repository, the branch and the commit *)

Lemma replace_no_old (old new : ascii) (s : string) :
  old <> new -> Str.contains old (Str.replace old new s) = false.
Proof.
  intros Hne. induction s as [|c s IH]; [done|]. simpl.
  destruct (Ascii.eqb c old) eqn:E.
  - destruct (Ascii.eqb old new) eqn:E'; [by apply Ascii.eqb_eq in E'|done].
  - rewrite Ascii.eqb_sym, E. done.
Qed.

Lemma replace_length (old new : ascii) (s : string) :
  String.length (Str.replace old new s) = String.length s.
Proof. induction s as [|c s IH]; simpl; [done | by rewrite IH]. Qed.

(** ** Decoding the output of git *)

Lemma strip_no_linebreak (s : string) : no_linebreak (Str.strip_linebreaks s) = true.
Proof.
  unfold no_linebreak. induction s as [|c s IH]; [done|]. simpl.
  destruct (Str.is_linebreak c) eqn:E; [done|]. simpl. by rewrite E.
Qed.

Lemma decode_lines_valid (lines : list string) :
  Forall (fun line => Utf8.valid line = true) lines -> decode_lines lines = Ok lines.
Proof.
  induction 1 as [|line lines Hline _ IH]; [done|]. simpl.
  unfold Utf8.decode. by rewrite Hline, IH.
Qed.

Lemma decode_lines_invalid (lines : list string) :
  (exists e, decode_lines lines = Raise e) <->
  Exists (fun line => Utf8.valid line = false) lines.
Proof.
  induction lines as [|line lines IH]; simpl.
  - split; [by intros [e [=]] | by inversion 1].
  - unfold Utf8.decode. destruct (Utf8.valid line) eqn:E; simpl.
    + destruct (decode_lines lines) as [ds|e] eqn:E'; simpl.
      * split; [by intros [e [=]]|]. inversion 1; subst; [congruence|].
        apply IH in H1 as [e [=]].
      * split; [intros _; apply Exists_cons_tl, IH; eauto | eauto].
    + split; [intros _; by apply Exists_cons_hd | eauto].
Qed.

Lemma splitlines_ascii (s : string) :
  forall cur,
    Str.forallb Utf8.is_ascii cur = true ->
    Str.forallb Utf8.is_ascii s = true ->
    Forall (fun line => Str.forallb Utf8.is_ascii line = true) (Str.splitlines_from cur s).
Proof.
  induction s as [|c s IH]; intros cur Hcur Hs.
  - simpl. destruct cur; repeat constructor. done.
  - simpl in Hs. apply andb_true_iff in Hs as [Hc Hs].
    cbn [Str.splitlines_from].
    destruct (Ascii.eqb c Str.LF); [constructor; [done | by apply IH]|].
    destruct (Ascii.eqb c Str.CR).
    + destruct s as [|d s']; [constructor; [done | by apply IH]|].
      destruct (Ascii.eqb d Str.LF) eqn:Ed; (constructor; [done|]).
      * simpl in Hs. apply andb_true_iff in Hs as [_ Hs].
        specialize (IH "" eq_refl). cbn [Str.splitlines_from] in IH.
        rewrite Ed in IH. simpl in IH. rewrite Hs, andb_true_r in IH.
        assert (Utf8.is_ascii d = true) as Hd
          by (apply Ascii.eqb_eq in Ed; by subst).
        specialize (IH Hd). by inversion IH.
      * by apply IH.
    + apply IH; [|done]. rewrite forallb_append, Hcur. simpl. by rewrite Hc.
Qed.

(** X10.  The text decoded from the output of git is the output without its
    line terminators and holds no line break, so it stays on the line of
    its assignment.  Decoding fails exactly when some line of the output is
    not UTF-8; it succeeds on every ASCII output, the empty one included. *)
Theorem decode_output_one_line (output : string) :
  (forall decoded,
     decode_output output = Ok decoded ->
     decoded = Str.strip_linebreaks output /\ no_linebreak decoded = true) /\
  ((exists e, decode_output output = Raise e) <->
   Exists (fun line => Utf8.valid line = false) (Str.splitlines output)) /\
  (Str.forallb Utf8.is_ascii output = true ->
   decode_output output = Ok (Str.strip_linebreaks output)).
Proof.
  split; [|split].
  - intros decoded H. apply decode_output_strip in H as ->.
    split; [done | apply strip_no_linebreak].
  - rewrite <- decode_lines_invalid. unfold decode_output.
    destruct (decode_lines (Str.splitlines output)) as [ds|e]; simpl.
    + split; intros [e [=]].
    + split; eauto.
  - intros Hascii. unfold decode_output.
    rewrite decode_lines_valid.
    + simpl. unfold Str.splitlines. by rewrite join_splitlines.
    + eapply Forall_impl; [by apply splitlines_ascii|].
      intros line Hline. unfold Utf8.valid. by rewrite ascii_valid.
Qed.

Lemma decode_output_one_line_witness :
  decode_output Host.git_output = Ok (Str.strip_linebreaks Host.git_output).
Proof.
  destruct (decode_output_one_line Host.git_output) as (_ & _ & Hascii).
  exact (Hascii ltac:(computed)).
Defined.

(** ** The options that may be left out *)

Section OptionalDefaults.

Context (env : Env).

Hypothesis collaborators_elsewhere :
  Forall (fun a => dest a ∉ optional_dests)
         (dotnet_add_arguments env ++ micro_benchmarks_add_arguments env).

Lemma collaborators_not_optional (d : string) :
  d ∈ optional_dests ->
  Forall (fun a => dest a <> d)
         (dotnet_add_arguments env ++ micro_benchmarks_add_arguments env).
Proof.
  intros Hd. eapply Forall_impl; [apply collaborators_elsewhere|].
  intros a Ha Heq. apply Ha. by rewrite Heq.
Qed.

Lemma optional_default (d : string) (flags : list string) (v : value)
    (argv : list string) (ns : Namespace) (own : list argument) :
  d ∈ optional_dests ->
  add_arguments env [] =
    dotnet_add_arguments env ++ micro_benchmarks_add_arguments env ++ own ->
  (forall a, a ∈ own -> dest a = d ->
             forall o, Argparse.has_option o a = true -> o ∈ flags) ->
  arg_default <$> List.find (declares d) own = Some v ->
  omitted flags argv = true ->
  __process_arguments env argv = Ok ns ->
  ns !! d = Some v.
Proof.
  intros Hd Hown Hflags Hdef Hom Hparse. unfold __process_arguments in Hparse.
  pose proof (collaborators_not_optional d Hd) as Hcollab.
  assert (add_arguments env Argparse.ArgumentParser =
          Argparse.ArgumentParser ++ add_arguments env []) as Hp by done.
  eapply parse_args_default; [| |exact Hom|exact Hparse].
  - intros a Ha Hdest o Ho. rewrite Hp, Hown in Ha.
    unfold Argparse.ArgumentParser in Ha. simpl in Ha.
    apply elem_of_cons in Ha as [->|Ha].
    + simpl in Hdest. subst d. unfold optional_dests in Hd.
      repeat (apply elem_of_cons in Hd as [[=]|Hd]). by apply elem_of_nil in Hd.
    + rewrite app_assoc in Ha. apply elem_of_app in Ha as [Ha|Ha].
      * rewrite Forall_forall in Hcollab. by apply Hcollab in Ha.
      * by eapply Hflags.
  - rewrite defaults_lookup, lookup_empty, Hp, Hown.
    unfold Argparse.ArgumentParser. simpl.
    by rewrite app_assoc, find_app', find_declares_none.
Qed.

Ltac optional_default_of d flags :=
  eapply (optional_default d flags);
  [ unfold optional_dests; set_unfold; tauto
  | reflexivity
  | intros a Ha Hdest o Ho;
    repeat (apply elem_of_cons in Ha as [->|Ha]; [simpl in Hdest; try discriminate Hdest|]);
    [ apply existsb_exists in Ho as (x & Hin & Heq);
      apply String.eqb_eq in Heq as ->; by apply list_elem_of_In
    | by apply elem_of_nil in Ha ]
  | reflexivity
  | eassumption
  | eassumption ].

Lemma optional_defaults (argv : list string) (ns : Namespace) :
  __process_arguments env argv = Ok ns ->
  (omitted ["--branch"] argv = true -> ns !! "branch" = Some VNone) /\
  (omitted ["--commit-sha"] argv = true -> ns !! "commit_sha" = Some VNone) /\
  (omitted ["--repository"] argv = true -> ns !! "repository" = Some VNone).
Proof.
  intros Hp. repeat split; intros Hom.
  - optional_default_of "branch" ["--branch"].
  - optional_default_of "commit_sha" ["--commit-sha"].
  - optional_default_of "repository" ["--repository"].
Qed.

End OptionalDefaults.

Lemma args_of_namespace_optional (ns : Namespace) (args : Args) :
  args_of_namespace ns = Ok args ->
  ns !! "branch" = Some (match branch args with Some s => VStr s | None => VNone end) /\
  ns !! "commit_sha" =
    Some (match commit_sha args with Some s => VStr s | None => VNone end) /\
  ns !! "repository" =
    Some (match repository args with Some s => VStr s | None => VNone end) /\
  ns !! "quiet" = Some (VBool (quiet args)).
Proof.
  unfold args_of_namespace. intros H.
  repeat match type of H with
         | Attr.and_then _ _ = Ok _ =>
             let x := fresh "x" in let E := fresh "E" in
             apply and_then_ok in H as (x & E & H)
         end.
  injection H as <-. simpl.
  repeat match goal with
         | E : Attr.str _ _ = Ok _ |- _ => apply attr_str_ok in E
         | E : Attr.opt_str _ _ = Ok _ |- _ => apply attr_opt_str_ok in E
         | E : Attr.flag _ _ = Ok _ |- _ => apply attr_flag_ok in E
         | E : Attr.strs _ _ = Ok _ |- _ => apply attr_strs_ok in E
         end.
  by repeat split.
Qed.

(** X12.  An option that is not on the command line leaves its attribute
    at the declared default: no branch, no commit, no repository.  So a
    command line with neither [--commit-sha] nor [--repository] always
    passes the check of line 167, and one with only one of the two can pass
    it only by giving the other.  The arguments that the collaborators
    declare must not write these attributes. *)
Theorem absent_options_are_none (env : Env) (argv : list string) (args : Args) :
  Forall (fun a => dest a ∉ optional_dests)
         (dotnet_add_arguments env ++ micro_benchmarks_add_arguments env) ->
  parse_command_line env argv = Ok args ->
  (omitted ["--branch"] argv = true -> branch args = None) /\
  (omitted ["--commit-sha"] argv = true -> commit_sha args = None) /\
  (omitted ["--repository"] argv = true -> repository args = None) /\
  (omitted ["--commit-sha"] argv = true -> omitted ["--repository"] argv = true ->
   jointly_set (commit_sha args) (repository args)) /\
  (omitted ["--commit-sha"] argv = true -> repository args <> None ->
   exactly_one_set (commit_sha args) (repository args)).
Proof.
  intros Hcollab Hp. pose proof Hp as Hp'. unfold parse_command_line in Hp'.
  apply and_then_ok in Hp' as (ns & Hns & Hargs).
  destruct (optional_defaults env Hcollab argv ns Hns) as (Hb & Hc & Hr).
  destruct (args_of_namespace_optional ns args Hargs) as (Ab & Ac & Ar & _).
  assert (omitted ["--commit-sha"] argv = true -> commit_sha args = None) as Hc'.
  { intros Hom. specialize (Hc Hom). rewrite Hc in Ac. by destruct (commit_sha args). }
  assert (omitted ["--repository"] argv = true -> repository args = None) as Hr'.
  { intros Hom. specialize (Hr Hom). rewrite Hr in Ar. by destruct (repository args). }
  split; [|split; [done|split; [done|split]]].
  - intros Hom. specialize (Hb Hom). rewrite Hb in Ab. by destruct (branch args).
  - intros Hom1 Hom2. rewrite (Hc' Hom1), (Hr' Hom2). by right.
  - intros Hom1 Hrepo. rewrite (Hc' Hom1).
    destruct (repository args) as [r|]; [|done]. right. split; [done|by exists r].
Qed.

Lemma absent_options_are_none_witness :
  exists args,
    parse_command_line Host.posix ["--frameworks"; "netcoreapp3.1"] = Ok args /\
    branch args = None /\ commit_sha args = None /\ repository args = None /\
    jointly_set (commit_sha args) (repository args).
Proof.
  exists ltac:(parsed Host.posix ["--frameworks"; "netcoreapp3.1"]).
  split; [computed|].
  pose proof (fun H => absent_options_are_none Host.posix
                         ["--frameworks"; "netcoreapp3.1"] _ H
                         (ltac:(computed) :
                            parse_command_line Host.posix
                              ["--frameworks"; "netcoreapp3.1"] = Ok _)) as D.
  destruct D as (Hb & Hc & Hr & Hj & _).
  { unfold optional_dests. repeat constructor; simpl; set_unfold; intuition discriminate. }
  exact (conj (Hb eq_refl) (conj (Hc eq_refl) (conj (Hr eq_refl) (Hj eq_refl eq_refl)))).
Defined.

(** ** Options that the parser does not know *)

Lemma find_option_unknown (p : list argument) (o : string) :
  ~ known_option p o -> Argparse.find_option p o = None.
Proof.
  intros Hun. unfold Argparse.find_option.
  destruct (List.find (Argparse.has_option o) p) as [a|] eqn:Hf; [|done].
  apply find_some in Hf as [Hin Hhas]. exfalso. apply Hun. exists a.
  split; [by apply list_elem_of_In|].
  apply existsb_exists in Hhas as (x & Hx & Heq). apply String.eqb_eq in Heq as ->.
  by apply list_elem_of_In.
Qed.

Lemma parse_optional_unknown (p : list argument) (tok : string) :
  long_option tok ->
  ~ known_option p tok ->
  ~ known_option p (option_name tok) ->
  Argparse.parse_optional p tok = Argparse.Unrecognized.
Proof.
  intros [(c & rest & ->) Hsp] Hun Hname.
  unfold Argparse.parse_optional. cbn [Ascii.eqb Bool.eqb negb].
  rewrite (find_option_unknown _ _ Hun).
  assert (Argparse.parse_unknown (String "-" (String "-" (String c rest))) =
          Argparse.Unrecognized) as Hunk.
  { unfold Argparse.parse_unknown. rewrite Hsp.
    replace (Argparse.negative_number (String "-" (String "-" (String c rest))))
      with false; [done|].
    reflexivity. }
  unfold option_name in Hname.
  destruct (Argparse.split_eq (String "-" (String "-" (String c rest))))
    as [[o v]|]; [|exact Hunk].
  by rewrite (find_option_unknown _ _ Hname).
Qed.

Lemma finish_exits (ns : Namespace) (pd : Argparse.pending) (e : error) :
  Argparse.finish ns pd = Raise e -> exists code, e = SystemExit code.
Proof.
  destruct pd as [|a acc]; simpl; [done|].
  destruct (arg_nargs a), acc; intros [= <-]; by eexists.
Qed.

Lemma start_exits (ns : Namespace) (a : argument) (x : option string) (e : error) :
  Argparse.start ns a x = Raise e -> exists code, e = SystemExit code.
Proof.
  unfold Argparse.start.
  destruct (arg_action a), x, (arg_nargs a); intros [= <-]; by eexists.
Qed.

Lemma step_exits (p : list argument) (st : Namespace * Argparse.pending) (tok : string)
    (e : error) :
  Argparse.step p st tok = Raise e -> exists code, e = SystemExit code.
Proof.
  destruct st as [ns pd]. unfold Argparse.step.
  destruct (Argparse.parse_optional p tok) as [|a x|].
  - destruct pd as [|a acc]; [intros [= <-]; by eexists|].
    by destruct (arg_nargs a).
  - destruct (Argparse.finish ns pd) as [ns'|e'] eqn:Hf.
    + apply start_exits.
    + intros [= <-]. by eapply finish_exits.
  - intros [= <-]. by eexists.
Qed.

Lemma consume_exits (p : list argument) (argv : list string) :
  forall st e, Argparse.consume p st argv = Raise e -> exists code, e = SystemExit code.
Proof.
  induction argv as [|tok argv IH]; intros st e; simpl.
  - apply finish_exits.
  - destruct (Argparse.step p st tok) as [st'|e'] eqn:Hs; [apply IH|].
    intros [= <-]. by eapply step_exits.
Qed.

Lemma consume_unrecognized (p : list argument) (tok : string) (argv : list string) :
  tok ∈ argv ->
  Argparse.parse_optional p tok = Argparse.Unrecognized ->
  forall st, exists code, Argparse.consume p st argv = Raise (SystemExit code).
Proof.
  intros Hin Hun. induction argv as [|tok' argv IH]; intros st.
  - by apply elem_of_nil in Hin.
  - simpl. destruct (Argparse.step p st tok') as [st'|e] eqn:Hs.
    + apply elem_of_cons in Hin as [<-|Hin]; [|by apply IH].
      destruct st as [ns pd]. unfold Argparse.step in Hs. by rewrite Hun in Hs.
    + apply step_exits in Hs as [code ->]. by exists code.
Qed.

(** X13.  The parser is built with [allow_abbrev=False] (line 152): a token
    written as a long option that is not, in full or up to its first ['='],
    an option string of a declared argument is never accepted, be it a
    prefix of one (such as [--que] for [--queue]).  The command line is
    rejected with [SystemExit] wherever the token stands, so [__main] stops
    having only validated the runtime: no logger is set up, nothing is
    installed and no file is touched. *)
Theorem unknown_option_is_rejected (env : Env) (argv : list string) (tok : string)
    (s : State) :
  tok ∈ argv ->
  long_option tok ->
  ~ known_option (add_arguments env Argparse.ArgumentParser) tok ->
  ~ known_option (add_arguments env Argparse.ArgumentParser) (option_name tok) ->
  (exists code, __process_arguments env argv = Raise (SystemExit code)) /\
  exists e s',
    __main env argv s = (Raise e, s') /\
    trace s' = trace s ++ [EvValidateRuntime] /\
    files s' = files s /\
    (validate_supported_runtime env = Ok tt -> exists code, e = SystemExit code).
Proof.
  intros Hin Hlong Hun Hname.
  pose proof (parse_optional_unknown _ tok Hlong Hun Hname) as Hcls.
  destruct (consume_unrecognized _ tok argv Hin Hcls
              (Argparse.defaults (add_arguments env Argparse.ArgumentParser) ∅,
               Argparse.Idle)) as [code Hcode].
  assert (__process_arguments env argv = Raise (SystemExit code)) as Hp by exact Hcode.
  split; [by exists code|].
  unfold __main. rewrite bind_run. unfold call at 1.
  destruct (validate_supported_runtime env) as [[]|e] eqn:Hv.
  - rewrite bind_run. unfold lift at 1. rewrite Hp.
    exists (SystemExit code), (record EvValidateRuntime s).
    split; [done|]. split; [done|]. split; [done|]. intros _. by exists code.
  - exists e, (record EvValidateRuntime s). by repeat split.
Qed.

Lemma unknown_option_is_rejected_witness :
  let argv := ["--frameworks"; "netcoreapp3.1"; "--que"; "perfQueue"] in
  let run := __main Host.posix argv Host.start in
  (exists code, __process_arguments Host.posix argv = Raise (SystemExit code)) /\
  exists e, run = (Raise e, run.2) /\
            trace run.2 = [EvValidateRuntime] /\ files run.2 = files Host.start.
Proof.
  intros argv run.
  assert (forall a : argument,
            a ∈ add_arguments Host.posix Argparse.ArgumentParser ->
            "--que" ∉ option_strings a) as Hno.
  { intros a Ha. vm_compute in Ha.
    repeat (apply elem_of_cons in Ha as [->|Ha];
            [simpl; set_unfold; intuition discriminate|]).
    by apply elem_of_nil in Ha. }
  destruct (unknown_option_is_rejected Host.posix argv "--que" Host.start)
    as (Hcode & e & s' & Hrun & Ht & Hf & _).
  - unfold argv. set_unfold. tauto.
  - split; [by exists "q"%char, "ue" | reflexivity].
  - intros (a & Ha & Ho). by apply (Hno a Ha).
  - intros (a & Ha & Ho). by apply (Hno a Ha).
  - split; [exact Hcode|]. exists e.
    assert (run = (Raise e, s')) as Hr by exact Hrun.
    rewrite Hr. simpl. by rewrite Ht, Hf.
Defined.

(** ** Switches *)

Section Switch.

Import Argparse.

Context (p : list argument) (d : string).

(** Every argument that writes the attribute [d] is a switch. *)
Hypothesis writers_are_switches :
  forall a, a ∈ p -> dest a = d -> arg_action a = store_true.

Lemma step_switch_kept (st st' : Namespace * pending) (tok : string) :
  untouched d (VBool true) st -> step p st tok = Ok st' -> untouched d (VBool true) st'.
Proof.
  intros Hst. destruct st as [ns0 pd]. unfold step.
  destruct (parse_optional p tok) as [|a e|] eqn:Hsel; [| |done].
  - destruct Hst as [Hv Hpd]. destruct pd as [|a acc]; [done|]. simpl in *.
    destruct (arg_nargs a); intros [= <-]; split; simpl; try done;
      by rewrite lookup_insert_ne.
  - apply parse_optional_mentions in Hsel as (o & Hin & _).
    destruct (finish ns0 pd) as [ns1|] eqn:Hfin; [|done].
    apply (finish_untouched d (VBool true) (ns0, pd)) in Hfin; [|done].
    pose proof (writers_are_switches a Hin) as Hw.
    unfold start. destruct (arg_action a) eqn:Hact, e as [v|]; try done.
    + assert (dest a <> d) as Hne by (intros Hd; by specialize (Hw Hd)).
      destruct (arg_nargs a); intros [= <-]; split; simpl; try done;
        by rewrite lookup_insert_ne.
    + assert (dest a <> d) as Hne by (intros Hd; by specialize (Hw Hd)).
      by intros [= <-].
    + intros [= <-]. split; [|done]. simpl.
      destruct (decide (dest a = d)) as [->|Hne];
        [by rewrite lookup_insert_eq | by rewrite lookup_insert_ne].
Qed.

Lemma consume_switch_kept (argv : list string) :
  forall (st : Namespace * pending) (ns : Namespace),
    untouched d (VBool true) st -> consume p st argv = Ok ns ->
    ns !! d = Some (VBool true).
Proof.
  induction argv as [|tok argv IH]; intros st ns Hst; simpl.
  - by apply finish_untouched.
  - destruct (step p st tok) as [st'|] eqn:Hstep; [|done].
    apply IH. by eapply step_switch_kept.
Qed.

Lemma step_switch_set (st st' : Namespace * pending) (tok rest : string) (a : argument) :
  tok = String "-" rest ->
  find_option p tok = Some a -> dest a = d -> arg_action a = store_true ->
  step p st tok = Ok st' -> untouched d (VBool true) st'.
Proof.
  intros -> Hfind Hd Hact. destruct st as [ns0 pd]. unfold step, parse_optional.
  cbn [Ascii.eqb Bool.eqb negb]. rewrite Hfind.
  destruct (finish ns0 pd) as [ns1|]; [|done].
  unfold start. rewrite Hact. intros [= <-]. split; [|done].
  simpl. by rewrite Hd, lookup_insert_eq.
Qed.

Lemma consume_switch (argv : list string) (tok rest : string) (a : argument) :
  tok ∈ argv ->
  tok = String "-" rest ->
  find_option p tok = Some a -> dest a = d -> arg_action a = store_true ->
  forall (st : Namespace * pending) (ns : Namespace),
    consume p st argv = Ok ns -> ns !! d = Some (VBool true).
Proof.
  intros Hin Htok Hfind Hd Hact.
  induction argv as [|tok' argv IH]; intros st ns; [by apply elem_of_nil in Hin|].
  simpl. destruct (step p st tok') as [st'|] eqn:Hstep; [|done].
  apply elem_of_cons in Hin as [<-|Hin]; [|by apply IH].
  apply consume_switch_kept. by eapply step_switch_set.
Qed.

End Switch.

Lemma find_option_skip (l1 l2 : list argument) (o : string) :
  Forall (fun a => o ∉ option_strings a) l1 ->
  Argparse.find_option (l1 ++ l2) o = Argparse.find_option l2 o.
Proof.
  intros Hl. unfold Argparse.find_option. rewrite find_app'.
  replace (List.find (Argparse.has_option o) l1) with (@None argument); [done|].
  symmetry. induction Hl as [|a l1 Ha _ IH]; [done|]. simpl.
  destruct (Argparse.has_option o a) eqn:Ho; [|exact IH].
  exfalso. apply Ha. apply existsb_exists in Ho as (x & Hx & Heq).
  apply String.eqb_eq in Heq as ->. by apply list_elem_of_In.
Qed.

Section Switches.

Context (env : Env).

Hypothesis collaborators_elsewhere :
  Forall (fun a => (dest a ∉ switch_dests) /\
                   (forall o, o ∈ switch_options -> o ∉ option_strings a))
         (dotnet_add_arguments env ++ micro_benchmarks_add_arguments env).

Lemma switch_writers (d : string) (a : argument) :
  d ∈ switch_dests ->
  a ∈ add_arguments env Argparse.ArgumentParser -> dest a = d ->
  arg_action a = store_true.
Proof.
  intros Hd Ha Hdest. unfold add_arguments, Argparse.ArgumentParser in Ha.
  simpl in Ha. apply elem_of_cons in Ha as [->|Ha].
  { simpl in Hdest. subst d. unfold switch_dests in Hd.
    repeat (apply elem_of_cons in Hd as [[=]|Hd]). by apply elem_of_nil in Hd. }
  rewrite app_assoc in Ha. apply elem_of_app in Ha as [Ha|Ha].
  - rewrite Forall_forall in collaborators_elsewhere.
    apply collaborators_elsewhere in Ha as [Hno _]. by rewrite Hdest in Hno.
  - repeat (apply elem_of_cons in Ha as [->|Ha];
            [first [reflexivity
                   | simpl in Hdest; subst d; unfold switch_dests in Hd;
                     repeat (apply elem_of_cons in Hd as [[=]|Hd]);
                     by apply elem_of_nil in Hd]|]).
    by apply elem_of_nil in Ha.
Qed.

Lemma switch_found (o : string) :
  o ∈ switch_options ->
  exists a, Argparse.find_option (add_arguments env Argparse.ArgumentParser) o = Some a /\
            arg_action a = store_true /\
            dest a = (if String.eqb o "--get-perf-hash" then "get_perf_hash" else "quiet").
Proof.
  intros Ho.
  assert (Forall (fun a => o ∉ option_strings a)
                 (dotnet_add_arguments env ++ micro_benchmarks_add_arguments env)) as Hskip.
  { eapply Forall_impl; [apply collaborators_elsewhere|]. intros a [_ Ha]. by apply Ha. }
  unfold add_arguments.
  assert (Forall (fun a => o ∉ option_strings a) Argparse.ArgumentParser) as Hhelp.
  { repeat constructor. simpl. unfold switch_options in Ho.
    repeat (apply elem_of_cons in Ho as [->|Ho]);
      [set_unfold; intuition discriminate ..|by apply elem_of_nil in Ho]. }
  rewrite (find_option_skip _ _ _ Hhelp), (app_assoc (dotnet_add_arguments env)),
    (find_option_skip _ _ _ Hskip).
  unfold switch_options in Ho.
  repeat (apply elem_of_cons in Ho as [->|Ho]; [eexists; by repeat split|]).
  by apply elem_of_nil in Ho.
Qed.

Lemma switches_set (argv : list string) (ns : Namespace) (o : string) :
  __process_arguments env argv = Ok ns ->
  o ∈ switch_options -> o ∈ argv ->
  ns !! (if String.eqb o "--get-perf-hash" then "get_perf_hash" else "quiet")
    = Some (VBool true).
Proof.
  intros Hp Ho Hin. destruct (switch_found o Ho) as (a & Hfind & Hact & Hd).
  assert (exists rest, o = String "-" rest) as [rest Hrest].
  { unfold switch_options in Ho.
    repeat (apply elem_of_cons in Ho as [->|Ho]; [by eexists|]).
    by apply elem_of_nil in Ho. }
  eapply (consume_switch (add_arguments env Argparse.ArgumentParser)); try eassumption.
  intros a' Ha'. apply switch_writers; [|done].
  unfold switch_options in Ho. unfold switch_dests.
  repeat (apply elem_of_cons in Ho as [->|Ho]; [simpl; set_unfold; tauto|]).
  by apply elem_of_nil in Ho.
Qed.

End Switches.

(** X14.  A switch that stands on an accepted command line is on, wherever
    it stands and whatever follows it: with [-q] or [--quiet] the script is
    quiet, so that every call that takes a verbosity (the logger set-up, the
    installer and [dotnet.info]) is made with [verbose=False] in every run,
    completed or not; with [--get-perf-hash] the hash of the performance
    repository is discovered.  No argument of the collaborators may write
    the two attributes or use the three option strings. *)
Theorem switches_stay_on (env : Env) (argv : list string) (args : Args) :
  Forall (fun a => (dest a ∉ switch_dests) /\
                   (forall o, o ∈ switch_options -> o ∉ option_strings a))
         (dotnet_add_arguments env ++ micro_benchmarks_add_arguments env) ->
  parse_command_line env argv = Ok args ->
  ("--get-perf-hash" ∈ argv -> get_perf_hash args = true) /\
  ("-q" ∈ argv \/ "--quiet" ∈ argv ->
   quiet args = true /\
   forall s r s',
     __main env argv s = (r, s') ->
     exists evs,
       trace s' = trace s ++ evs /\
       Forall (fun ev => forall verbose, verbosity ev = Some verbose -> verbose = false) evs /\
       (validate_supported_runtime env = Ok tt -> EvSetupLoggers false ∈ evs)).
Proof.
  intros Hcollab Hp. pose proof Hp as Hp'. unfold parse_command_line in Hp'.
  apply and_then_ok in Hp' as (ns & Hns & Hargs).
  pose proof (fun o => switches_set env Hcollab argv ns o Hns) as Hset.
  split.
  - intros Hin.
    assert ("--get-perf-hash" ∈ switch_options) as Ho
      by (unfold switch_options; set_unfold; tauto).
    specialize (Hset _ Ho Hin). simpl in Hset.
    destruct (args_of_namespace_ok ns args Hargs) as (_ & _ & _ & _ & Hg & _).
    congruence.
  - intros Hin.
    assert (ns !! "quiet" = Some (VBool true)) as Hq.
    { destruct Hin as [Hin|Hin].
      - apply (Hset "-q"); [unfold switch_options; set_unfold; tauto | done].
      - apply (Hset "--quiet"); [unfold switch_options; set_unfold; tauto | done]. }
    destruct (args_of_namespace_optional ns args Hargs) as (_ & _ & _ & Hq').
    assert (quiet args = true) as Hquiet by congruence.
    split; [done|]. intros s r s' H.
    destruct (__main_emits env args argv s s' r Hp H) as (evs & Ht & HF).
    exists (EvValidateRuntime :: evs). split; [done|]. split.
    + constructor; [done|]. eapply Forall_impl; [exact HF|].
      intros ev Hev verbose Hv. destruct ev; simpl in Hv; try discriminate Hv;
        injection Hv as <-; simpl in Hev; rewrite Hquiet in Hev; simpl in Hev;
        by intuition.
    + intros Hv. rewrite (__main_parsed env argv args s Hv Hp) in H.
      apply main_with_stages in H
        as [(e & evs' & Hstop & -> & ->)
           |(tfms & chs & owner & repo & decoded & rb & s2 & Hreach & Hloop & Hend)].
      * simpl in Ht. rewrite <- app_assoc in Ht. apply app_inv_head in Ht.
        simpl in Ht. injection Ht as <-.
        destruct Hstop; unfold prelude_events; rewrite Hquiet;
          apply list_elem_of_further, list_elem_of_here.
      * apply for_frameworks_emits in Hloop as (rest & Ht2 & _). simpl in Ht2.
        assert (exists rest', trace s' = trace s2 ++ rest') as [rest' Ht'].
        { destruct rb as [b|e].
          - destruct (negb (is_win32 env) && b); destruct Hend as [_ ->].
            + by eexists [_].
            + exists []. by rewrite app_nil_r.
          - destruct Hend as [_ ->]. exists []. by rewrite app_nil_r. }
        rewrite Ht', Ht2, <- !app_assoc in Ht. apply app_inv_head in Ht.
        simpl in Ht. injection Ht as <-. rewrite Hquiet.
        apply list_elem_of_further, list_elem_of_here.
Qed.

Lemma switches_stay_on_witness :
  let argv := ["-q"; "--frameworks"; "netcoreapp3.1"; "--get-perf-hash"] in
  let run := __main Host.posix argv Host.start in
  exists args,
    parse_command_line Host.posix argv = Ok args /\
    get_perf_hash args = true /\ quiet args = true /\
    EvSetupLoggers false ∈ trace run.2.
Proof.
  intros argv run. exists ltac:(parsed Host.posix argv). split; [computed|].
  pose proof (fun H => switches_stay_on Host.posix argv _ H
                         (ltac:(computed) :
                            parse_command_line Host.posix argv = Ok _)) as D.
  destruct D as (Hg & Hq).
  { unfold switch_dests, switch_options. simpl.
    repeat (apply Forall_cons_2;
            [split; [set_unfold; intuition discriminate
                    | intros o Ho; simpl; set_unfold; intuition congruence]|]).
    apply Forall_nil_2. }
  split; [apply Hg; unfold argv; set_unfold; tauto|].
  destruct Hq as [Hquiet Hruns]; [left; unfold argv; set_unfold; tauto|].
  split; [exact Hquiet|].
  destruct (Hruns Host.start run.1 run.2 (surjective_pairing run))
    as (evs & Ht & _ & Hev).
  rewrite Ht. apply elem_of_app. right. by apply Hev.
Defined.

(** * The text that reaches the output file *)

(** ** The script writes what is expected *)

Lemma variable_format_assignment (env : Env) (name value : string) :
  variable_format env name value = assignment env name value.
Proof. reflexivity. Qed.

Lemma script_text_assignments (env : Env) (variables : list (string * string)) :
  script_text env variables = assignments env variables.
Proof. reflexivity. Qed.

Lemma found_unique (env : Env) (args : Args) (framework : string) (v v' : Found) :
  found env args framework v -> found env args framework v' -> v = v'.
Proof.
  intros [Hr Hp Hm Hv Hs Ht Hb] [Hr' Hp' Hm' Hv' Hs' Ht' Hb'].
  destruct v as [o r p m ver sha ts br], v' as [o' r' p' m' ver' sha' ts' br'].
  simpl in *.
  assert (m' = m) as -> by congruence.
  assert (ver' = ver) as -> by congruence.
  assert (sha' = sha) as -> by (destruct (commit_sha args); congruence).
  assert (ts' = ts) as -> by congruence.
  assert (br' = br) as ->.
  { destruct (branch args) as [[|c b]|]; congruence. }
  assert ((o', r') = (o, r)) as [= -> ->] by (destruct (repository args); congruence).
  assert (p' = p) as ->.
  { destruct (get_perf_hash args); [|congruence].
    destruct Hp as (out & Hg & Hd), Hp' as (out' & Hg' & Hd'). congruence. }
  reflexivity.
Qed.

Lemma expected_unique (env : Env) (args : Args) (framework : string)
    (variables variables' : list (string * string)) :
  expected env args framework variables -> expected env args framework variables' ->
  variables = variables'.
Proof.
  intros [v Hc Hf|Ho] [v' Hc' Hf'|Ho']; try congruence.
  by rewrite (found_unique env args framework v v' Hf Hf').
Qed.

Lemma expected_core_inv (env : Env) (args : Args) (framework : string)
    (variables : list (string * string)) :
  expected env args framework variables ->
  Str.startswith framework "netcoreapp" = true ->
  exists v, found env args framework v /\
            variables = core_assignments env args framework v.
Proof. intros [v Hc Hf|Ho] Hcore; [eauto | congruence]. Qed.

Lemma expected_other_inv (env : Env) (args : Args) (framework : string)
    (variables : list (string * string)) :
  expected env args framework variables ->
  Str.startswith framework "netcoreapp" = false ->
  variables = other_assignments framework.
Proof. intros [v Hc Hf|Ho] Hother; [congruence | done]. Qed.

Lemma framework_step_expected (env : Env) (args : Args) (owner repo decoded : string)
    (framework : string) (evs : list event) (variables : list (string * string)) :
  match repo_url_of args with
  | None => (owner, repo) = ("dotnet", "core-sdk")
  | Some url => dotnet_get_repository env url = Ok (owner, repo)
  end ->
  (exists output,
     git_rev_parse_head env (get_repo_root_path env) = Ok output /\
     decode_output output = Ok decoded) ->
  framework_step env args (repo_url_of args) owner repo
                 (config_string_of env (build_configs args))
                 (if get_perf_hash args then decoded else perf_hash args)
                 framework evs variables ->
  expected env args framework variables /\
  forall ev, ev ∈ evs -> is_write ev = true ->
             exists nv, nv ∈ variables /\
                        ev = EvWriteText (output_file args) (assignment env nv.1 nv.2).
Proof.
  intros Hrepo Hgit [tfm ver sha ts br Hcore Htfm Hver Hsha Hts Hbr|Hother].
  - split.
    + apply (expected_core env args framework
               {| found_owner := owner; found_repo := repo;
                  found_perf_hash := if get_perf_hash args then decoded else perf_hash args;
                  found_moniker := tfm; found_version := ver; found_sha := sha;
                  found_timestamp := ts; found_branch := br |}); [done|].
      constructor; simpl; try done.
      * unfold repo_url_of in Hrepo. by destruct (repository args).
      * by destruct (get_perf_hash args).
      * destruct (branch args) as [[|c b]|]; simpl in Hbr; [done| |done].
        by injection Hbr.
    + intros ev Hin Hw. rewrite !elem_of_app in Hin.
      destruct Hin as [Hin|[Hin|[Hin|Hin]]].
      * apply list_elem_of_singleton in Hin as ->. discriminate Hw.
      * destruct (commit_sha args); [by apply elem_of_nil in Hin|].
        apply list_elem_of_singleton in Hin as ->. discriminate Hw.
      * repeat (apply elem_of_cons in Hin as [->|Hin]; [discriminate Hw|]).
        by apply elem_of_nil in Hin.
      * unfold write_events in Hin. apply elem_of_cons in Hin as [->|Hin];
          [discriminate Hw|].
        apply list_elem_of_fmap in Hin as (nv & -> & Hnv). by exists nv.
  - split; [by apply expected_other|].
    intros ev Hin Hw. unfold write_events in Hin.
    apply elem_of_cons in Hin as [->|Hin]; [discriminate Hw|].
    apply list_elem_of_fmap in Hin as (nv & -> & Hnv). by exists nv.
Qed.

Lemma completed_expected (env : Env) (argv : list string) (args : Args) (s s' : State) :
  parse_command_line env argv = Ok args ->
  __main env argv s = (Ok tt, s') ->
  exists target_framework_monikers evs,
    get_target_framework_monikers env (frameworks args) = Ok target_framework_monikers /\
    trace s' = trace s ++ evs /\
    (forall framework,
       framework ∈ target_framework_monikers ->
       exists variables,
         expected env args framework variables /\
         forall nv, nv ∈ variables ->
                    EvWriteText (output_file args) (assignment env nv.1 nv.2) ∈ evs) /\
    (forall framework,
       last target_framework_monikers = Some framework ->
       exists variables,
         expected env args framework variables /\
         files s' !! output_file args = Some (assignments env variables)).
Proof.
  intros Hp H.
  destruct (__main_completed env args argv s s' tt Hp H) as (r & Hr & Ht & Hf).
  exists (monikers r), (EvValidateRuntime :: run_events env args r).
  split; [apply (res_monikers _ _ _ Hr)|]. split; [done|].
  assert (forall framework st,
            framework_step env args (repo_url_of args) (owner_repo r).1 (owner_repo r).2
                           (config_string_of env (build_configs args))
                           (perfHash_of args r) framework st.1 st.2 ->
            expected env args framework st.2) as Hexp.
  { intros fw st Hstep. eapply framework_step_expected; [| |exact Hstep].
    - pose proof (res_repository _ _ _ Hr) as Hrepo. by destruct (owner_repo r).
    - exists (git_output r). split; [apply (res_git _ _ _ Hr) | apply (res_decoded _ _ _ Hr)]. }
  split.
  - intros fw Hin.
    destruct (steps_elem _ _ _ _ _ _ _ _ _ _ (res_steps _ _ _ Hr) Hin) as (st & Hst & Hstep).
    exists st.2. split; [by apply Hexp|].
    intros [n v] Hnv. apply elem_of_cons. right. unfold run_events.
    rewrite !elem_of_app. right. right. right. left.
    eapply step_in_concat; [exact Hst|].
    by apply (framework_step_written _ _ _ _ _ _ _ _ _ _ n v Hstep).
  - intros fw Hlast.
    destruct (steps_last _ _ _ _ _ _ _ _ _ _ (res_steps _ _ _ Hr) Hlast)
      as (st & Hst & Hstep).
    exists st.2. split; [by apply Hexp|].
    by rewrite Hf, Hst, lookup_insert_eq.
Qed.

(** ** What a run that raises has written *)

Lemma raises_emitting_bind {A B} (P : event -> Prop) (m : M A) (k : A -> M B) :
  emits P m -> (forall a, raises_emitting P (k a)) -> raises_emitting P (m ≫= k).
Proof.
  intros Hm Hk s e s'. rewrite bind_run.
  destruct (m s) as [[a|e1] s1] eqn:E; intros H.
  - destruct (Hm _ _ _ E) as (evs1 & E1 & F1).
    destruct (Hk a _ _ _ H) as (evs2 & E2 & F2).
    exists (evs1 ++ evs2). rewrite E2, E1, app_assoc.
    split; [done | by apply Forall_app].
  - injection H as <- <-. by apply (Hm _ _ _ E).
Qed.

Lemma write_variables_raises (env : Env) (path : string)
    (variables : list (string * string)) (a : bool) :
  raises_emitting (fun ev => is_write ev = false)
                  (write_variables env path variables;; ret a).
Proof.
  intros s e s' H. rewrite bind_run in H.
  destruct (writable env path) eqn:Hw.
  - rewrite write_variables_run in H by done. discriminate H.
  - unfold write_variables in H. rewrite bind_run in H. unfold open_w at 1 in H.
    rewrite Hw in H. injection H as <- <-. exists [EvOpen path].
    split; [done | by constructor].
Qed.

Lemma process_framework_raises (env : Env) (args : Args) (repo_url : option string)
    (owner repo config_string perfHash : string) (remove_dotnet : bool)
    (framework : string) :
  raises_emitting (fun ev => is_write ev = false)
    (process_framework env args repo_url owner repo config_string perfHash
                       remove_dotnet framework).
Proof.
  unfold process_framework. destruct (Str.startswith framework "netcoreapp").
  - apply raises_emitting_bind; [apply emits_lift | intros tfm].
    apply raises_emitting_bind; [by apply emits_call | intros ver].
    apply raises_emitting_bind.
    { destruct (commit_sha args); [apply emits_ret | by apply emits_call]. }
    intros sha. apply raises_emitting_bind; [by apply emits_call | intros ts].
    apply raises_emitting_bind.
    { destruct (branch args) as [b|]; [destruct (falsy (Some b))|];
        first [apply emits_lift | apply emits_ret]. }
    intros br. apply raises_emitting_bind; [by apply emits_log | intros _].
    apply write_variables_raises.
  - apply write_variables_raises.
Qed.

(** The loop, however it ends: the frameworks it has gone through, what it
    did for each of them, and what it did for the one that failed. *)
Lemma for_frameworks_steps (env : Env) (args : Args) (repo_url : option string)
    (owner repo config_string perfHash : string)
    (target_framework_monikers : list string) :
  forall (remove_dotnet : bool) (s s' : State) (r : result bool),
    for_frameworks env args repo_url owner repo config_string perfHash
                   remove_dotnet target_framework_monikers s = (r, s') ->
    exists (done rest : list string)
           (steps : list (list event * list (string * string))) (tail : list event),
      target_framework_monikers = done ++ rest /\
      Forall2 (fun framework st =>
                 framework_step env args repo_url owner repo config_string perfHash
                                framework st.1 st.2)
              done steps /\
      trace s' = trace s ++ concat steps.*1 ++ tail /\
      Forall (fun ev => is_write ev = false) tail.
Proof.
  induction target_framework_monikers as [|framework rest IH];
    intros b s s' r H; simpl in H.
  - injection H as <- <-. exists [], [], [], []. simpl.
    split; [done|]. split; [constructor|]. split; [by rewrite app_nil_r | constructor].
  - rewrite bind_run in H.
    destruct (process_framework env args repo_url owner repo config_string perfHash
                                b framework s) as [[b1|e1] s1] eqn:Hstep.
    + apply process_framework_ok in Hstep as (evs & vars & Hstep & _ & _ & Ht1 & _).
      apply IH in H as (done & rest' & steps & tail & -> & Hsteps & Ht & Htail).
      exists (framework :: done), rest', ((evs, vars) :: steps), tail.
      split; [done|]. split; [by constructor|]. split; [|done].
      rewrite Ht, Ht1. simpl. by rewrite <- !app_assoc.
    + injection H as <- <-.
      apply process_framework_raises in Hstep as (tail & Ht & Htail).
      exists [], (framework :: rest), [], tail. simpl.
      split; [done|]. split; [constructor|]. done.
Qed.

Lemma prelude_no_write (env : Env) (args : Args) (channels : list string) :
  Forall (fun ev => is_write ev = false) (prelude_events env args channels).
Proof. unfold prelude_events. destruct (repo_url_of args); repeat constructor. Qed.

(** Whatever a run writes, completed or not, is an expected assignment of
    one of its frameworks. *)
Lemma run_writes_expected (env : Env) (argv : list string) (args : Args)
    (s s' : State) (r : result unit) :
  parse_command_line env argv = Ok args ->
  __main env argv s = (r, s') ->
  exists evs,
    trace s' = trace s ++ evs /\
    forall ev,
      ev ∈ evs -> is_write ev = true ->
      exists target_framework_monikers framework variables nv,
        get_target_framework_monikers env (frameworks args) = Ok target_framework_monikers /\
        framework ∈ target_framework_monikers /\
        expected env args framework variables /\
        nv ∈ variables /\
        ev = EvWriteText (output_file args) (assignment env nv.1 nv.2).
Proof.
  intros Hp H. destruct (validate_supported_runtime env) as [[]|e] eqn:Hv.
  2:{ unfold __main in H. rewrite bind_run in H. unfold call at 1 in H.
      rewrite Hv in H. injection H as <- <-. exists [EvValidateRuntime].
      split; [done|]. intros ev [->|Hin%elem_of_nil]%elem_of_cons; [|done].
      discriminate. }
  rewrite (__main_parsed env argv args s Hv Hp) in H.
  apply main_with_stages in H
    as [(e & evs & Hstop & -> & ->)
       |(tfms & chs & owner & repo & decoded & rb & s2 & Hreach & Hloop & Hend)].
  - exists (EvValidateRuntime :: evs). split; [simpl; by rewrite <- app_assoc|].
    intros ev [->|Hin]%elem_of_cons; [discriminate|].
    pose proof (stops_early_no_write env args e evs Hstop) as Hnw.
    rewrite Forall_forall in Hnw. intros Hw. apply Hnw in Hin. congruence.
  - apply for_frameworks_steps in Hloop
      as (done & rest & steps & tail & Htfms & Hsteps & Ht2 & Htail).
    simpl in Ht2.
    assert (exists last_call, trace s' = trace s2 ++ last_call /\
                              Forall (fun ev => is_write ev = false) last_call)
      as (last_call & Ht' & Hlast).
    { destruct rb as [b|e].
      - destruct (negb (is_win32 env) && b); destruct Hend as [_ ->].
        + eexists [_]. split; [done | by constructor].
        + exists []. split; [by rewrite app_nil_r | constructor].
      - destruct Hend as [_ ->]. exists []. split; [by rewrite app_nil_r | constructor]. }
    exists (EvValidateRuntime :: prelude_events env args chs ++ concat steps.*1 ++
            tail ++ last_call).
    split.
    { rewrite Ht', Ht2. unfold record. cbn [trace]. rewrite <- !app_assoc. reflexivity. }
    intros ev [->|Hin]%elem_of_cons Hw; [discriminate|].
    rewrite !elem_of_app in Hin.
    pose proof (prelude_no_write env args chs) as Hpre.
    rewrite Forall_forall in Hpre, Htail, Hlast.
    destruct Hin as [Hin|[Hin|[Hin|Hin]]];
      [apply Hpre in Hin; congruence | | apply Htail in Hin; congruence
      | apply Hlast in Hin; congruence].
    apply list_elem_of_In, in_concat in Hin as (evs' & Hevs' & Hin).
    apply list_elem_of_In, list_elem_of_fmap in Hevs' as (st & -> & Hst).
    apply list_elem_of_In in Hin.
    apply list_elem_of_lookup in Hst as [i Hi].
    destruct (Forall2_lookup_r _ _ _ _ _ Hsteps Hi) as (fw & Hfw & Hstep).
    destruct (framework_step_expected env args owner repo decoded fw st.1 st.2
                (reach_repository _ _ _ _ _ _ _ Hreach) (reach_git _ _ _ _ _ _ _ Hreach)
                Hstep) as [Hexp Hwrites].
    destruct (Hwrites ev Hin Hw) as (nv & Hnv & ->).
    exists tfms, fw, st.2, nv.
    split; [apply (reach_monikers _ _ _ _ _ _ _ Hreach)|].
    split; [|done]. rewrite Htfms. apply elem_of_app. left.
    by eapply list_elem_of_lookup_2.
Qed.

(** ** The commit that is written *)

(** C3.  With [--commit-sha] on the command line, no run asks the installed
    SDK for a commit.  A completed run writes, for every framework of the
    core kind, the text [export PERFLAB_HASH=] (on Windows
    [set PERFLAB_HASH=]) followed by the supplied value as it is and a line
    feed.  When such a framework is the last one, the output file is the
    script of thirteen assignments of that framework, in which the value of
    [PERFLAB_HASH] is the supplied one. *)
Theorem supplied_commit_sha_verbatim (env : Env) (argv : list string) (args : Args)
    (sha : string) (s s' : State) (r : result unit) :
  parse_command_line env argv = Ok args ->
  commit_sha args = Some sha ->
  __main env argv s = (r, s') ->
  exists evs,
    trace s' = trace s ++ evs /\
    (forall framework c, EvGetDotnetSdk framework c ∉ evs) /\
    (r = Ok tt ->
     forall target_framework_monikers,
       get_target_framework_monikers env (frameworks args) = Ok target_framework_monikers ->
       (forall framework,
          framework ∈ target_framework_monikers ->
          Str.startswith framework "netcoreapp" = true ->
          EvWriteText (output_file args) (assignment env "PERFLAB_HASH" sha) ∈ evs) /\
       (forall framework,
          last target_framework_monikers = Some framework ->
          Str.startswith framework "netcoreapp" = true ->
          exists v,
            found env args framework v /\
            found_sha v = sha /\
            files s' !! output_file args =
              Some (assignments env (core_assignments env args framework v)))).
Proof.
  intros Hp Hsha H.
  destruct (__main_emits env args argv s s' r Hp H) as (evs & Ht & HF).
  exists (EvValidateRuntime :: evs). split; [done|]. split.
  - intros fw c Hin. apply elem_of_cons in Hin as [[=]|Hin].
    rewrite Forall_forall in HF. apply HF in Hin. simpl in Hin.
    destruct Hin as [Hnone _]. congruence.
  - intros -> tfms Htfms.
    destruct (completed_expected env argv args s s' Hp H)
      as (tfms' & evs' & Htfms' & Ht' & Hall & Hlast).
    rewrite Htfms in Htfms'. injection Htfms' as <-.
    rewrite Ht in Ht'. apply app_inv_head in Ht'. rewrite Ht'.
    split.
    + intros fw Hin Hc. destruct (Hall fw Hin) as (vars & Hexp & Hw).
      apply expected_core_inv in Hexp as (v & Hf & ->); [|done].
      pose proof (found_sha_of _ _ _ _ Hf) as Hs. rewrite Hsha in Hs. rewrite <- Hs.
      apply (Hw ("PERFLAB_HASH", found_sha v)).
      unfold core_assignments. set_unfold. tauto.
    + intros fw Hl Hc. destruct (Hlast fw Hl) as (vars & Hexp & Hfile).
      apply expected_core_inv in Hexp as (v & Hf & ->); [|done].
      exists v. split; [done|]. split; [|done].
      pose proof (found_sha_of _ _ _ _ Hf) as Hs. by rewrite Hsha in Hs.
Qed.

Lemma supplied_commit_sha_verbatim_witness :
  let argv := ["--commit-sha"; "0c0ffee"; "--repository";
               "https://github.com/dotnet-runtime"; "--frameworks"; "netcoreapp3.1"] in
  let run := __main Host.posix argv Host.start in
  run.1 = Ok tt /\
  EvWriteText "/perf/tools/machine-setup.sh" ("export PERFLAB_HASH=0c0ffee" +:+ newline)
    ∈ trace run.2 /\
  files run.2 !! "/perf/tools/machine-setup.sh" =
    Some ("export PERFLAB_INLAB=1" +:+ newline +:+
          "export PERFLAB_REPO=dotnet/coreclr" +:+ newline +:+
          "export PERFLAB_BRANCH=master" +:+ newline +:+
          "export PERFLAB_PERFHASH=testSha" +:+ newline +:+
          "export PERFLAB_HASH=0c0ffee" +:+ newline +:+
          "export PERFLAB_QUEUE=testQueue" +:+ newline +:+
          "export PERFLAB_BUILDNUM=1234.1" +:+ newline +:+
          "export PERFLAB_BUILDARCH=x64" +:+ newline +:+
          "export PERFLAB_LOCALE=en-US" +:+ newline +:+
          "export PERFLAB_BUILDTIMESTAMP=2020-02-03T04:05:06Z" +:+ newline +:+
          "export PERFLAB_CONFIGS=" +:+ Str.dquote +:+ Str.dquote +:+ newline +:+
          "export DOTNET_VERSION=5.0.100" +:+ newline +:+
          "export PERFLAB_TARGET_FRAMEWORKS=netcoreapp3.1" +:+ newline).
Proof.
  intros argv run. split; [computed|].
  destruct (supplied_commit_sha_verbatim Host.posix argv
              ltac:(parsed Host.posix argv) "0c0ffee" Host.start run.2 run.1
              ltac:(computed) eq_refl (surjective_pairing run)) as (evs & Ht & _ & Hok).
  destruct (Hok ltac:(computed) ["netcoreapp3.1"] eq_refl) as [Hall Hlast].
  split.
  - rewrite Ht.
    exact (Hall "netcoreapp3.1" ltac:(apply list_elem_of_here) eq_refl).
  - destruct (Hlast "netcoreapp3.1" eq_refl eq_refl) as (v & Hf & _ & Hfile).
    assert (v = {| found_owner := "dotnet"; found_repo := "coreclr";
                   found_perf_hash := "testSha"; found_moniker := "netcoreapp3.1";
                   found_version := "5.0.100"; found_sha := "0c0ffee";
                   found_timestamp := "2020-02-03T04:05:06Z";
                   found_branch := "master" |}) as ->.
    { apply (found_unique _ _ _ _ _ Hf). by constructor. }
    exact Hfile.
Defined.

(** ** The hash of the performance repository *)

(** C5.  In a completed run the output of [git rev-parse HEAD], run in the
    root of the repository, decodes to a text: the output without its line
    terminators, so the hash itself when the output is the hash and a line
    feed.  For every framework of the core kind the run writes the text
    [export PERFLAB_PERFHASH=] (on Windows [set PERFLAB_PERFHASH=]) followed
    by that text under [--get-perf-hash], and by the value of [--perf-hash]
    otherwise, which is [testSha] when the option is absent, and a line
    feed.  When such a framework is the last one, the output file is the
    script of thirteen assignments of that framework, with this value for
    [PERFLAB_PERFHASH]. *)
Theorem perf_hash_variable (env : Env) (argv : list string) (args : Args) (s s' : State) :
  parse_command_line env argv = Ok args ->
  __main env argv s = (Ok tt, s') ->
  exists output decoded evs,
    git_rev_parse_head env (get_repo_root_path env) = Ok output /\
    decode_output output = Ok decoded /\
    decoded = Str.strip_linebreaks output /\
    (forall head,
       output = head +:+ newline ->
       Str.forallb (fun c => Utf8.is_ascii c && negb (Str.is_linebreak c)) head = true ->
       decoded = head) /\
    trace s' = trace s ++ evs /\
    EvGitRevParseHead (get_repo_root_path env) ∈ evs /\
    (Forall (fun a => dest a ∉ own_dests)
            (dotnet_add_arguments env ++ micro_benchmarks_add_arguments env) ->
     omitted ["--perf-hash"] argv = true -> perf_hash args = "testSha") /\
    forall target_framework_monikers,
      get_target_framework_monikers env (frameworks args) = Ok target_framework_monikers ->
      (forall framework,
         framework ∈ target_framework_monikers ->
         Str.startswith framework "netcoreapp" = true ->
         EvWriteText (output_file args)
           (assignment env "PERFLAB_PERFHASH"
                       (if get_perf_hash args then decoded else perf_hash args)) ∈ evs) /\
      (forall framework,
         last target_framework_monikers = Some framework ->
         Str.startswith framework "netcoreapp" = true ->
         exists v,
           found env args framework v /\
           found_perf_hash v = (if get_perf_hash args then decoded else perf_hash args) /\
           files s' !! output_file args =
             Some (assignments env (core_assignments env args framework v))).
Proof.
  intros Hp H.
  destruct (__main_completed env args argv s s' tt Hp H) as (r & Hr & Ht & _).
  destruct (completed_expected env argv args s s' Hp H)
    as (tfms & evs & Htfms & Ht' & Hall & Hlast).
  rewrite Ht in Ht'. apply app_inv_head in Ht'. subst evs.
  assert (forall fw v, found env args fw v ->
            found_perf_hash v = if get_perf_hash args then decoded_output r
                                else perf_hash args) as Hph.
  { intros fw v Hf. pose proof (found_perf_hash_of _ _ _ _ Hf) as Hv.
    destruct (get_perf_hash args); [|done].
    destruct Hv as (out & Hg & Hd).
    rewrite (res_git _ _ _ Hr) in Hg. injection Hg as <-.
    rewrite (res_decoded _ _ _ Hr) in Hd. by injection Hd. }
  exists (git_output r), (decoded_output r), (EvValidateRuntime :: run_events env args r).
  split; [apply (res_git _ _ _ Hr)|]. split; [apply (res_decoded _ _ _ Hr)|].
  split; [apply decode_output_strip, (res_decoded _ _ _ Hr)|].
  split.
  { intros head Hout Hhead. pose proof (res_decoded _ _ _ Hr) as Hd.
    rewrite Hout, decode_output_head in Hd by done. by injection Hd. }
  split; [done|]. split.
  { apply elem_of_cons. right. unfold run_events. rewrite !elem_of_app.
    right. right. left. apply list_elem_of_here. }
  split.
  { intros Hcollab Hom. unfold parse_command_line in Hp.
    apply and_then_ok in Hp as (ns & Hns & Hargs).
    destruct (own_defaults env Hcollab argv ns Hns) as (_ & _ & _ & Hdef & _).
    destruct (args_of_namespace_ok ns args Hargs) as (_ & _ & _ & Aph & _).
    specialize (Hdef Hom). congruence. }
  intros tfms' Htfms'. rewrite Htfms in Htfms'. injection Htfms' as <-.
  split.
  - intros fw Hin Hc. destruct (Hall fw Hin) as (vars & Hexp & Hw).
    apply expected_core_inv in Hexp as (v & Hf & ->); [|done].
    rewrite <- (Hph fw v Hf).
    apply (Hw ("PERFLAB_PERFHASH", found_perf_hash v)).
    unfold core_assignments. set_unfold. tauto.
  - intros fw Hl Hc. destruct (Hlast fw Hl) as (vars & Hexp & Hfile).
    apply expected_core_inv in Hexp as (v & Hf & ->); [|done].
    exists v. split; [done|]. split; [by apply (Hph fw) | done].
Qed.

Lemma perf_hash_variable_witness :
  let argv := ["--get-perf-hash"; "--frameworks"; "netcoreapp3.1"] in
  let argv' := ["--frameworks"; "netcoreapp3.1"] in
  let run := __main Host.posix argv Host.start in
  let run' := __main Host.posix argv' Host.start in
  run.1 = Ok tt /\ run'.1 = Ok tt /\
  EvWriteText "/perf/tools/machine-setup.sh" ("export PERFLAB_PERFHASH=4f2c1e9a7b" +:+ newline)
    ∈ trace run.2 /\
  EvWriteText "/perf/tools/machine-setup.sh" ("export PERFLAB_PERFHASH=testSha" +:+ newline)
    ∈ trace run'.2 /\
  files run.2 !! "/perf/tools/machine-setup.sh" =
    Some ("export PERFLAB_INLAB=1" +:+ newline +:+
          "export PERFLAB_REPO=dotnet/core-sdk" +:+ newline +:+
          "export PERFLAB_BRANCH=master" +:+ newline +:+
          "export PERFLAB_PERFHASH=4f2c1e9a7b" +:+ newline +:+
          "export PERFLAB_HASH=sdk0c0ffee" +:+ newline +:+
          "export PERFLAB_QUEUE=testQueue" +:+ newline +:+
          "export PERFLAB_BUILDNUM=1234.1" +:+ newline +:+
          "export PERFLAB_BUILDARCH=x64" +:+ newline +:+
          "export PERFLAB_LOCALE=en-US" +:+ newline +:+
          "export PERFLAB_BUILDTIMESTAMP=2020-02-03T04:05:06Z" +:+ newline +:+
          "export PERFLAB_CONFIGS=" +:+ Str.dquote +:+ Str.dquote +:+ newline +:+
          "export DOTNET_VERSION=5.0.100" +:+ newline +:+
          "export PERFLAB_TARGET_FRAMEWORKS=netcoreapp3.1" +:+ newline).
Proof.
  intros argv argv' run run'. split; [computed|]. split; [computed|].
  destruct (perf_hash_variable Host.posix argv ltac:(parsed Host.posix argv)
              Host.start run.2 ltac:(computed) ltac:(computed))
    as (output & decoded & evs & Hgit & Hdec & _ & Hhead & Ht & Hev & _ & Hvar).
  injection Hgit as <-.
  pose proof (Hhead "4f2c1e9a7b" eq_refl eq_refl) as ->.
  destruct (Hvar ["netcoreapp3.1"] eq_refl) as [Hall Hlast].
  destruct (perf_hash_variable Host.posix argv' ltac:(parsed Host.posix argv')
              Host.start run'.2 ltac:(computed) ltac:(computed))
    as (output' & decoded' & evs' & _ & _ & _ & _ & Ht' & _ & _ & Hvar').
  destruct (Hvar' ["netcoreapp3.1"] eq_refl) as [Hall' _].
  split; [|split].
  - rewrite Ht. exact (Hall "netcoreapp3.1" ltac:(apply list_elem_of_here) eq_refl).
  - rewrite Ht'. exact (Hall' "netcoreapp3.1" ltac:(apply list_elem_of_here) eq_refl).
  - destruct (Hlast "netcoreapp3.1" eq_refl eq_refl) as (v & Hf & Hph & Hfile).
    assert (v = {| found_owner := "dotnet"; found_repo := "core-sdk";
                   found_perf_hash := "4f2c1e9a7b"; found_moniker := "netcoreapp3.1";
                   found_version := "5.0.100"; found_sha := "sdk0c0ffee";
                   found_timestamp := "2020-02-03T04:05:06Z";
                   found_branch := "master" |}) as ->.
    { apply (found_unique _ _ _ _ _ Hf). constructor; try reflexivity.
      exists Host.git_output. by split. }
    exact Hfile.
Defined.

(** ** The architecture *)

(** C9.  The toolchain is installed, and removed, for [x64] when the run is
    asked for [arm64], and for the requested architecture otherwise; this
    holds of every call of every run.  A completed run has called the
    installer, and for a framework of the core kind it writes the text
    [export PERFLAB_BUILDARCH=] (on Windows [set PERFLAB_BUILDARCH=])
    followed by the requested architecture, [arm64] included, and a line
    feed.  When such a framework is the last one, the output file is the
    script of thirteen assignments of that framework, the eighth of which
    assigns the requested architecture to [PERFLAB_BUILDARCH]. *)
Theorem arm64_installs_x64 (env : Env) (argv : list string) (args : Args)
    (s s' : State) (r : result unit) :
  parse_command_line env argv = Ok args ->
  __main env argv s = (r, s') ->
  let installed :=
    if String.eqb (architecture args) "arm64" then "x64" else architecture args in
  exists evs,
    trace s' = trace s ++ evs /\
    (forall a channels versions verbose,
       EvInstall a channels versions verbose ∈ evs -> a = installed) /\
    (forall a, EvRemoveDotnet a ∈ evs -> a = installed) /\
    (r = Ok tt ->
     (exists channels,
        EvInstall installed channels (dotnet_versions args) (negb (quiet args)) ∈ evs) /\
     forall target_framework_monikers,
       get_target_framework_monikers env (frameworks args) = Ok target_framework_monikers ->
       (forall framework,
          framework ∈ target_framework_monikers ->
          Str.startswith framework "netcoreapp" = true ->
          EvWriteText (output_file args)
                      (assignment env "PERFLAB_BUILDARCH" (architecture args)) ∈ evs) /\
       (forall framework,
          last target_framework_monikers = Some framework ->
          Str.startswith framework "netcoreapp" = true ->
          exists v,
            found env args framework v /\
            core_assignments env args framework v !! 7 =
              Some ("PERFLAB_BUILDARCH", architecture args) /\
            files s' !! output_file args =
              Some (assignments env (core_assignments env args framework v)))).
Proof.
  intros Hp H installed.
  destruct (__main_emits env args argv s s' r Hp H) as (evs & Ht & HF).
  rewrite Forall_forall in HF.
  exists (EvValidateRuntime :: evs). split; [done|]. split.
  { intros a chs vs v Hin. apply elem_of_cons in Hin as [[=]|Hin].
    apply HF in Hin. simpl in Hin. tauto. }
  split.
  { intros a Hin. apply elem_of_cons in Hin as [[=]|Hin].
    apply HF in Hin. simpl in Hin. tauto. }
  intros ->.
  destruct (__main_completed env args argv s s' tt Hp H) as (res & Hr & Htr & _).
  destruct (completed_expected env argv args s s' Hp H)
    as (tfms & evs' & Htfms & Ht' & Hall & Hlast).
  rewrite Ht in Ht'. apply app_inv_head in Ht'. rewrite Ht'.
  split.
  { exists (channels res). rewrite Ht in Htr. apply app_inv_head in Htr.
    rewrite <- Ht', Htr. apply elem_of_cons. right. unfold run_events.
    apply elem_of_app. left. set_unfold. tauto. }
  intros tfms' Htfms'. rewrite Htfms in Htfms'. injection Htfms' as <-.
  split.
  - intros fw Hin Hc. destruct (Hall fw Hin) as (vars & Hexp & Hw).
    apply expected_core_inv in Hexp as (v & Hf & ->); [|done].
    apply (Hw ("PERFLAB_BUILDARCH", architecture args)).
    unfold core_assignments. set_unfold. tauto.
  - intros fw Hl Hc. destruct (Hlast fw Hl) as (vars & Hexp & Hfile).
    apply expected_core_inv in Hexp as (v & Hf & ->); [|done].
    exists v. split; [done|]. split; [reflexivity | done].
Qed.

Lemma arm64_installs_x64_witness :
  let argv := ["--architecture"; "arm64"; "--frameworks"; "netcoreapp3.0"] in
  let run := __main Host.posix argv Host.start in
  run.1 = Ok tt /\
  EvInstall "x64" ["master"] [] true ∈ trace run.2 /\
  (forall a, EvRemoveDotnet a ∈ trace run.2 -> a = "x64") /\
  EvWriteText "/perf/tools/machine-setup.sh" ("export PERFLAB_BUILDARCH=arm64" +:+ newline)
    ∈ trace run.2 /\
  files run.2 !! "/perf/tools/machine-setup.sh" =
    Some ("export PERFLAB_INLAB=1" +:+ newline +:+
          "export PERFLAB_REPO=dotnet/core-sdk" +:+ newline +:+
          "export PERFLAB_BRANCH=master" +:+ newline +:+
          "export PERFLAB_PERFHASH=testSha" +:+ newline +:+
          "export PERFLAB_HASH=sdk0c0ffee" +:+ newline +:+
          "export PERFLAB_QUEUE=testQueue" +:+ newline +:+
          "export PERFLAB_BUILDNUM=1234.1" +:+ newline +:+
          "export PERFLAB_BUILDARCH=arm64" +:+ newline +:+
          "export PERFLAB_LOCALE=en-US" +:+ newline +:+
          "export PERFLAB_BUILDTIMESTAMP=2020-02-03T04:05:06Z" +:+ newline +:+
          "export PERFLAB_CONFIGS=" +:+ Str.dquote +:+ Str.dquote +:+ newline +:+
          "export DOTNET_VERSION=5.0.100" +:+ newline +:+
          "export PERFLAB_TARGET_FRAMEWORKS=netcoreapp3.0" +:+ newline).
Proof.
  intros argv run. split; [computed|].
  destruct (arm64_installs_x64 Host.posix argv ltac:(parsed Host.posix argv)
              Host.start run.2 run.1 ltac:(computed)
              (surjective_pairing run)) as (evs & Ht & Hinst & Hrem & Hok).
  destruct (Hok ltac:(computed)) as [[chs Hin] Hvar].
  destruct (Hvar ["netcoreapp3.0"] eq_refl) as [Hall Hlast].
  split; [|split; [|split]].
  - apply list_elem_of_lookup. exists 3. computed.
  - intros a Ha. rewrite Ht in Ha. exact (Hrem a Ha).
  - rewrite Ht. exact (Hall "netcoreapp3.0" ltac:(apply list_elem_of_here) eq_refl).
  - destruct (Hlast "netcoreapp3.0" eq_refl eq_refl) as (v & Hf & _ & Hfile).
    assert (v = {| found_owner := "dotnet"; found_repo := "core-sdk";
                   found_perf_hash := "testSha"; found_moniker := "netcoreapp3.0";
                   found_version := "5.0.100"; found_sha := "sdk0c0ffee";
                   found_timestamp := "2020-02-03T04:05:06Z";
                   found_branch := "master" |}) as ->.
    { apply (found_unique _ _ _ _ _ Hf). by constructor. }
    exact Hfile.
Defined.

(** ** The lines of the output file *)

Lemma expected_names (env : Env) (args : Args) (framework : string)
    (variables : list (string * string)) :
  expected env args framework variables ->
  Forall (fun nv => no_linebreak nv.1 = true) variables.
Proof. intros [v Hc Hf|Ho]; repeat constructor. Qed.

Lemma assignments_lines (env : Env) (variables : list (string * string)) :
  Forall (fun nv => no_linebreak nv.1 = true) variables ->
  Forall (fun nv => no_linebreak nv.2 = true) variables ->
  Str.splitlines (assignments env variables) =
    map (fun nv => assignment_line env nv.1 nv.2) variables.
Proof.
  intros Hn Hv. apply (script_lines env variables).
  apply Forall_and. by split.
Qed.

(** C7, as the code has it.  Every text that a run writes, completed or
    not, goes to the output file and is one assignment of the script of one
    of the frameworks of the run, in the syntax of the host:
    [set NAME=VALUE] on Windows and [export NAME=VALUE] elsewhere, ended by
    a line feed, with no text besides.  After a completed run the file is
    the sequence of the assignments of the last framework; when none of the
    values that the script formats for it holds a line break, the lines of
    the file are these assignments, one on each line.  (The content is the
    text handed to [write]; the translation of the line feed to the line
    ending of the host is done below, by the text layer of the file.) *)
Theorem assignments_in_host_syntax (env : Env) (argv : list string) (args : Args)
    (s s' : State) (r : result unit) :
  parse_command_line env argv = Ok args ->
  __main env argv s = (r, s') ->
  exists evs,
    trace s' = trace s ++ evs /\
    (forall path text,
       EvWriteText path text ∈ evs ->
       path = output_file args /\
       exists target_framework_monikers framework variables name value,
         get_target_framework_monikers env (frameworks args)
           = Ok target_framework_monikers /\
         framework ∈ target_framework_monikers /\
         expected env args framework variables /\
         (name, value) ∈ variables /\
         text = (if String.eqb (sys_platform env) "win32" then "set " else "export ")
                +:+ name +:+ "=" +:+ value +:+ newline) /\
    (r = Ok tt ->
     forall target_framework_monikers framework,
       get_target_framework_monikers env (frameworks args) = Ok target_framework_monikers ->
       last target_framework_monikers = Some framework ->
       exists variables,
         expected env args framework variables /\
         files s' !! output_file args = Some (assignments env variables) /\
         (Forall (fun nv => no_linebreak nv.2 = true) variables ->
          Str.splitlines (assignments env variables) =
            map (fun nv =>
                   (if String.eqb (sys_platform env) "win32" then "set " else "export ")
                   +:+ nv.1 +:+ "=" +:+ nv.2)
                variables)).
Proof.
  intros Hp H.
  destruct (run_writes_expected env argv args s s' r Hp H) as (evs & Ht & Hw).
  exists evs. split; [done|]. split.
  - intros path text Hin.
    destruct (Hw _ Hin eq_refl) as (tfms & fw & vars & [n v] & Htfms & Hfw & Hexp & Hnv & Heq).
    injection Heq as -> ->. split; [done|]. by exists tfms, fw, vars, n, v.
  - intros -> tfms fw Htfms Hlast.
    destruct (completed_expected env argv args s s' Hp H)
      as (tfms' & evs' & Htfms' & _ & _ & Hfile).
    rewrite Htfms in Htfms'. injection Htfms' as <-.
    destruct (Hfile fw Hlast) as (vars & Hexp & Hf).
    exists vars. split; [done|]. split; [done|].
    intros Hvalues. apply assignments_lines; [by eapply expected_names | done].
Qed.

Lemma assignments_in_host_syntax_witness :
  let argv := ["--frameworks"; "net461"] in
  let posix := __main Host.posix argv Host.start in
  let windows := __main Host.windows argv Host.start in
  (forall path text,
     EvWriteText path text ∈ trace posix.2 ->
     text = "export PERFLAB_INLAB=0" +:+ newline \/
     text = "export PERFLAB_TARGET_FRAMEWORKS=net461" +:+ newline) /\
  (forall path text,
     EvWriteText path text ∈ trace windows.2 ->
     text = "set PERFLAB_INLAB=0" +:+ newline \/
     text = "set PERFLAB_TARGET_FRAMEWORKS=net461" +:+ newline) /\
  (forall content,
     files posix.2 !! "/perf/tools/machine-setup.sh" = Some content ->
     Str.splitlines content =
       ["export PERFLAB_INLAB=0"; "export PERFLAB_TARGET_FRAMEWORKS=net461"]) /\
  (forall content,
     files windows.2 !! "C:\perf\tools\machine-setup.cmd" = Some content ->
     Str.splitlines content =
       ["set PERFLAB_INLAB=0"; "set PERFLAB_TARGET_FRAMEWORKS=net461"]).
Proof.
  intros argv posix windows.
  destruct (assignments_in_host_syntax Host.posix argv ltac:(parsed Host.posix argv)
              Host.start posix.2 posix.1 ltac:(computed) (surjective_pairing posix))
    as (evs & Ht & Hw & Hfile).
  destruct (assignments_in_host_syntax Host.windows argv ltac:(parsed Host.windows argv)
              Host.start windows.2 windows.1 ltac:(computed) (surjective_pairing windows))
    as (evs' & Ht' & Hw' & Hfile').
  assert (forall env (args : Args) fw vars (n v : string),
            fw ∈ ["net461"] -> expected env args fw vars -> (n, v) ∈ vars ->
            (n, v) = ("PERFLAB_INLAB", "0") \/
            (n, v) = ("PERFLAB_TARGET_FRAMEWORKS", "net461")) as Hother.
  { intros env args fw vars n v Hfw Hexp Hnv.
    apply list_elem_of_singleton in Hfw as ->.
    apply expected_other_inv in Hexp as ->; [|reflexivity].
    unfold other_assignments in Hnv. set_unfold. tauto. }
  split; [|split; [|split]].
  - intros path text Hin. rewrite Ht in Hin.
    destruct (Hw path text Hin) as (_ & tfms & fw & vars & n & v & Htfms & Hfw & Hexp & Hnv & ->).
    injection Htfms as <-.
    destruct (Hother _ _ _ _ _ _ Hfw Hexp Hnv) as [[= -> ->]|[= -> ->]]; [by left | by right].
  - intros path text Hin. rewrite Ht' in Hin.
    destruct (Hw' path text Hin)
      as (_ & tfms & fw & vars & n & v & Htfms & Hfw & Hexp & Hnv & ->).
    injection Htfms as <-.
    destruct (Hother _ _ _ _ _ _ Hfw Hexp Hnv) as [[= -> ->]|[= -> ->]]; [by left | by right].
  - intros content Hc.
    destruct (Hfile ltac:(computed) ["net461"] "net461" eq_refl eq_refl)
      as (vars & Hexp & Hf & Hlines).
    apply expected_other_inv in Hexp as ->; [|reflexivity].
    pose proof (eq_trans (eq_sym Hc) Hf) as Heq. injection Heq as ->.
    exact (Hlines ltac:(repeat constructor)).
  - intros content Hc.
    destruct (Hfile' ltac:(computed) ["net461"] "net461" eq_refl eq_refl)
      as (vars & Hexp & Hf & Hlines).
    apply expected_other_inv in Hexp as ->; [|reflexivity].
    pose proof (eq_trans (eq_sym Hc) Hf) as Heq. injection Heq as ->.
    exact (Hlines ltac:(repeat constructor)).
Defined.
(** C7, as the specification has it, fails when a value holds a line feed:
    the script writes the value as it is.  With the queue [a], line feed,
    [b], the seventh line of the file is [b], which is no assignment. *)
Lemma assignment_per_line_counterexample :
  let argv := ["--queue"; "a" +:+ newline +:+ "b"; "--frameworks"; "netcoreapp3.1"] in
  let run := __main Host.posix argv Host.start in
  let content := default "" (files run.2 !! "/perf/tools/machine-setup.sh") in
  run.1 = Ok tt /\
  files run.2 !! "/perf/tools/machine-setup.sh" = Some content /\
  Str.splitlines content !! 5 = Some "export PERFLAB_QUEUE=a" /\
  Str.splitlines content !! 6 = Some "b" /\
  Str.startswith "b" "export " = false.
Proof.
  intros argv run content. repeat split; computed.
Qed.

(** ** The repository, the branch and the commit in the file *)

(** X7.  Without [--repository] a completed run does not ask for the owner
    of a repository and writes [dotnet/core-sdk] as [PERFLAB_REPO].  With
    it, every dash of the given text is replaced by a slash, nothing else
    is changed, the resulting URL is what [dotnet.get_repository] and the
    commit-date query receive, and the text written for [PERFLAB_REPO] is
    [export PERFLAB_REPO=] ([set PERFLAB_REPO=] on Windows), the owner, a
    slash, the name that were answered, and a line feed. *)
Theorem repository_resolution (env : Env) (argv : list string) (args : Args)
    (s s' : State) :
  parse_command_line env argv = Ok args ->
  __main env argv s = (Ok tt, s') ->
  exists evs owner repo,
    trace s' = trace s ++ evs /\
    match repository args with
    | None =>
        (owner, repo) = ("dotnet", "core-sdk") /\
        (forall url, EvGetRepository url ∉ evs) /\
        (forall framework sha url, EvGetCommitDate framework sha url ∈ evs -> url = None)
    | Some given =>
        let url := Str.replace "-"%char "/"%char given in
        dotnet_get_repository env url = Ok (owner, repo) /\
        EvGetRepository url ∈ evs /\
        (forall url', EvGetRepository url' ∈ evs -> url' = url) /\
        (forall framework sha url',
           EvGetCommitDate framework sha url' ∈ evs -> url' = Some url) /\
        Str.contains "-"%char url = false /\
        String.length url = String.length given
    end /\
    forall target_framework_monikers,
      get_target_framework_monikers env (frameworks args) = Ok target_framework_monikers ->
      (forall framework,
         framework ∈ target_framework_monikers ->
         Str.startswith framework "netcoreapp" = true ->
         EvWriteText (output_file args)
                     (assignment env "PERFLAB_REPO" (owner +:+ "/" +:+ repo)) ∈ evs) /\
      (forall framework,
         last target_framework_monikers = Some framework ->
         Str.startswith framework "netcoreapp" = true ->
         exists v,
           found env args framework v /\
           found_owner v = owner /\ found_repo v = repo /\
           files s' !! output_file args =
             Some (assignments env (core_assignments env args framework v))).
Proof.
  intros Hp H.
  destruct (__main_completed env args argv s s' tt Hp H) as (r & Hr & Ht & _).
  destruct (completed_expected env argv args s s' Hp H)
    as (tfms & evs0 & Htfms & Ht0 & Hall & Hlast).
  rewrite Ht in Ht0. apply app_inv_head in Ht0. subst evs0.
  destruct (__main_emits env args argv s s' (Ok tt) Hp H) as (evs & Ht' & HF).
  rewrite Ht in Ht'. apply app_inv_head in Ht'. injection Ht' as <-.
  rewrite Forall_forall in HF.
  assert (forall fw v, found env args fw v ->
            found_owner v = (owner_repo r).1 /\ found_repo v = (owner_repo r).2) as Hown.
  { intros fw v Hf. pose proof (found_repository_of _ _ _ _ Hf) as Hv.
    pose proof (res_repository _ _ _ Hr) as Hrepo. unfold repo_url_of in Hrepo.
    destruct (repository args); simpl in Hrepo; destruct (owner_repo r) as [o p];
      simpl.
    - rewrite Hrepo in Hv. by injection Hv.
    - injection Hrepo as -> ->. by injection Hv. }
  exists (EvValidateRuntime :: run_events env args r), (owner_repo r).1, (owner_repo r).2.
  split; [done|]. split.
  - pose proof (res_repository _ _ _ Hr) as Hrepo. unfold repo_url_of in *.
    destruct (repository args) as [given|] eqn:Hgiven; simpl in *.
    + split; [by destruct (owner_repo r)|]. split.
      { apply list_elem_of_further. unfold run_events, repo_url_of. rewrite Hgiven.
        simpl. do 4 apply list_elem_of_further. apply list_elem_of_here. }
      split.
      { intros url' [[=]|Hin]%elem_of_cons. apply HF in Hin. simpl in Hin.
        unfold repo_url_of in Hin. rewrite Hgiven in Hin. simpl in Hin. congruence. }
      split.
      { intros fw sha url' [[=]|Hin]%elem_of_cons. apply HF in Hin. simpl in Hin.
        unfold repo_url_of in Hin. by rewrite Hgiven in Hin. }
      split; [by apply replace_no_old | apply replace_length].
    + split; [by destruct (owner_repo r)|]. split.
      { intros url [[=]|Hin]%elem_of_cons. apply HF in Hin. simpl in Hin.
        unfold repo_url_of in Hin. by rewrite Hgiven in Hin. }
      intros fw sha url [[=]|Hin]%elem_of_cons. apply HF in Hin. simpl in Hin.
      unfold repo_url_of in Hin. by rewrite Hgiven in Hin.
  - intros tfms' Htfms'. rewrite Htfms in Htfms'. injection Htfms' as <-.
    split.
    + intros fw Hin Hc. destruct (Hall fw Hin) as (vars & Hexp & Hw).
      apply expected_core_inv in Hexp as (v & Hf & ->); [|done].
      destruct (Hown fw v Hf) as [<- <-].
      apply (Hw ("PERFLAB_REPO", found_owner v +:+ "/" +:+ found_repo v)).
      unfold core_assignments. set_unfold. tauto.
    + intros fw Hl Hc. destruct (Hlast fw Hl) as (vars & Hexp & Hfile).
      apply expected_core_inv in Hexp as (v & Hf & ->); [|done].
      destruct (Hown fw v Hf) as [Ho Hp']. by exists v.
Qed.

Lemma repository_resolution_witness :
  let argv := ["--commit-sha"; "0c0ffee"; "--repository";
               "https://github.com/dotnet-coreclr"; "--frameworks"; "netcoreapp3.1"] in
  let run := __main Host.posix argv Host.start in
  run.1 = Ok tt /\
  EvGetRepository "https://github.com/dotnet/coreclr" ∈ trace run.2 /\
  EvWriteText "/perf/tools/machine-setup.sh" ("export PERFLAB_REPO=dotnet/coreclr" +:+ newline)
    ∈ trace run.2.
Proof.
  intros argv run. split; [computed|].
  destruct (repository_resolution Host.posix argv ltac:(parsed Host.posix argv)
              Host.start run.2 ltac:(computed) ltac:(computed))
    as (evs & owner & repo & Ht & Hrepo & Hvar).
  simpl in Hrepo. destruct Hrepo as (Hanswer & Hev & _).
  injection Hanswer as <- <-. split.
  - rewrite Ht. exact Hev.
  - destruct (Hvar ["netcoreapp3.1"] eq_refl) as [Hall _]. rewrite Ht.
    exact (Hall "netcoreapp3.1" ltac:(apply list_elem_of_here) eq_refl).
Defined.

(** X8.  The text written for [PERFLAB_BRANCH] is [export PERFLAB_BRANCH=]
    ([set PERFLAB_BRANCH=] on Windows), then the value of [--branch] when
    that is a non-empty text, and otherwise, also for [--branch] with the
    empty text, the default branch that [get_branch] gives for the moniker
    of the framework, then a line feed. *)
Theorem branch_or_default (env : Env) (argv : list string) (args : Args)
    (s s' : State) (target_framework_monikers : list string) (framework : string) :
  parse_command_line env argv = Ok args ->
  __main env argv s = (Ok tt, s') ->
  get_target_framework_monikers env (frameworks args) = Ok target_framework_monikers ->
  Str.startswith framework "netcoreapp" = true ->
  exists evs,
    trace s' = trace s ++ evs /\
    (framework ∈ target_framework_monikers ->
     exists moniker br,
       get_target_framework_moniker env framework = Ok moniker /\
       match branch args with
       | Some (String c b) => br = String c b
       | _ => get_branch env moniker = Ok br
       end /\
       EvWriteText (output_file args) (assignment env "PERFLAB_BRANCH" br) ∈ evs) /\
    (last target_framework_monikers = Some framework ->
     exists v,
       found env args framework v /\
       match branch args with
       | Some (String c b) => found_branch v = String c b
       | _ => get_branch env (found_moniker v) = Ok (found_branch v)
       end /\
       files s' !! output_file args =
         Some (assignments env (core_assignments env args framework v))).
Proof.
  intros Hp H Htfms Hcore.
  destruct (completed_expected env argv args s s' Hp H)
    as (tfms & evs & Htfms' & Ht & Hall & Hlast).
  rewrite Htfms in Htfms'. injection Htfms' as <-.
  exists evs. split; [done|]. split.
  - intros Hin. destruct (Hall framework Hin) as (vars & Hexp & Hw).
    apply expected_core_inv in Hexp as (v & Hf & ->); [|done].
    exists (found_moniker v), (found_branch v).
    split; [apply (found_moniker_of _ _ _ _ Hf)|].
    split; [apply (found_branch_of _ _ _ _ Hf)|].
    apply (Hw ("PERFLAB_BRANCH", found_branch v)).
    unfold core_assignments. set_unfold. tauto.
  - intros Hl. destruct (Hlast framework Hl) as (vars & Hexp & Hfile).
    apply expected_core_inv in Hexp as (v & Hf & ->); [|done].
    exists v. split; [done|]. split; [apply (found_branch_of _ _ _ _ Hf) | done].
Qed.

Lemma branch_or_default_witness :
  let argv := ["--branch"; ""; "--frameworks"; "netcoreapp3.1"] in
  let argv' := ["--branch"; "release/3.1"; "--frameworks"; "netcoreapp3.1"] in
  let run := __main Host.posix argv Host.start in
  let run' := __main Host.posix argv' Host.start in
  EvWriteText "/perf/tools/machine-setup.sh" ("export PERFLAB_BRANCH=master" +:+ newline)
    ∈ trace run.2 /\
  EvWriteText "/perf/tools/machine-setup.sh" ("export PERFLAB_BRANCH=release/3.1" +:+ newline)
    ∈ trace run'.2.
Proof.
  intros argv argv' run run'. split.
  - destruct (branch_or_default Host.posix argv ltac:(parsed Host.posix argv)
                Host.start run.2 ["netcoreapp3.1"] "netcoreapp3.1"
                ltac:(computed) ltac:(computed) eq_refl eq_refl) as (evs & Ht & Hall & _).
    destruct (Hall ltac:(apply list_elem_of_here)) as (moniker & br & Hm & Hbr & Hw).
    injection Hm as <-. simpl in Hbr. injection Hbr as <-. rewrite Ht. exact Hw.
  - destruct (branch_or_default Host.posix argv' ltac:(parsed Host.posix argv')
                Host.start run'.2 ["netcoreapp3.1"] "netcoreapp3.1"
                ltac:(computed) ltac:(computed) eq_refl eq_refl) as (evs & Ht & Hall & _).
    destruct (Hall ltac:(apply list_elem_of_here)) as (moniker & br & Hm & Hbr & Hw).
    simpl in Hbr. subst br. rewrite Ht. exact Hw.
Defined.

(** X9.  After a completed run whose last framework is of the core kind,
    the output file is exactly the thirteen assignments of that framework,
    with values that belong together: the version and the commit are those
    of the moniker that [get_target_framework_moniker] gives for the
    framework, the commit is the one the SDK reports when none is supplied,
    the build timestamp is the date of the very commit that is written as
    [PERFLAB_HASH], and [PERFLAB_TARGET_FRAMEWORKS] is the framework as it
    was given.  No other values fit, so the content of the file is
    determined by the command line and the answers of the collaborators. *)
Theorem hash_and_timestamp_agree (env : Env) (argv : list string) (args : Args)
    (s s' : State) (target_framework_monikers : list string) (framework : string) :
  parse_command_line env argv = Ok args ->
  __main env argv s = (Ok tt, s') ->
  get_target_framework_monikers env (frameworks args) = Ok target_framework_monikers ->
  last target_framework_monikers = Some framework ->
  Str.startswith framework "netcoreapp" = true ->
  exists moniker version sha timestamp br owner repo perf,
    get_target_framework_moniker env framework = Ok moniker /\
    dotnet_get_dotnet_version env moniker (cli args) = Ok version /\
    match commit_sha args with
    | Some supplied => sha = supplied
    | None => dotnet_get_dotnet_sdk env moniker (cli args) = Ok sha
    end /\
    dotnet_get_commit_date env moniker sha
      (Str.replace "-"%char "/"%char <$> repository args) = Ok timestamp /\
    (forall v, found env args framework v ->
               v = {| found_owner := owner; found_repo := repo; found_perf_hash := perf;
                      found_moniker := moniker; found_version := version;
                      found_sha := sha; found_timestamp := timestamp;
                      found_branch := br |}) /\
    files s' !! output_file args =
      Some (assignments env
              [ ("PERFLAB_INLAB", "1");
                ("PERFLAB_REPO", owner +:+ "/" +:+ repo);
                ("PERFLAB_BRANCH", br);
                ("PERFLAB_PERFHASH", perf);
                ("PERFLAB_HASH", sha);
                ("PERFLAB_QUEUE", queue args);
                ("PERFLAB_BUILDNUM", build_number args);
                ("PERFLAB_BUILDARCH", architecture args);
                ("PERFLAB_LOCALE", locale args);
                ("PERFLAB_BUILDTIMESTAMP", timestamp);
                ("PERFLAB_CONFIGS",
                 if String.eqb (sys_platform env) "win32"
                 then Str.join ";" (build_configs args)
                 else Str.dquote +:+ Str.join ";" (build_configs args) +:+ Str.dquote);
                ("DOTNET_VERSION", version);
                ("PERFLAB_TARGET_FRAMEWORKS", framework) ]).
Proof.
  intros Hp H Htfms Hlast Hcore.
  destruct (completed_expected env argv args s s' Hp H)
    as (tfms & evs & Htfms' & _ & _ & Hfile).
  rewrite Htfms in Htfms'. injection Htfms' as <-.
  destruct (Hfile framework Hlast) as (vars & Hexp & Hf).
  apply expected_core_inv in Hexp as (v & Hfound & ->); [|done].
  exists (found_moniker v), (found_version v), (found_sha v), (found_timestamp v),
         (found_branch v), (found_owner v), (found_repo v), (found_perf_hash v).
  split; [apply (found_moniker_of _ _ _ _ Hfound)|].
  split; [apply (found_version_of _ _ _ _ Hfound)|].
  split; [apply (found_sha_of _ _ _ _ Hfound)|].
  split; [apply (found_timestamp_of _ _ _ _ Hfound)|].
  split.
  - intros v' Hv'. rewrite (found_unique _ _ _ _ _ Hv' Hfound). by destruct v.
  - exact Hf.
Qed.

Lemma hash_and_timestamp_agree_witness :
  let argv := ["--frameworks"; "net461"; "netcoreapp3.1"] in
  let run := __main Host.posix argv Host.start in
  files run.2 !! "/perf/tools/machine-setup.sh" =
    Some ("export PERFLAB_INLAB=1" +:+ newline +:+
          "export PERFLAB_REPO=dotnet/core-sdk" +:+ newline +:+
          "export PERFLAB_BRANCH=master" +:+ newline +:+
          "export PERFLAB_PERFHASH=testSha" +:+ newline +:+
          "export PERFLAB_HASH=sdk0c0ffee" +:+ newline +:+
          "export PERFLAB_QUEUE=testQueue" +:+ newline +:+
          "export PERFLAB_BUILDNUM=1234.1" +:+ newline +:+
          "export PERFLAB_BUILDARCH=x64" +:+ newline +:+
          "export PERFLAB_LOCALE=en-US" +:+ newline +:+
          "export PERFLAB_BUILDTIMESTAMP=2020-02-03T04:05:06Z" +:+ newline +:+
          "export PERFLAB_CONFIGS=" +:+ Str.dquote +:+ Str.dquote +:+ newline +:+
          "export DOTNET_VERSION=5.0.100" +:+ newline +:+
          "export PERFLAB_TARGET_FRAMEWORKS=netcoreapp3.1" +:+ newline).
Proof.
  intros argv run.
  destruct (hash_and_timestamp_agree Host.posix argv ltac:(parsed Host.posix argv)
              Host.start run.2 ["net461"; "netcoreapp3.1"] "netcoreapp3.1"
              ltac:(computed) ltac:(computed) eq_refl eq_refl eq_refl)
    as (moniker & version & sha & timestamp & br & owner & repo & perf &
        Hm & Hv & Hsha & Hts & Huniq & Hfile).
  injection Hm as <-. injection Hv as <-. injection Hsha as <-. injection Hts as <-.
  pose proof (Huniq {| found_owner := "dotnet"; found_repo := "core-sdk";
                       found_perf_hash := "testSha"; found_moniker := "netcoreapp3.1";
                       found_version := "5.0.100"; found_sha := "sdk0c0ffee";
                       found_timestamp := "2020-02-03T04:05:06Z";
                       found_branch := "master" |}
                    ltac:(by constructor)) as Hv.
  injection Hv as <- <- <- <-. exact Hfile.
Defined.

(** ** The names that a script assigns *)








(** ** The build configurations *)

(** C2, as the code has it.  The joined build configurations are written
    between double quotes on the hosts that use [export] and bare on
    Windows, where [set] is used.  On a POSIX host the list [a=1], [b=2]
    gives the quoted text; on Windows it gives [a=1;b=2].  The text written
    is [export PERFLAB_CONFIGS=] ([set PERFLAB_CONFIGS=] on Windows), this
    value and a line feed; it is the eleventh assignment of the file. *)
Theorem configs_quoted_unless_windows (env : Env) (argv : list string) (args : Args)
    (s s' : State) :
  parse_command_line env argv = Ok args ->
  __main env argv s = (Ok tt, s') ->
  let joined := Str.join ";" (build_configs args) in
  let value := if String.eqb (sys_platform env) "win32" then joined
               else Str.dquote +:+ joined +:+ Str.dquote in
  (build_configs args = ["a=1"; "b=2"] -> joined = "a=1;b=2") /\
  exists evs,
    trace s' = trace s ++ evs /\
    forall target_framework_monikers,
      get_target_framework_monikers env (frameworks args) = Ok target_framework_monikers ->
      (forall framework,
         framework ∈ target_framework_monikers ->
         Str.startswith framework "netcoreapp" = true ->
         writes_variable env evs (output_file args) "PERFLAB_CONFIGS" value) /\
      (forall framework,
         last target_framework_monikers = Some framework ->
         Str.startswith framework "netcoreapp" = true ->
         file_assigns env s' (output_file args) "PERFLAB_CONFIGS" value) /\
      (forall framework,
         framework ∈ target_framework_monikers ->
         Str.startswith framework "netcoreapp" = true ->
         EvWriteText (output_file args)
           ((if String.eqb (sys_platform env) "win32" then "set " else "export ")
            +:+ "PERFLAB_CONFIGS=" +:+ value +:+ newline) ∈ evs) /\
      (forall framework,
         last target_framework_monikers = Some framework ->
         Str.startswith framework "netcoreapp" = true ->
         exists v,
           found env args framework v /\
           core_assignments env args framework v !! 10 = Some ("PERFLAB_CONFIGS", value) /\
           files s' !! output_file args =
             Some (assignments env (core_assignments env args framework v))).
Proof.
  intros Hp H joined value. split.
  { unfold joined. by intros ->. }
  destruct (core_variable_of_run env argv args s s' "PERFLAB_CONFIGS"
              (fun _ => config_string_of env (build_configs args)) Hp H)
    as (res & Hr & Ht & Hall & Hlast).
  { intros res fw br sha ts ver. split; [|reflexivity].
    unfold core_variables. set_unfold. tauto. }
  destruct (completed_expected env argv args s s' Hp H)
    as (tfms & evs & Htfms & Ht' & Hall' & Hlast').
  rewrite Ht in Ht'. apply app_inv_head in Ht'. subst evs.
  exists (EvValidateRuntime :: run_events env args res). split; [done|].
  intros tfms' Htfms'. rewrite Htfms in Htfms'. injection Htfms' as <-.
  rewrite (res_monikers _ _ _ Hr) in Htfms. injection Htfms as <-.
  split; [done|]. split; [done|]. split.
  - intros fw Hin Hc. destruct (Hall' fw Hin) as (vars & Hexp & Hw).
    apply expected_core_inv in Hexp as (v & Hf & ->); [|done].
    apply (Hw ("PERFLAB_CONFIGS", value)).
    unfold core_assignments. set_unfold. tauto.
  - intros fw Hl Hc. destruct (Hlast' fw Hl) as (vars & Hexp & Hfile).
    apply expected_core_inv in Hexp as (v & Hf & ->); [|done].
    exists v. split; [done|]. split; [reflexivity | done].
Qed.

Lemma configs_quoted_unless_windows_witness :
  let argv := ["--build-configs"; "a=1"; "b=2"; "--frameworks"; "netcoreapp3.1"] in
  let posix := __main Host.posix argv Host.start in
  let windows := __main Host.windows argv Host.start in
  posix.1 = Ok tt /\ windows.1 = Ok tt /\
  file_assigns Host.posix posix.2 "/perf/tools/machine-setup.sh" "PERFLAB_CONFIGS"
               (Str.dquote +:+ "a=1;b=2" +:+ Str.dquote) /\
  file_assigns Host.windows windows.2 "C:\perf\tools\machine-setup.cmd" "PERFLAB_CONFIGS"
               "a=1;b=2" /\
  EvWriteText "/perf/tools/machine-setup.sh"
              ("export PERFLAB_CONFIGS=" +:+ Str.dquote +:+ "a=1;b=2" +:+ Str.dquote
               +:+ newline) ∈ trace posix.2 /\
  EvWriteText "C:\perf\tools\machine-setup.cmd"
              ("set PERFLAB_CONFIGS=a=1;b=2" +:+ newline) ∈ trace windows.2.
Proof.
  intros argv posix windows. split; [computed|]. split; [computed|].
  destruct (configs_quoted_unless_windows Host.posix argv
              ltac:(parsed Host.posix argv) Host.start posix.2
              ltac:(computed) ltac:(computed)) as (_ & evs & Ht & Hvar).
  destruct (Hvar ["netcoreapp3.1"] eq_refl) as (_ & Hlast & Hw & _).
  destruct (configs_quoted_unless_windows Host.windows argv
              ltac:(parsed Host.windows argv) Host.start windows.2
              ltac:(computed) ltac:(computed)) as (_ & evs' & Ht' & Hvar').
  destruct (Hvar' ["netcoreapp3.1"] eq_refl) as (_ & Hlast' & Hw' & _).
  split; [exact (Hlast "netcoreapp3.1" eq_refl eq_refl)|].
  split; [exact (Hlast' "netcoreapp3.1" eq_refl eq_refl)|].
  split.
  - rewrite Ht. exact (Hw "netcoreapp3.1" ltac:(apply list_elem_of_here) eq_refl).
  - rewrite Ht'. exact (Hw' "netcoreapp3.1" ltac:(apply list_elem_of_here) eq_refl).
Defined.

(** C2, as the specification has it, fails on both hosts: with the build
    configurations [a=1] and [b=2] the script writes the bare text where
    the claim wants quotes (Windows, [set]) and the quoted text where the
    claim wants none ([export]). *)
Lemma configs_quoted_on_windows_counterexample :
  let argv := ["--build-configs"; "a=1"; "b=2"; "--frameworks"; "netcoreapp3.1"] in
  let posix := __main Host.posix argv Host.start in
  let windows := __main Host.windows argv Host.start in
  posix.1 = Ok tt /\ windows.1 = Ok tt /\
  trace posix.2 !! 21 =
    Some (EvWriteText "/perf/tools/machine-setup.sh"
            ("export PERFLAB_CONFIGS=" +:+ Str.dquote +:+ "a=1;b=2" +:+ Str.dquote
             +:+ newline)) /\
  trace windows.2 !! 21 =
    Some (EvWriteText "C:\perf\tools\machine-setup.cmd"
            ("set PERFLAB_CONFIGS=a=1;b=2" +:+ newline)) /\
  config_string_of Host.posix ["a=1"; "b=2"] <> "a=1;b=2" /\
  config_string_of Host.windows ["a=1"; "b=2"] <> Str.dquote +:+ "a=1;b=2" +:+ Str.dquote.
Proof.
  intros argv posix windows.
  split; [computed|]. split; [computed|].
  split; [computed|]. split; [computed|].
  split; vm_compute; discriminate.
Qed.
